(** * LLM-Fact-Checker: claim extraction, retrieval and numeric verdicts

    A shallow embedding of [src/fact_checker.py] and
    [src/claim_extractor.py], then of [src/build_index.py],
    [src/pib_scraper.py] and [app/streamlit_app.py].

    - Python [float] is IEEE-754 binary64; it is modelled by [spec_float]
      with [prec = 53], [emax = 1024], so that every rounding of the source
      is performed by the model as well.
    - A Python [str] is modelled by [str], the sequence of its code points:
      lengths and slices count code points, and the decimal digits and the
      white space are those of Unicode, as [\d], [float] and [str.strip]
      see them.
    - Exceptions are modelled by a result type; dict objects live in an
      object store, so that copies and aliases are distinct things.
    - spaCy, the sentence embedder, the FAISS index and [repr] on floats are
      collaborators outside the repository: they are the fields of the
      classes [NLP], [Retrieval] and [FloatRepr]. *)

From Stdlib Require Import ZArith NArith Lia Bool Ascii String.
From Stdlib.Strings Require Import Byte.
From Stdlib Require Import SpecFloat Sorted.
From stdpp Require Import gmap strings list pretty.

(** ** Binary64 arithmetic *)

Module Float.
Local Open Scope Z_scope.

Definition prec : Z := 53.
Definition emax : Z := 1024.

Definition float := spec_float.

Definition sub : float -> float -> float := SFsub prec emax.
Definition div : float -> float -> float := SFdiv prec emax.
Definition abs : float -> float := SFabs.
Definition leb : float -> float -> bool := SFleb.
Definition ltb : float -> float -> bool := SFltb.
Definition eqb : float -> float -> bool := SFeqb.

(** The binary64 value nearest to [m / 10^k] (ties to even): what
    Python's decimal-to-float conversion yields for a literal whose
    digits, read without the point, are [m] and which has [k] digits
    after the point. *)
Definition of_decimal (m : N) (k : nat) : float :=
  match m with
  | N0 => S754_zero false
  | Npos p =>
      div (S754_finite false p 0)
          (S754_finite false (Z.to_pos (10 ^ Z.of_nat k)) 0)
  end.

(** A float is non-negative when it is [+0], a positive finite number or
    [+inf]. *)
Definition nonneg (x : float) : bool :=
  match x with
  | S754_zero false | S754_infinity false | S754_finite false _ _ => true
  | _ => false
  end.

Definition is_zero (x : float) : bool :=
  match x with S754_zero _ => true | _ => false end.
End Float.

Abbreviation float := Float.float.

(** ** Text

    A text is the sequence of its code points. A literal between double
    quotes is read as UTF-8; a one-character literal in [uchar_scope] is
    the code point it writes. *)

Definition char := N.

Inductive str :=
| Empty
| Char (c : char) (rest : str).

Declare Scope str_scope.
Delimit Scope str_scope with str.
Bind Scope str_scope with str.
Declare Scope uchar_scope.
Delimit Scope uchar_scope with uchar.
Bind Scope uchar_scope with char.

Module Utf8.
Local Open Scope N_scope.

(** The six low bits of a continuation byte. *)
Definition continuation (b : byte) : option N :=
  let n := Byte.to_N b in
  if (128 <=? n) && (n <? 192) then Some (n - 128) else None.

Fixpoint decode (bytes : list byte) : option str :=
  match bytes with
  | [] => Some Empty
  | b :: rest =>
      let n := Byte.to_N b in
      if n <? 128 then option_map (Char n) (decode rest)
      else if n <? 192 then None
      else if n <? 224 then
        match rest with
        | b1 :: rest1 =>
            match continuation b1 with
            | Some c1 => option_map (Char ((n - 192) * 64 + c1)) (decode rest1)
            | None => None
            end
        | _ => None
        end
      else if n <? 240 then
        match rest with
        | b1 :: b2 :: rest2 =>
            match continuation b1, continuation b2 with
            | Some c1, Some c2 =>
                option_map (Char (((n - 224) * 64 + c1) * 64 + c2)) (decode rest2)
            | _, _ => None
            end
        | _ => None
        end
      else if n <? 248 then
        match rest with
        | b1 :: b2 :: b3 :: rest3 =>
            match continuation b1, continuation b2, continuation b3 with
            | Some c1, Some c2, Some c3 =>
                option_map (Char ((((n - 240) * 64 + c1) * 64 + c2) * 64 + c3))
                           (decode rest3)
            | _, _, _ => None
            end
        | _ => None
        end
      else None
  end.

Definition byte_of (n : N) : list byte :=
  match Byte.of_N n with
  | Some b => [b]
  | None => []
  end.

Definition encode_char (c : char) : list byte :=
  if c <? 128 then byte_of c
  else if c <? 2048 then byte_of (192 + c / 64) ++ byte_of (128 + c mod 64)
  else if c <? 65536 then
    byte_of (224 + c / 4096) ++ byte_of (128 + (c / 64) mod 64)
    ++ byte_of (128 + c mod 64)
  else
    byte_of (240 + c / 262144) ++ byte_of (128 + (c / 4096) mod 64)
    ++ byte_of (128 + (c / 64) mod 64) ++ byte_of (128 + c mod 64).

Fixpoint encode (s : str) : option (list byte) :=
  match s with
  | Empty => Some []
  | Char c rest =>
      if c <? 1114112 then option_map (app (encode_char c)) (encode rest)
      else None
  end.

Definition decode_char (bytes : list byte) : option N :=
  match decode bytes with
  | Some (Char c Empty) => Some c
  | _ => None
  end.

Definition encode_one (c : N) : option (list byte) := encode (Char c Empty).
End Utf8.

String Notation str Utf8.decode Utf8.encode : str_scope.
String Notation N Utf8.decode_char Utf8.encode_one : uchar_scope.

Module Str.

Fixpoint length (s : str) : nat :=
  match s with
  | Empty => 0
  | Char _ rest => S (length rest)
  end.

Fixpoint append (a b : str) : str :=
  match a with
  | Empty => b
  | Char c rest => Char c (append rest b)
  end.

Fixpoint eqb (a b : str) : bool :=
  match a, b with
  | Empty, Empty => true
  | Char c a', Char d b' => N.eqb c d && eqb a' b'
  | _, _ => false
  end.

(** [sep.join(ls)] *)
Fixpoint concat (sep : str) (ls : list str) : str :=
  match ls with
  | [] => Empty
  | [x] => x
  | x :: xs => append x (append sep (concat sep xs))
  end.

Fixpoint to_list (s : str) : list char :=
  match s with
  | Empty => []
  | Char c rest => c :: to_list rest
  end.

Fixpoint of_list (l : list char) : str :=
  match l with
  | [] => Empty
  | c :: rest => Char c (of_list rest)
  end.

(** A text of ASCII characters, from its bytes. *)
Fixpoint of_string (s : string) : str :=
  match s with
  | EmptyString => Empty
  | String a rest => Char (N_of_ascii a) (of_string rest)
  end.

(** [of_list] undoes [to_list]. *)
Fixpoint of_to_list (s : str) : of_list (to_list s) = s :=
  match s with
  | Empty => eq_refl
  | Char c rest => f_equal (Char c) (of_to_list rest)
  end.
End Str.

Infix "++" := Str.append (right associativity, at level 60) : str_scope.
Arguments Str.append : simpl never.

(** Literals are texts; [++] on lists stays the concatenation of lists. *)
Open Scope str_scope.
Open Scope list_scope.

#[export] Instance str_eq_dec : EqDecision str.
Proof. solve_decision. Defined.

#[export] Instance str_countable : Countable str :=
  inj_countable' Str.to_list Str.of_list Str.of_to_list.

(** ** Text: the numeric pattern and [extract_numbers] *)

Module Text.
Local Open Scope str_scope.

(** The code points of the digits zero of Unicode 14.0, the version of
    Python 3.11: the decimal digits are these and the nine code points
    after each, with the values 1 to 9. They are the characters matched by
    [\d] and the digits [float] reads. *)
Definition decimal_zeros : list N :=
  [48; 1632; 1776; 1984; 2406; 2534; 2662; 2790; 2918; 3046; 3174; 3302;
   3430; 3558; 3664; 3792; 3872; 4160; 4240; 6112; 6160; 6470; 6608; 6784;
   6800; 6992; 7088; 7232; 7248; 42528; 43216; 43264; 43472; 43504; 43600;
   44016; 65296; 66720; 68912; 69734; 69872; 69942; 70096; 70384; 70736;
   70864; 71248; 71360; 71472; 71904; 72016; 72784; 73040; 73120; 92768;
   92864; 93008; 120782; 120792; 120802; 120812; 120822; 123200; 123632;
   125264; 130032]%N.

(** The value of a decimal digit. *)
Definition decimal (c : char) : option N :=
  match find (fun zero => (zero <=? c)%N && (c <? zero + 10)%N) decimal_zeros with
  | Some zero => Some (c - zero)%N
  | None => None
  end.

Definition is_digit (c : char) : bool :=
  match decimal c with
  | Some _ => true
  | None => false
  end.

Definition digit_value (c : char) : N := default 0%N (decimal c).

(** [text.replace(old, "")] for a one-character [old]. *)
Fixpoint remove_char (old : char) (text : str) : str :=
  match text with
  | Empty => Empty
  | Char c rest =>
      if N.eqb c old then remove_char old rest
      else Char c (remove_char old rest)
  end.

(** [\d+] is greedy: the longest run of digits at the head of the text,
    and what follows it. The run is empty when the text does not start
    with a digit. *)
Fixpoint digits_run (text : str) : str * str :=
  match text with
  | Empty => (Empty, Empty)
  | Char c rest =>
      if is_digit c then
        let '(ds, tl) := digits_run rest in (Char c ds, tl)
      else (Empty, text)
  end.

(** A match of the pattern: the digits before the point and, when the
    optional group took part, the digits after it. *)
Record literal := Literal { int_part : str; frac_part : option str }.

(** [(?:\.\d+)?] at the head of the text: the group is taken when a
    full stop is followed by at least one digit, and matches the empty
    text otherwise. *)
Definition optional_fraction (text : str) : option str * str :=
  match text with
  | Empty => (None, text)
  | Char c rest =>
      if N.eqb c "."%uchar then
        match digits_run rest with
        | (Empty, _) => (None, text)
        | (fs, tl) => (Some fs, tl)
        end
      else (None, text)
  end.

(** [\d+(?:\.\d+)?] anchored at the head of the text. *)
Definition match_number (text : str) : option (literal * str) :=
  match digits_run text with
  | (Empty, _) => None
  | (ds, tl) =>
      let '(fr, tl') := optional_fraction tl in
      Some (Literal ds fr, tl')
  end.

(** [re.findall]: matches are searched from left to right; after a match
    the search resumes where the match ended, after a failure one
    character further. The fuel bounds the number of search positions. *)
Fixpoint findall_from (fuel : nat) (text : str) : list literal :=
  match fuel with
  | O => []
  | S fuel' =>
      match text with
      | Empty => []
      | Char _ rest =>
          match match_number text with
          | Some (lit, tl) => lit :: findall_from fuel' tl
          | None => findall_from fuel' rest
          end
      end
  end.

Definition findall (text : str) : list literal :=
  findall_from (Str.length text) text.

(** The number written by a run of digits, most significant first. *)
Definition digits_value (ds : str) : N :=
  fold_left (fun acc c => (10 * acc + digit_value c)%N) (Str.to_list ds) 0%N.

(** [float(n)] on a matched literal [n]. *)
Definition float_of_literal (n : literal) : float :=
  match frac_part n with
  | None => Float.of_decimal (digits_value (int_part n)) 0
  | Some fs =>
      Float.of_decimal (digits_value (int_part n ++ fs)) (Str.length fs)
  end.

Definition extract_numbers (text : str) : list float :=
  let nums := findall (remove_char "," text) in
  map float_of_literal nums.

(** The texts matched by [\d+] (and the empty text). *)
Fixpoint all_digits (text : str) : bool :=
  match text with
  | Empty => true
  | Char c rest => is_digit c && all_digits rest
  end.

Fixpoint has_digit (text : str) : bool :=
  match text with
  | Empty => false
  | Char c rest => is_digit c || has_digit rest
  end.

(** The white space of Unicode, which [str.strip] removes. *)
Definition whitespace : list N :=
  [9; 10; 11; 12; 13; 28; 29; 30; 31; 32; 133; 160; 5760; 8192; 8193; 8194;
   8195; 8196; 8197; 8198; 8199; 8200; 8201; 8202; 8232; 8233; 8239; 8287;
   12288]%N.

Definition is_space (c : char) : bool := existsb (N.eqb c) whitespace.

Fixpoint lstrip (text : str) : str :=
  match text with
  | Empty => Empty
  | Char c rest => if is_space c then lstrip rest else text
  end.

Fixpoint rstrip (text : str) : str :=
  match text with
  | Empty => Empty
  | Char c rest =>
      match rstrip rest with
      | Empty => if is_space c then Empty else Char c Empty
      | kept => Char c kept
      end
  end.

Definition strip (text : str) : str := rstrip (lstrip text).

End Text.

Import Text.

(** ** Exceptions, values and the object store *)

(** The exceptions the code can raise. [InvalidReference] is the use of a
    reference that names no object of the store; no call of the functions
    below on the references they return produces it. *)
Inductive exn :=
| IndexError
| KeyError (key : str)
| AttributeError
| ZeroDivisionError
| InvalidReference.

Inductive result (A : Type) :=
| Ok (a : A)
| Raise (e : exn).
Arguments Ok {A} a.
Arguments Raise {A} e.

(** What a metadata row or a retrieved fact holds under a key: the texts
    loaded from the JSON file, and the float stored under ["score"]. *)
Inductive value :=
| VStr (s : str)
| VFloat (x : float).

Abbreviation dict := (gmap str value).

(** Dict objects are named by references. [Row i] is the object at position
    [i] of [self.metadata], the table loaded once by [VectorStore.__init__];
    [Obj i] is the [i]-th dict created since. Two references name the same
    object exactly when they are equal. *)
Inductive ref :=
| Row (i : nat)
| Obj (i : nat).

Record store := { metadata : list dict; objects : list dict }.

Definition read (st : store) (r : ref) : option dict :=
  match r with
  | Row i => metadata st !! i
  | Obj i => objects st !! i
  end.

Definition write (st : store) (r : ref) (d : dict) : store :=
  match r with
  | Row i => {| metadata := <[i := d]> (metadata st); objects := objects st |}
  | Obj i => {| metadata := metadata st; objects := <[i := d]> (objects st) |}
  end.

(** The store with the dicts [ds] created after those it has. *)
Definition grow (st : store) (ds : list dict) : store :=
  {| metadata := metadata st; objects := objects st ++ ds |}.

(** A computation reads and changes the store and either returns a value
    or raises; the store is kept in both cases. *)
Definition M (A : Type) : Type := store -> result A * store.

Definition ret {A} (a : A) : M A := fun st => (Ok a, st).
Definition raise {A} (e : exn) : M A := fun st => (Raise e, st).
Definition bind {A B} (m : M A) (k : A -> M B) : M B :=
  fun st =>
    match m st with
    | (Ok a, st') => k a st'
    | (Raise e, st') => (Raise e, st')
    end.
Definition lift {A} (r : result A) : M A := fun st => (r, st).

Notation "'let*' x ':=' m 'in' k" := (bind m (fun x => k))
  (at level 10, x name, m at level 100, k at level 200,
   format "'[v' 'let*'  x  ':='  m  'in' '/' k ']'").

Fixpoint mapM {A B} (f : A -> M B) (l : list A) : M (list B) :=
  match l with
  | [] => ret []
  | a :: l' => let* b := f a in let* bs := mapM f l' in ret (b :: bs)
  end.

(** The position that index [i] denotes in a Python list of length [n]: a
    negative index counts from the end. *)
Definition py_position (n : nat) (i : Z) : result nat :=
  let j := if (i <? 0)%Z then (i + Z.of_nat n)%Z else i in
  if ((j <? 0) || (Z.of_nat n <=? j))%Z then Raise IndexError
  else Ok (Z.to_nat j).

(** [l[i]] *)
Definition py_index {A} (l : list A) (i : Z) : result A :=
  match py_position (length l) i with
  | Ok j => match l !! j with
            | Some x => Ok x
            | None => Raise IndexError
            end
  | Raise e => Raise e
  end.

(** [self.metadata[idx]]: the row object itself, not a copy. *)
Definition metadata_getitem (idx : Z) : M ref :=
  fun st =>
    match py_position (length (metadata st)) idx with
    | Ok j => (Ok (Row j), st)
    | Raise e => (Raise e, st)
    end.

Definition deref (r : ref) : M dict :=
  fun st =>
    match read st r with
    | Some d => (Ok d, st)
    | None => (Raise InvalidReference, st)
    end.

Definition new_dict (d : dict) : M ref :=
  fun st => (Ok (Obj (length (objects st))), grow st [d]).

(** [dict(x)]: a new object with the items of [x]. *)
Definition dict_copy (r : ref) : M ref :=
  let* d := deref r in new_dict d.

(** A change of the object named by [r], in place. *)
Definition mutate (f : dict -> dict) (r : ref) : M unit :=
  fun st =>
    match read st r with
    | Some d => (Ok tt, write st r (f d))
    | None => (Raise InvalidReference, st)
    end.

(** [x[key] = v] *)
Definition setitem (r : ref) (key : str) (v : value) : M unit :=
  mutate (fun d => <[key := v]> d) r.

(** [x[key]] *)
Definition getitem (r : ref) (key : str) : M value :=
  let* d := deref r in
  match d !! key with
  | Some v => ret v
  | None => raise (KeyError key)
  end.

(** ** The collaborators *)

(** spaCy: a parsed document gives the texts of its sentences, the texts of
    its entities and its tokens with their part of speech. *)
Record Token := { token_text : str; pos_ : str }.
Record Doc := { sents : list str; ents : list str; tokens : list Token }.

Class NLP := { nlp : str -> Doc }.

(** The sentence embedder and the FAISS index: [index_search q k] is row 0
    of the two arrays returned by [index.search(q, k)], distances first,
    for a number of neighbours [k] of at least one; FAISS asserts that [k]
    is positive before it searches. *)
Class Retrieval := {
  embedding : Type;
  encode : str -> embedding;
  index_search : embedding -> nat -> list float * list Z
}.

(** [repr] of a float, as used by an f-string. *)
Class FloatRepr := { repr : float -> str }.

(** ** config.py *)

Definition TOP_K : nat := 5.

(** ** claim_extractor.py *)

Record Claim := { sentence : str; entities : list str }.

Section ClaimExtractor.
Context `{NLP}.

Definition has_verb (sent_doc : Doc) : bool :=
  existsb (fun token => Str.eqb (pos_ token) "VERB") (tokens sent_doc).

(** The body of the loop over [doc.sents], with the list [claims] built
    so far. *)
Fixpoint extract_claims_loop (sentences : list str) (claims : list Claim)
  : list Claim :=
  match sentences with
  | [] => claims
  | sent :: rest =>
      let sent_doc := nlp sent in
      let entities := ents sent_doc in
      if negb (bool_decide (entities = [])) && has_verb sent_doc then
        extract_claims_loop rest
          (claims ++ [ {| sentence := strip sent; entities := entities |} ])
      else extract_claims_loop rest claims
  end.

Definition extract_claims (text : str) : list Claim :=
  let doc := nlp text in
  extract_claims_loop (sents doc) [].
End ClaimExtractor.

(** ** fact_checker.py *)

Record VerdictRecord := {
  claim : str;
  retrieved_facts : list ref;
  verdict : str;
  reasoning : str;
  evidence : list value
}.

(** [float(dist)]: a binary32 distance is a binary64 number, the conversion
    keeps its value. *)
Definition py_float (dist : float) : float := dist.

(** [max(a, b)]: the second argument is chosen when it is greater than the
    first. *)
Definition py_max (a b : float) : float := if Float.ltb a b then b else a.

(** [a / b] on floats raises on a zero divisor. *)
Definition truediv (a b : float) : result float :=
  if Float.is_zero b then Raise ZeroDivisionError else Ok (Float.div a b).

(** The literals [1e-6] and [0.2] of the source. *)
Definition float_1e_6 : float := Float.of_decimal 1 6.
Definition float_0_2 : float := Float.of_decimal 2 1.

(** [extract_numbers] applied to the value found under ["statement"]: a
    value that is not a text has no [replace]. *)
Definition extract_numbers_of (v : value) : result (list float) :=
  match v with
  | VStr text => Ok (extract_numbers text)
  | VFloat _ => Raise AttributeError
  end.

Section FactChecker.
Context `{NLP} `{Retrieval} `{FloatRepr}.
Local Open Scope str_scope.

(** The loop of [retrieve] over [zip(distances[0], indices[0])], with the
    list [results] built so far. *)
Fixpoint retrieve_loop (pairs : list (float * Z)) (results : list ref)
  : M (list ref) :=
  match pairs with
  | [] => ret results
  | (dist, idx) :: rest =>
      let* row := metadata_getitem idx in
      let* meta := dict_copy row in
      let* _ := setitem meta "score" (VFloat (py_float dist)) in
      retrieve_loop rest (results ++ [meta])%list
  end.

(** [retrieve], asked for at least one neighbour. *)
Definition retrieve (query : str) (top_k : nat) : M (list ref) :=
  let q_emb := encode query in
  let '(distances, indices) := index_search q_emb top_k in
  retrieve_loop (zip distances indices) [].

(** [[fact["statement"] for fact in facts]] *)
Definition statements (facts : list ref) : M (list value) :=
  mapM (fun fact => getitem fact "statement") facts.

Definition classify_claim (claim : str) : M VerdictRecord :=
  let* retrieved := retrieve claim TOP_K in
  match retrieved with
  | [] =>
      ret {| claim := claim;
             retrieved_facts := [];
             verdict := "Unverifiable";
             reasoning :=
               "No relevant official facts were retrieved for this claim.";
             evidence := [] |}
  | top :: _ =>
      let* top_fact := getitem top "statement" in
      let claim_nums := extract_numbers claim in
      let* fact_nums := lift (extract_numbers_of top_fact) in
      match claim_nums, fact_nums with
      | c :: _, f :: _ =>
          let* rel_diff :=
            lift (truediv (Float.abs (Float.sub c f))
                          (py_max (Float.abs f) float_1e_6)) in
          if Float.leb rel_diff float_0_2 then
            let reasoning :=
              "The claim mentions " ++ repr c ++
              ", which is close to the official PIB figure " ++ repr f ++
              ". " ++ "This matches the retrieved evidence." in
            let* evidence := statements (take 3 retrieved) in
            ret {| claim := claim;
                   retrieved_facts := retrieved;
                   verdict := "True";
                   reasoning := reasoning;
                   evidence := evidence |}
          else
            let reasoning :=
              "The claim mentions " ++ repr c ++
              ", but the official PIB figure is " ++ repr f ++
              ", which is significantly different. " ++
              "Therefore, the claim is considered False." in
            let* evidence := statements (take 3 retrieved) in
            ret {| claim := claim;
                   retrieved_facts := retrieved;
                   verdict := "False";
                   reasoning := reasoning;
                   evidence := evidence |}
      | _, _ =>
          ret {| claim := claim;
                 retrieved_facts := retrieved;
                 verdict := "Unverifiable";
                 reasoning :=
                   "The claim does not contain numeric information comparable to official PIB facts, " ++
                   "or the retrieved fact does not match closely enough to verify.";
                 evidence := [] |}
      end
  end.

Definition fact_check_text (text : str) : M (list VerdictRecord) :=
  let claims := extract_claims text in
  match claims with
  | [] => ret []
  | _ => mapM (fun c => classify_claim (sentence c)) claims
  end.
End FactChecker.

(** ** Vocabulary of the statements below *)

(** The retrieved fact for a pair returned by the index: the items of the
    metadata row at the position, and the distance under ["score"]. *)
Definition fact_of (table : list dict) (pair : float * Z) : result dict :=
  match py_index table pair.2 with
  | Ok row => Ok (<["score" := VFloat pair.1]> row)
  | Raise e => Raise e
  end.

(** The images of the elements of a list up to the first that raises, and
    the exception raised, if any. *)
Fixpoint collect {A B} (f : A -> result B) (l : list A) : list B * option exn :=
  match l with
  | [] => ([], None)
  | a :: l' =>
      match f a with
      | Ok b => let '(bs, e) := collect f l' in (b :: bs, e)
      | Raise e => ([], Some e)
      end
  end.

(** The references of the next [n] dicts created in a store. *)
Definition fresh (st : store) (n : nat) : list ref :=
  map Obj (seq (length (objects st)) n).

(** What a dict object holds under ["statement"]. *)
Definition statement_of (st : store) (r : ref) : option value :=
  match read st r with
  | Some d => d !! "statement"%str
  | None => None
  end.

Definition score_of (st : store) (r : ref) : option value :=
  match read st r with
  | Some d => d !! "score"%str
  | None => None
  end.

(** Each float is at most the next one. *)
Fixpoint non_decreasing (xs : list float) : bool :=
  match xs with
  | x :: (y :: _) as rest => Float.leb x y && non_decreasing rest
  | _ => true
  end.

(** Of two neighbours at the same distance, the first has the smaller
    position in the index. *)
Fixpoint ties_by_position (pairs : list (float * Z)) : bool :=
  match pairs with
  | p :: (q :: _) as rest =>
      (negb (Float.eqb p.1 q.1) || (p.2 <? q.2)%Z) && ties_by_position rest
  | _ => true
  end.

(** A position that [l[i]] accepts. *)
Definition valid_index {A} (l : list A) (i : Z) : Prop :=
  (- Z.of_nat (length l) <= i < Z.of_nat (length l))%Z.

(** Several calls of [retrieve], one after the other. *)
Definition retrieve_all `{Retrieval} (calls : list (str * nat)) : M (list (list ref)) :=
  mapM (fun call => retrieve call.1 call.2) calls.



(** A sentence with at least one recognized entity and at least one verb
    token, as spaCy parses the sentence on its own. *)
Definition qualifies `{NLP} (sent : str) : Prop :=
  ents (nlp sent) <> [] /\
  Exists (fun token => pos_ token = "VERB"%str) (tokens (nlp sent)).

#[export] Instance qualifies_dec `{NLP} (sent : str) : Decision (qualifies sent).
Proof. unfold qualifies. apply _. Defined.

(** The claim made from a selected sentence. *)
Definition claim_of `{NLP} (sent : str) : Claim :=
  {| sentence := strip sent; entities := ents (nlp sent) |}.

(** Every position the index returns for a query is a row of the table. *)
Definition index_aligned `{Retrieval} (table : list dict) : Prop :=
  forall query top_k,
    Forall (valid_index table) (index_search (encode query) top_k).2.

(** Every row has a text under ["statement"], as [save_metadata] writes
    it. *)
Definition rows_have_text (table : list dict) : Prop :=
  Forall (fun row => exists text, row !! "statement"%str = Some (VStr text)) table.

(** [d["statement"]] on the items of a dict. *)
Definition statement_item (d : dict) : result value :=
  match d !! "statement"%str with
  | Some v => Ok v
  | None => Raise (KeyError "statement")
  end.

(** The relative difference computed by [classify_claim]. *)
Definition rel_diff_of (c f : float) : float :=
  Float.div (Float.abs (Float.sub c f)) (py_max (Float.abs f) float_1e_6).

Arguments rel_diff_of : simpl never.
Arguments float_0_2 : simpl never.
Arguments float_1e_6 : simpl never.

(** ** A small corpus

    Six official statements, an index over them and a stand-in for spaCy,
    used to run the definitions above on concrete inputs. *)

Module Sample.
Local Open Scope str_scope.

Definition row (id date statement : str) : dict :=
  <["id" := VStr id]> (<["source" := VStr "PIB"]> (<["date" := VStr date]>
    (<["statement" := VStr statement]> ∅))).

Definition table : list dict :=
  [ row "1" "2025-01-10" "NBA released Rs 40.0 crore to Andhra Pradesh for Red Sanders conservation.";
    row "2" "2025-02-03" "India exported 50 lakh tonnes of rice this year.";
    row "3" "2025-02-17" "The scheme now covers 40 districts.";
    row "4" "2025-03-01" "The cabinet discussed the free electricity policy for farmers.";
    row "5" "2025-03-09" "A total of 1,200 villages were electrified.";
    row "6" "2025-04-22" "The ministry sanctioned 3 new medical colleges." ].

Definition loaded : store := {| metadata := table; objects := [] |}.

(** The metadata file of an older build, one row short of the index. *)
Definition stale : store := {| metadata := take 5 table; objects := [] |}.

Definition claim_nba := "NBA released around Rs 39.84 crore to Andhra Pradesh.".
Definition claim_rice := "India exported 5 lakh tonnes of rice.".
Definition claim_power := "The government has announced free electricity to all farmers.".
Definition claim_minus := "The scheme left out -40 districts.".
Definition claim_colleges := "The ministry sanctioned 3.6 new medical colleges.".

Definition tenths (n : N) : float := Float.of_decimal n 1.

(** Positions by increasing distance, for the queries above. *)
Definition ranking (query : str) : list (float * Z) :=
  if Str.eqb query claim_nba then
    [(tenths 2, 0); (tenths 9, 2); (tenths 11, 1); (tenths 12, 4); (tenths 14, 3)]%Z
  else if Str.eqb query claim_rice then
    [(tenths 3, 1); (tenths 8, 4); (tenths 10, 5); (tenths 13, 0); (tenths 13, 2)]%Z
  else if Str.eqb query claim_power then
    [(tenths 4, 3); (tenths 9, 4); (tenths 12, 0); (tenths 15, 1); (tenths 16, 2)]%Z
  else if Str.eqb query claim_minus then
    [(tenths 5, 2); (tenths 7, 4); (tenths 12, 1); (tenths 12, 3); (tenths 13, 0)]%Z
  else if Str.eqb query claim_colleges then
    [(tenths 1, 5); (tenths 9, 2); (tenths 11, 1); (tenths 12, 4); (tenths 14, 3)]%Z
  else
    [(tenths 15, 0); (tenths 15, 1); (tenths 15, 2); (tenths 15, 3); (tenths 15, 4)]%Z.

#[export] Instance retrieval : Retrieval := {|
  embedding := str;
  encode := fun query => query;
  index_search := fun q k =>
    (take k (map fst (ranking q)), take k (map snd (ranking q)))
|}.

Definition verb (w : str) : Token := {| token_text := w; pos_ := "VERB" |}.
Definition noun (w : str) : Token := {| token_text := w; pos_ := "NOUN" |}.

Definition text_two := claim_nba ++ " " ++ claim_rice ++ " What a year!".

#[export] Instance spacy : NLP := {|
  nlp := fun text =>
    if Str.eqb text text_two then
      {| sents := [claim_nba; " " ++ claim_rice; " What a year!"];
         ents := ["NBA"; "39.84 crore"; "Andhra Pradesh"; "India"; "5 lakh tonnes"];
         tokens := [verb "released"; verb "exported"] |}
    else if Str.eqb text claim_nba then
      {| sents := [claim_nba];
         ents := ["NBA"; "39.84 crore"; "Andhra Pradesh"];
         tokens := [noun "NBA"; verb "released"] |}
    else if Str.eqb text (" " ++ claim_rice) then
      {| sents := [" " ++ claim_rice];
         ents := ["India"; "5 lakh tonnes"];
         tokens := [noun "India"; verb "exported"] |}
    else if Str.eqb text claim_power then
      {| sents := [claim_power];
         ents := ["government"];
         tokens := [noun "government"; verb "announced"] |}
    else if Str.eqb text " What a year!" then
      {| sents := [" What a year!"]; ents := ["a year"]; tokens := [noun "year"] |}
    else {| sents := [text]; ents := []; tokens := [] |}
|}.

(** Only the floats of the corpus and of the claims are printed. *)
#[export] Instance float_repr : FloatRepr := {|
  repr := fun x =>
    if Float.eqb x (Float.of_decimal 3984 2) then "39.84"
    else if Float.eqb x (Float.of_decimal 400 1) then "40.0"
    else if Float.eqb x (Float.of_decimal 5 0) then "5.0"
    else if Float.eqb x (Float.of_decimal 50 0) then "50.0"
    else if Float.eqb x (Float.of_decimal 36 1) then "3.6"
    else if Float.eqb x (Float.of_decimal 3 0) then "3.0"
    else "?"
|}.
End Sample.

(** * The rest of the repository

    Vocabulary for further properties of the functions above, then the
    index builder, the scraper and the page. *)

(** ** Further vocabulary *)

(** The first, respectively last, character of a text is white space. *)
Definition starts_with_space (text : str) : bool :=
  match text with
  | Empty => false
  | Char c _ => is_space c
  end.

Fixpoint ends_with_space (text : str) : bool :=
  match text with
  | Empty => false
  | Char c Empty => is_space c
  | Char _ rest => ends_with_space rest
  end.

Definition is_infinity (x : float) : bool :=
  match x with S754_infinity _ => true | _ => false end.

(** ** An index larger than its corpus

    Two statements and an index asked for more neighbours than it holds:
    FAISS fills the missing places with position -1 and the largest
    binary32 distance. *)

Module Padded.
Local Open Scope str_scope.

Definition table : list dict := take 2 Sample.table.

Definition loaded : store := {| metadata := table; objects := [] |}.

Definition flt_max : float :=
  Float.of_decimal 340282346638528859811704183484516925440 0.

Definition answer : list (float * Z) :=
  [(Sample.tenths 3, 1); (Sample.tenths 8, 0);
   (flt_max, -1); (flt_max, -1); (flt_max, -1)]%Z.

Definition index : Retrieval := {|
  embedding := str;
  encode := fun query => query;
  index_search := fun q k => (take k (map fst answer), take k (map snd answer))
|}.
End Padded.

(** The verdict and the evidence of [classify_claim], as a function of the
    claim and of the items of the retrieved facts. *)
Definition judge (claim : str) (facts : list dict)
  : result (str * list value) :=
  match facts with
  | [] => Ok ("Unverifiable"%str, [])
  | top :: _ =>
      match statement_item top with
      | Raise e => Raise e
      | Ok top_fact =>
          match extract_numbers_of top_fact with
          | Raise e => Raise e
          | Ok fact_nums =>
              match extract_numbers claim, fact_nums with
              | c :: _, f :: _ =>
                  match collect statement_item (take 3 facts) with
                  | (evidence, None) =>
                      Ok (if Float.leb (rel_diff_of c f) float_0_2
                          then "True"%str else "False"%str, evidence)
                  | (_, Some e) => Raise e
                  end
              | _, _ => Ok ("Unverifiable"%str, [])
              end
          end
      end
  end.

(** ** Records of the sample corpus *)

Module MoreSample.
Import Sample.
Local Open Scope str_scope.

Definition record_nba : VerdictRecord :=
  match (classify_claim claim_nba loaded).1 with
  | Ok record => record
  | Raise _ => Build_VerdictRecord "" [] "" "" []
  end.

Definition record_power : VerdictRecord :=
  match (classify_claim claim_power loaded).1 with
  | Ok record => record
  | Raise _ => Build_VerdictRecord "" [] "" "" []
  end.

Definition record_rice : VerdictRecord :=
  match (classify_claim claim_rice loaded).1 with
  | Ok record => record
  | Raise _ => Build_VerdictRecord "" [] "" "" []
  end.

Definition record_rice_padded : VerdictRecord :=
  match (@classify_claim Padded.index float_repr claim_rice Padded.loaded).1 with
  | Ok record => record
  | Raise _ => Build_VerdictRecord "" [] "" "" []
  end.

Definition records_two : list VerdictRecord :=
  match (fact_check_text text_two loaded).1 with
  | Ok records => records
  | Raise _ => []
  end.
End MoreSample.

(** ** build_index.py

    The table read by pandas from [facts.csv] is a list of column names and
    rows of cells; a cell is a text, an integer, a float or a boolean. A
    column whose cells are all integers, all floats or all booleans has the
    dtype int64, float64 or bool, and any other column has the dtype
    object, as [read_csv] infers them. Reading and writing the files, the
    embeddings and the FAISS index are outside this model: [load_facts] is
    given what [read_csv] found, and [save_metadata] returns the list it
    dumps as JSON. *)

Module BuildIndex.
Local Open Scope str_scope.

Inductive cell :=
| CStr (s : str)
| CInt (z : Z)
| CFloat (x : float)
| CBool (b : bool).

Record DataFrame := { columns : list str; rows : list (list cell) }.

(** [ColumnError key] is the [KeyError] of [row[key]]. *)
Inductive error :=
| FileNotFoundError
| ValueError
| ColumnError (key : str).

Inductive outcome (A : Type) :=
| Done (a : A)
| Failed (e : error).
Arguments Done {A} a.
Arguments Failed {A} e.

Definition required_cols : list str := ["id"; "source"; "date"; "statement"].

(** [facts_csv] is [None] when the file does not exist. *)
Definition load_facts (facts_csv : option DataFrame) : outcome DataFrame :=
  match facts_csv with
  | None => Failed FileNotFoundError
  | Some df =>
      if forallb (fun c => bool_decide (c ∈ columns df)) required_cols
      then Done df
      else Failed ValueError
  end.

(** The place of a column name among the columns. *)
Fixpoint column_position (key : str) (cols : list str) : option nat :=
  match cols with
  | [] => None
  | c :: cols' =>
      if Str.eqb c key then Some 0
      else option_map S (column_position key cols')
  end.

(** [row[key]] on a row of a table with columns [cols]. *)
Definition row_get (cols : list str) (row : list cell) (key : str)
  : outcome cell :=
  match column_position key cols with
  | Some i => match row !! i with
              | Some c => Done c
              | None => Failed (ColumnError key)
              end
  | None => Failed (ColumnError key)
  end.

Inductive dtype := Int64 | Float64 | BoolDtype | Object.

#[export] Instance dtype_eq_dec : EqDecision dtype.
Proof. solve_decision. Defined.

Definition cell_dtype (c : cell) : dtype :=
  match c with
  | CStr _ => Object
  | CInt _ => Int64
  | CFloat _ => Float64
  | CBool _ => BoolDtype
  end.

Definition dtype_eqb (a b : dtype) : bool :=
  match a, b with
  | Int64, Int64 | Float64, Float64 | BoolDtype, BoolDtype | Object, Object => true
  | _, _ => false
  end.

(** The dtype of a column, from its cells. *)
Definition column_dtype (cells : list cell) : dtype :=
  match cells with
  | [] => Object
  | c :: _ =>
      if forallb (fun c' => dtype_eqb (cell_dtype c') (cell_dtype c)) cells
      then cell_dtype c
      else Object
  end.

(** The cells of the column at position [j]. *)
Definition column_cells (df : DataFrame) (j : nat) : list cell :=
  omap (fun row => row !! j) (rows df).

Definition dtypes (df : DataFrame) : list dtype :=
  map (column_dtype ∘ column_cells df) (seq 0 (length (columns df))).

Definition is_numeric (d : dtype) : bool :=
  match d with
  | Int64 | Float64 => true
  | _ => false
  end.

(** The dtype of the array [df.values], in which the columns of every
    dtype are put together: the dtype all columns share when there is one,
    float64 for integers with floats, and object otherwise (booleans are
    not mixed with numbers). *)
Definition common_dtype (ds : list dtype) : dtype :=
  match ds with
  | [] => Object
  | d :: _ =>
      if forallb (dtype_eqb d) ds then d
      else if forallb is_numeric ds then Float64
      else Object
  end.

(** An integer as a float64: the nearest one. *)
Definition float_of_int (z : Z) : float :=
  match z with
  | Z0 => S754_zero false
  | Zpos p => Float.of_decimal (Npos p) 0
  | Zneg p => SFopp (Float.of_decimal (Npos p) 0)
  end.

(** A cell in an array of the given dtype. Only integers change, in a
    float64 array. *)
Definition cast (d : dtype) (c : cell) : cell :=
  match d, c with
  | Float64, CInt z => CFloat (float_of_int z)
  | _, _ => c
  end.

(** The rows of [df.iterrows()]: each is a row of [df.values]. *)
Definition iterrows (df : DataFrame) : list (list cell) :=
  map (map (cast (common_dtype (dtypes df)))) (rows df).

Section Rows.
Context `{FloatRepr}.

(** [str(x)] on a cell. *)
Definition py_str (c : cell) : str :=
  match c with
  | CStr s => s
  | CInt z => Str.of_string (pretty z)
  | CFloat x => repr x
  | CBool true => "True"
  | CBool false => "False"
  end.

Definition metadata_row (cols : list str) (row : list cell) : outcome dict :=
  match row_get cols row "id" with
  | Failed e => Failed e
  | Done id =>
      match row_get cols row "source" with
      | Failed e => Failed e
      | Done source =>
          match row_get cols row "date" with
          | Failed e => Failed e
          | Done date =>
              match row_get cols row "statement" with
              | Failed e => Failed e
              | Done statement =>
                  Done (<["statement" := VStr (py_str statement)]>
                         (<["date" := VStr (py_str date)]>
                           (<["source" := VStr (py_str source)]>
                             (<["id" := VStr (py_str id)]> ∅))))
              end
          end
      end
  end.

(** The loop of [save_metadata] over [df.iterrows()], with the list
    [metadata] built so far. *)
Fixpoint save_metadata_loop (cols : list str) (todo : list (list cell))
    (metadata : list dict) : outcome (list dict) :=
  match todo with
  | [] => Done metadata
  | row :: rest =>
      match metadata_row cols row with
      | Failed e => Failed e
      | Done d => save_metadata_loop cols rest (metadata ++ [d])
      end
  end.

Definition save_metadata (df : DataFrame) : outcome (list dict) :=
  save_metadata_loop (columns df) (iterrows df) [].
End Rows.

(** The cell of a row under a column. *)
Definition cell_at (cols : list str) (row : list cell) (key : str)
  : option cell :=
  match column_position key cols with
  | Some i => row !! i
  | None => None
  end.

(** The dict made from a row of a table whose array has the dtype
    [d]: four texts, whatever else the row holds. *)
Definition row_dict_ok `{FloatRepr} (d : dtype) (cols : list str)
    (row : list cell) (meta : dict) : Prop :=
  dom meta = list_to_set required_cols /\
  forall key, key ∈ required_cols ->
    exists c, cell_at cols row key = Some c /\
              meta !! key = Some (VStr (py_str (cast d c))).

(** What pandas guarantees of a table it read: distinct column names and
    one cell per column in every row. *)
Definition well_shaped (df : DataFrame) : Prop :=
  NoDup (columns df) /\
  Forall (fun row => length row = length (columns df)) (rows df).

(** A table as the scraper writes it: two more columns than required. *)
Definition scraped : DataFrame :=
  {| columns := ["id"; "source"; "date"; "statement"; "title"; "url"];
     rows :=
       [ [CInt 1; CStr "PIB"; CStr "2025-01-10";
          CStr "NBA released Rs 40.0 crore to Andhra Pradesh.";
          CStr "NBA release"; CStr "https://pib.gov.in/1"];
         [CInt 3; CStr "PIB"; CStr "2025-02-03";
          CStr "India exported 50 lakh tonnes of rice this year.";
          CStr "Rice exports"; CStr "https://pib.gov.in/3"] ] |}.

End BuildIndex.

(** The store of a fact checker started on the metadata built from
    [BuildIndex.scraped]. *)
Module Built.
Definition table : list dict :=
  match @BuildIndex.save_metadata Sample.float_repr BuildIndex.scraped with
  | BuildIndex.Done t => t
  | BuildIndex.Failed _ => []
  end.

Definition loaded : store := {| metadata := table; objects := [] |}.
End Built.

(** ** pib_scraper.py

    The feed and the press release pages come from the network; what the
    requests and the parsers return is given by the class [Web]. A text is
    the list of its characters: [len] and the slices count them. *)

Module Scraper.
Local Open Scope str_scope.

Record PibItem := { title : str; link : str; pub_date : option str }.

(** An [<item>] element of the feed: for each of the children [title],
    [link] and [pubDate], [None] when the child is absent, and otherwise
    its text, which may be absent too. *)
Record ItemElement := {
  title_el : option (option str);
  link_el : option (option str);
  date_el : option (option str)
}.

(** A press release page: the texts of its [<p>] elements and the text of
    its body (of the whole document when it has no body). *)
Record Page := { paragraphs : list str; body_text : str }.

Class Web := {
  (** the [item] elements of the feed; [None] when the request or the
      parser raises *)
  rss_feed : option (list ItemElement);
  (** the page at a link; [None] when the request raises *)
  press_release : str -> option Page;
  (** [email.utils.parsedate_to_datetime(s).date().isoformat()]; [None]
      when it raises *)
  parsedate_iso : str -> option str;
  (** [datetime.utcnow().date().isoformat()] *)
  utc_today : str
}.

(** [el.text.strip() if el.text else ""] *)
Definition stripped_text (text : option str) : str :=
  match text with
  | Some t => if bool_decide (t = "") then "" else strip t
  | None => ""
  end.

(** The item made from an element that has a title and a link. *)
Definition item_of (element : ItemElement) : option PibItem :=
  match title_el element, link_el element with
  | Some title_text, Some link_text =>
      Some {| title := stripped_text title_text;
              link := stripped_text link_text;
              pub_date :=
                match date_el element with
                | Some (Some t) =>
                    if bool_decide (t = "") then None else Some (strip t)
                | _ => None
                end |}
  | _, _ => None
  end.

(** The loop of [fetch_rss_items] over the elements, with the list [items]
    built so far; it stops as soon as the list has [limit] items. *)
Fixpoint fetch_rss_loop (elements : list ItemElement) (limit : Z)
    (items : list PibItem) : list PibItem :=
  match elements with
  | [] => items
  | element :: rest =>
      match item_of element with
      | None => fetch_rss_loop rest limit items
      | Some item =>
          let items := (items ++ [item])%list in
          if (limit <=? Z.of_nat (length items))%Z then items
          else fetch_rss_loop rest limit items
      end
  end.

(** [s[:n]] *)
Fixpoint str_take (n : nat) (s : str) : str :=
  match n, s with
  | S n', Char c rest => Char c (str_take n' rest)
  | _, _ => ""
  end.

(** The text kept from a page. *)
Definition main_text (page : Page) : str :=
  match paragraphs page with
  | [] => str_take 1000 (body_text page)
  | _ =>
      let non_empty := filter (fun p => p <> "") (paragraphs page) in
      let main_paras := take 4 non_empty in
      let statement := Str.concat " " main_paras in
      if (1500 <? Str.length statement)%nat
      then str_take 1500 statement ++ "..."
      else statement
  end.

Record Fact := {
  fact_id : nat;
  fact_source : str;
  fact_date : str;
  fact_statement : str;
  fact_title : str;
  fact_url : str
}.

Section Functions.
Context `{Web}.

Definition fetch_rss_items (limit : Z) : option (list PibItem) :=
  match rss_feed with
  | None => None
  | Some elements => Some (fetch_rss_loop elements limit [])
  end.

Definition parse_pub_date (pub_date_raw : option str) : str :=
  match pub_date_raw with
  | None => utc_today
  | Some raw =>
      if bool_decide (raw = "") then utc_today
      else match parsedate_iso raw with
           | Some iso => iso
           | None => utc_today
           end
  end.

Definition extract_main_text_from_press_release (url : str) : option str :=
  match press_release url with
  | None => None
  | Some page => Some (main_text page)
  end.

(** The loop of [build_facts_from_pib] over [enumerate(items, start=1)]:
    [idx] is the number of the next item, [facts] the list built so far. *)
Fixpoint build_facts_loop (items : list PibItem) (idx : nat) (facts : list Fact)
  : list Fact :=
  match items with
  | [] => facts
  | item :: rest =>
      let date_iso := parse_pub_date (pub_date item) in
      match extract_main_text_from_press_release (link item) with
      | None => build_facts_loop rest (S idx) facts
      | Some statement =>
          let fact := {| fact_id := idx;
                         fact_source := "PIB";
                         fact_date := date_iso;
                         fact_statement := statement;
                         fact_title := title item;
                         fact_url := link item |} in
          build_facts_loop rest (S idx) (facts ++ [fact])%list
      end
  end.

(** The fact built for the item numbered [idx], when its page is fetched. *)
Definition fact_of_item (idx : nat) (item : PibItem) : option Fact :=
  match press_release (link item) with
  | None => None
  | Some page =>
      Some {| fact_id := idx;
              fact_source := "PIB";
              fact_date := parse_pub_date (pub_date item);
              fact_statement := main_text page;
              fact_title := title item;
              fact_url := link item |}
  end.

Definition build_facts_from_pib (limit : Z) : option (list Fact) :=
  match fetch_rss_items limit with
  | None => None
  | Some items => Some (build_facts_loop items 1 [])
  end.
End Functions.

(** A feed of four elements, the second without a link, and pages for the
    first and the last item only. *)
Definition sample_web : Web := {|
  rss_feed := Some
    [ {| title_el := Some (Some " Rice exports "); link_el := Some (Some "https://pib.gov.in/1");
         date_el := Some (Some "Mon, 03 Feb 2025 10:00:00 +0530") |};
      {| title_el := Some (Some "No link"); link_el := None; date_el := None |};
      {| title_el := Some None; link_el := Some (Some "https://pib.gov.in/2");
         date_el := None |};
      {| title_el := Some (Some "Colleges"); link_el := Some (Some "https://pib.gov.in/3");
         date_el := Some (Some "garbled") |} ];
  press_release := fun url =>
    if Str.eqb url "https://pib.gov.in/1" then
      Some {| paragraphs := [""; "India exported 50 lakh tonnes of rice."; "More follows."];
              body_text := "" |}
    else if Str.eqb url "https://pib.gov.in/3" then
      Some {| paragraphs := []; body_text := "The ministry sanctioned 3 new medical colleges." |}
    else None;
  parsedate_iso := fun raw =>
    if Str.eqb raw "Mon, 03 Feb 2025 10:00:00 +0530" then Some "2025-02-03" else None;
  utc_today := "2025-05-01"
|}.
End Scraper.

(** ** streamlit_app.py

    The script draws the page by calling Streamlit. What it draws once the
    button is pressed is modelled by the list of these calls, in order; the
    title and the text area, drawn before the button on every run, are left
    out. The literals of the script are kept as they are written. *)

Module App.
Local Open Scope str_scope.

Inductive call :=
| st_warning (body : str)
| st_subheader (body : str)
| st_write (body : str)
| st_markdown (body : str).

Section Script.
Context `{NLP} `{Retrieval} `{FloatRepr}.

(** What an f-string puts in place of [{ev}]. *)
Definition format (ev : value) : str :=
  match ev with
  | VStr s => s
  | VFloat x => repr x
  end.

(** The body of the loop over the results. *)
Definition show_result (res : VerdictRecord) : list call :=
  let v := verdict res in
  ([ st_write ("### Claim: " ++ claim res);
     (if Str.eqb v "True" then st_markdown "**Verdict:** 🟢 **True**"
      else if Str.eqb v "False" then st_markdown "**Verdict:** 🔴 **False**"
      else st_markdown "**Verdict:** ⚪ **Unverifiable**");
     st_write ("**📝 Reasoning:** " ++ reasoning res) ]
   ++ (if (Str.eqb v "True" || Str.eqb v "False")
          && negb (bool_decide (evidence res = []))
       then st_write "**📚 Evidence from PIB:**"
            :: map (fun ev => st_write ("🔹 " ++ format ev)) (evidence res)
       else [])
   ++ [ st_write "---" ])%list.

(** The branch of [if st.button(...)], run on the store of the checker
    that [FactChecker()] has made. *)
Definition check_facts (input_text : str) : M (list call) :=
  if bool_decide (strip input_text = "") then ret []
  else
    let* results := fact_check_text input_text in
    match results with
    | [] =>
        ret [ st_warning
                ("⚠ I couldn't detect any clear factual claim. " ++
                 "Please enter a full sentence like: " ++
                 "'The government has announced free electricity to all farmers from July 2025.'") ]
    | _ =>
        ret (st_subheader "📜 Results:" :: concat (map show_result results))
    end.
End Script.
End App.

Module AppSample.
Import Sample.

Definition page_two : list App.call :=
  match (App.check_facts text_two loaded).1 with
  | Ok page => page
  | Raise _ => []
  end.
End AppSample.

(** * Properties *)

(** ** Texts *)

Module StrFacts.

Lemma eqb_spec (a b : str) : reflect (a = b) (Str.eqb a b).
Proof.
  revert b; induction a as [|c a IH]; intros [|d b]; simpl;
    try (constructor; congruence).
  destruct (N.eqb_spec c d) as [->|Hne]; simpl.
  - destruct (IH b) as [->|Hne]; constructor; congruence.
  - constructor; congruence.
Qed.

Lemma eqb_eq (a b : str) : Str.eqb a b = true <-> a = b.
Proof. destruct (eqb_spec a b); split; congruence. Qed.
End StrFacts.

(** ** Binary64 facts *)

Module FloatFacts.
Import Float.
Local Open Scope Z_scope.

Lemma shr_1_nonneg mrs : 0 <= shr_m mrs -> 0 <= shr_m (shr_1 mrs).
Proof.
  destruct mrs as [m r s]; simpl.
  destruct m as [|p|p]; simpl; [lia| |lia].
  destruct p; simpl; lia.
Qed.

Lemma iter_shr_1_nonneg n mrs :
  0 <= shr_m mrs -> 0 <= shr_m (SpecFloat.iter_pos shr_1 n mrs).
Proof.
  revert mrs; induction n as [n IH|n IH|]; intros mrs Hm; simpl.
  - apply IH, IH, shr_1_nonneg, Hm.
  - apply IH, IH, Hm.
  - apply shr_1_nonneg, Hm.
Qed.

Lemma shr_fexp_nonneg m e l :
  0 <= m -> 0 <= shr_m (fst (shr_fexp prec emax m e l)).
Proof.
  intros Hm. unfold shr_fexp, shr.
  assert (H0 : 0 <= shr_m (shr_record_of_loc m l))
    by (destruct l as [|[]]; simpl; exact Hm).
  destruct (fexp prec emax (Zdigits2 m + e) - e); simpl; auto.
  apply iter_shr_1_nonneg, H0.
Qed.

Lemma round_nearest_even_nonneg m l : 0 <= m -> 0 <= round_nearest_even m l.
Proof.
  intros Hm. destruct l as [|[]]; simpl; try lia.
  destruct (Z.even m); lia.
Qed.

(** Rounding a non-negative mantissa with a positive sign bit never gives
    a negative number or a NaN. *)
Lemma binary_round_aux_nonneg m e l :
  0 <= m -> nonneg (binary_round_aux prec emax false m e l) = true.
Proof.
  intros Hm. unfold binary_round_aux.
  pose proof (shr_fexp_nonneg m e l Hm) as H1.
  destruct (shr_fexp prec emax m e l) as [mrs' e'] eqn:E1; simpl in H1.
  pose proof (shr_fexp_nonneg _ e' loc_Exact
                (round_nearest_even_nonneg _ (loc_of_shr_record mrs') H1)) as H2.
  destruct (shr_fexp prec emax _ e' loc_Exact) as [mrs'' e''] eqn:E2; simpl in H2.
  destruct (shr_m mrs'') as [|q|q]; simpl; [reflexivity| |lia].
  destruct (e'' <=? emax - prec); reflexivity.
Qed.

Lemma div_nonneg p q e1 e2 :
  nonneg (div (S754_finite false p e1) (S754_finite false q e2)) = true.
Proof.
  unfold div, SFdiv.
  destruct (SFdiv_core_binary prec emax (Z.pos p) e1 (Z.pos q) e2)
    as [[mz ez] lz] eqn:E.
  apply binary_round_aux_nonneg.
  unfold SFdiv_core_binary in E.
  set (s := e1 - e2 - _) in E.
  set (m' := match s with Z.pos _ => _ | 0 => _ | Z.neg _ => _ end) in E.
  assert (Hm' : 0 <= m').
  { subst m'. destruct s; try lia. apply Z.shiftl_nonneg. lia. }
  pose proof (Z.div_eucl_eq m' (Z.pos q) ltac:(lia)) as Hq.
  pose proof (Z.mod_pos_bound m' (Z.pos q) ltac:(lia)) as Hr.
  unfold Z.modulo in Hr.
  destruct (Z.div_eucl m' (Z.pos q)) as [q0 r0].
  injection E as <- _ _. nia.
Qed.

Lemma of_decimal_nonneg m k : nonneg (of_decimal m k) = true.
Proof.
  unfold of_decimal. destruct m; [reflexivity|]. apply div_nonneg.
Qed.

Lemma compare_antisym x y :
  SFcompare y x = option_map CompOpp (SFcompare x y).
Proof.
  destruct x as [sx|sx| |sx mx ex], y as [sy|sy| |sy my ey]; simpl;
    try reflexivity;
    try (destruct sx; reflexivity);
    try (destruct sy; reflexivity);
    try (destruct sx, sy; reflexivity).
  destruct sx, sy; simpl; try reflexivity;
    rewrite (Z.compare_antisym ex ey);
    destruct (ex ?= ey) eqn:E; simpl; try reflexivity;
    rewrite <- (Pos.compare_cont_antisym mx my Eq
                : CompOpp (PosDef.Pos.compare_cont Eq mx my)
                  = PosDef.Pos.compare_cont Eq my mx);
    destruct (PosDef.Pos.compare_cont Eq mx my); reflexivity.
Qed.

(** [a < b] excludes [b <= a]. *)
Lemma ltb_not_leb a b : ltb a b = true -> leb b a = false.
Proof.
  unfold ltb, leb, SFltb, SFleb. rewrite (compare_antisym a b).
  destruct (SFcompare a b) as [[]|]; simpl; congruence.
Qed.

Lemma leb_not_ltb a b : leb a b = true -> ltb b a = false.
Proof.
  unfold ltb, leb, SFltb, SFleb. rewrite (compare_antisym a b).
  destruct (SFcompare a b) as [[]|]; simpl; congruence.
Qed.
End FloatFacts.

(** ** The numeric pattern *)

Module TextFacts.
Local Open Scope str_scope.

Lemma digits_run_length text :
  Str.length (snd (digits_run text)) <= Str.length text.
Proof.
  induction text as [|c rest IH]; simpl; [lia|].
  destruct (is_digit c); simpl; [|lia].
  destruct (digits_run rest); simpl in *; lia.
Qed.

Lemma optional_fraction_length text :
  Str.length (snd (optional_fraction text)) <= Str.length text.
Proof.
  unfold optional_fraction.
  destruct text as [|c rest]; simpl; [lia|].
  destruct (N.eqb c "."%uchar); simpl; [|lia].
  pose proof (digits_run_length rest) as Hr.
  destruct (digits_run rest) as [[|d ds] tl]; simpl in *; lia.
Qed.

Lemma match_number_length text lit tl :
  match_number text = Some (lit, tl) ->
  Str.length tl < Str.length text.
Proof.
  unfold match_number. intros Hm.
  destruct text as [|c rest]; simpl in Hm; [discriminate|].
  destruct (is_digit c); [|discriminate].
  pose proof (digits_run_length rest) as Hr.
  destruct (digits_run rest) as [ds tl0]; simpl in *.
  pose proof (optional_fraction_length tl0) as Ho.
  destruct (optional_fraction tl0) as [fr tl']; simpl in *.
  injection Hm as _ <-. lia.
Qed.

(** Any fuel that covers the text gives the same matches. *)
Lemma findall_from_fuel n : forall fuel text,
  Str.length text <= n -> Str.length text <= fuel ->
  findall_from fuel text = findall text.
Proof.
  unfold findall.
  induction n as [|n IH]; intros fuel text Hn Hf.
  - destruct text; simpl in *; [|lia]. destruct fuel; reflexivity.
  - destruct text as [|c rest]; [destruct fuel; reflexivity|].
    destruct fuel as [|fuel]; simpl in Hf; [lia|].
    cbn [findall_from Str.length].
    destruct (match_number (Char c rest)) as [[lit tl]|] eqn:Hm.
    + apply match_number_length in Hm. simpl in Hm, Hn.
      rewrite (IH fuel tl), (IH (Str.length rest) tl) by lia.
      reflexivity.
    + simpl in Hn. rewrite (IH fuel rest) by lia. reflexivity.
Qed.

Lemma findall_nil : findall "" = [].
Proof. reflexivity. Qed.

(** The search at the head of a non-empty text. *)
Lemma findall_cons c rest :
  findall (Char c rest) =
  match match_number (Char c rest) with
  | Some (lit, tl) => lit :: findall tl
  | None => findall rest
  end.
Proof.
  unfold findall at 1. cbn [findall_from Str.length].
  destruct (match_number (Char c rest)) as [[lit tl]|] eqn:Hm.
  - apply match_number_length in Hm. simpl in Hm.
    rewrite (findall_from_fuel (Str.length rest)) by lia. reflexivity.
  - reflexivity.
Qed.

Lemma append_nil_l text : "" ++ text = text.
Proof. reflexivity. Qed.

Lemma append_cons c a b : Char c a ++ b = Char c (a ++ b).
Proof. reflexivity. Qed.

Lemma digits_run_all_digits d rest :
  all_digits d = true ->
  digits_run (d ++ rest) =
  (d ++ fst (digits_run rest), snd (digits_run rest)).
Proof.
  induction d as [|c d IH]; intros Hd.
  - rewrite !append_nil_l. destruct (digits_run rest); reflexivity.
  - simpl in Hd. apply andb_prop in Hd as [Hc Hd].
    rewrite !append_cons. simpl. rewrite Hc, (IH Hd). reflexivity.
Qed.

Lemma digits_run_not_digit c rest :
  is_digit c = false -> digits_run (Char c rest) = ("", Char c rest).
Proof. intros Hc. simpl. rewrite Hc. reflexivity. Qed.

Lemma append_empty_r text : text ++ "" = text.
Proof.
  induction text as [|c t IH]; [reflexivity|].
  rewrite append_cons, IH. reflexivity.
Qed.

(** A text that starts with a non-digit has no match at its head. *)
Lemma match_number_not_digit c rest :
  is_digit c = false -> match_number (Char c rest) = None.
Proof. intros Hc. unfold match_number. rewrite digits_run_not_digit by done. done. Qed.

Lemma findall_skip c rest :
  is_digit c = false -> findall (Char c rest) = findall rest.
Proof. intros Hc. rewrite findall_cons, match_number_not_digit by done. done. Qed.

(** The whole of a run of digits is one match without a fraction. *)
Lemma findall_digits d :
  all_digits d = true -> d <> "" -> findall d = [Literal d None].
Proof.
  intros Hd Hne. destruct d as [|c d]; [done|]. rewrite findall_cons.
  unfold match_number.
  rewrite <- (append_empty_r (Char c d)) at 1.
  rewrite digits_run_all_digits by done. simpl.
  rewrite append_empty_r. reflexivity.
Qed.

(** Two runs of digits joined by a full stop are one match. *)
Lemma findall_point d1 d2 :
  all_digits d1 = true -> all_digits d2 = true -> d1 <> "" -> d2 <> "" ->
  findall (d1 ++ Char "." d2) = [Literal d1 (Some d2)].
Proof.
  intros H1 H2 N1 N2.
  destruct d1 as [|c1 d1]; [done|]. destruct d2 as [|c2 d2]; [done|].
  change (Char c1 d1 ++ Char "." (Char c2 d2))
    with (Char c1 (d1 ++ Char "." (Char c2 d2))).
  rewrite findall_cons.
  change (Char c1 (d1 ++ Char "." (Char c2 d2)))
    with (Char c1 d1 ++ Char "." (Char c2 d2)).
  unfold match_number.
  rewrite digits_run_all_digits by done.
  rewrite digits_run_not_digit by reflexivity. cbn [fst snd].
  rewrite append_empty_r. cbn [optional_fraction].
  rewrite N.eqb_refl.
  rewrite <- (append_empty_r (Char c2 d2)) at 1.
  rewrite digits_run_all_digits by done. simpl.
  rewrite append_empty_r. reflexivity.
Qed.

(** Two runs of digits joined by any other non-digit are two matches. *)
Lemma findall_separated d1 c d2 :
  all_digits d1 = true -> all_digits d2 = true -> d1 <> "" -> d2 <> "" ->
  is_digit c = false -> c <> "."%uchar ->
  findall (d1 ++ Char c d2) = [Literal d1 None; Literal d2 None].
Proof.
  intros H1 H2 N1 N2 Hc Hp.
  destruct d1 as [|c1 d1]; [done|].
  change (Char c1 d1 ++ Char c d2) with (Char c1 (d1 ++ Char c d2)).
  rewrite findall_cons.
  change (Char c1 (d1 ++ Char c d2)) with (Char c1 d1 ++ Char c d2).
  unfold match_number.
  rewrite digits_run_all_digits by done.
  rewrite digits_run_not_digit by done. cbn [fst snd].
  rewrite append_empty_r. cbn [optional_fraction].
  apply N.eqb_neq in Hp. rewrite Hp.
  rewrite findall_skip by done. rewrite findall_digits by done. reflexivity.
Qed.

Lemma remove_char_app old a b :
  remove_char old (a ++ b) = remove_char old a ++ remove_char old b.
Proof.
  induction a as [|c a IH]; [reflexivity|].
  rewrite append_cons. simpl.
  destruct (N.eqb c old); rewrite IH; reflexivity.
Qed.

Lemma remove_comma_digits d :
  all_digits d = true -> remove_char "," d = d.
Proof.
  induction d as [|c d IH]; simpl; [reflexivity|].
  intros Hd. apply andb_prop in Hd as [Hc Hd].
  destruct (N.eqb_spec c ","%uchar) as [->|_]; [discriminate|].
  rewrite (IH Hd). reflexivity.
Qed.






Lemma findall_no_digit a text :
  has_digit a = false -> findall (a ++ text) = findall text.
Proof.
  induction a as [|c a IH]; [reflexivity|].
  simpl. intros Ha. apply orb_false_elim in Ha as [Hc Ha].
  rewrite append_cons, findall_skip by done. auto.
Qed.

Lemma remove_char_no_digit old a :
  has_digit a = false -> has_digit (remove_char old a) = false.
Proof.
  induction a as [|c a IH]; [reflexivity|].
  simpl. intros Ha. apply orb_false_elim in Ha as [Hc Ha].
  destruct (N.eqb c old); simpl; [|rewrite Hc]; auto.
Qed.

Lemma all_digits_app a b :
  all_digits a = true -> all_digits b = true -> all_digits (a ++ b) = true.
Proof.
  induction a as [|c a IH]; [rewrite append_nil_l; tauto|].
  intros Ha Hb. simpl in Ha. apply andb_prop in Ha as [Hc Ha].
  rewrite append_cons. simpl. rewrite Hc. simpl. auto.
Qed.

(** C10. [extract_numbers] deletes every comma of its input, wherever it
    stands; two runs of digits joined by a comma are read as one integer
    literal (["1,5"] gives the single value 15.0), joined by a full stop
    they are one literal with a fractional part, and joined by any other
    character that is not a digit they are two literals. *)
Theorem extract_numbers_commas (a b d1 d2 : str) (c : char) :
  all_digits d1 = true -> all_digits d2 = true -> d1 <> "" -> d2 <> "" ->
  is_digit c = false ->
  extract_numbers (a ++ Char "," b) = extract_numbers (a ++ b) /\
  extract_numbers (d1 ++ Char c d2) =
    (if N.eqb c ","%uchar then
       [float_of_literal (Literal (d1 ++ d2) None)]
     else if N.eqb c "."%uchar then
       [float_of_literal (Literal d1 (Some d2))]
     else
       [float_of_literal (Literal d1 None);
        float_of_literal (Literal d2 None)]) /\
  extract_numbers "1,5" = [Float.of_decimal 15 0].
Proof.
  intros H1 H2 N1 N2 Hc. split; [|split].
  - unfold extract_numbers.
    rewrite !remove_char_app. simpl. reflexivity.
  - unfold extract_numbers.
    rewrite remove_char_app. simpl.
    rewrite !remove_comma_digits by done.
    destruct (N.eqb_spec c ","%uchar) as [->|Hcomma].
    + rewrite findall_digits; [reflexivity|by apply all_digits_app|].
      destruct d1; [done|]. rewrite append_cons. discriminate.
    + destruct (N.eqb_spec c "."%uchar) as [->|Hpoint].
      * rewrite findall_point by done. reflexivity.
      * rewrite findall_separated by done. reflexivity.
  - reflexivity.
Qed.

Lemma extract_numbers_commas_witness :
  extract_numbers ("about 4" ++ Char "," "500 units")
    = extract_numbers ("about 4" ++ "500 units") /\
  extract_numbers ("1" ++ Char "," "5") = [Float.of_decimal 15 0] /\
  extract_numbers "1,5" = [Float.of_decimal 15 0].
Proof.
  exact (extract_numbers_commas "about 4" "500 units" "1" "5" ","
           eq_refl eq_refl ltac:(discriminate) ltac:(discriminate) eq_refl).
Defined.

Lemma extract_numbers_nonneg text :
  Forall (fun x => Float.nonneg x = true) (extract_numbers text).
Proof.
  unfold extract_numbers. apply Forall_forall. intros x Hx.
  apply (list_elem_of_fmap float_of_literal) in Hx as [lit [-> _]].
  unfold float_of_literal.
  destruct (frac_part lit); apply FloatFacts.of_decimal_nonneg.
Qed.

(** A minus sign before the first digit of a text is skipped. *)
Lemma extract_numbers_minus a b :
  has_digit a = false ->
  extract_numbers (a ++ Char "-" b) = extract_numbers b.
Proof.
  intros Ha. unfold extract_numbers. rewrite remove_char_app. simpl.
  rewrite findall_no_digit by (by apply remove_char_no_digit).
  rewrite findall_skip by reflexivity. reflexivity.
Qed.
End TextFacts.

(** ** The object store *)

Section StoreFacts.
Implicit Types (st : store) (r : ref) (d : dict).

Lemma grow_nil st : grow st [] = st.
Proof. destruct st. unfold grow. simpl. by rewrite app_nil_r. Qed.

Lemma grow_grow st ds ds' : grow (grow st ds) ds' = grow st (ds ++ ds').
Proof. unfold grow. simpl. by rewrite app_assoc. Qed.

Lemma read_grow_row st ds i : read (grow st ds) (Row i) = read st (Row i).
Proof. reflexivity. Qed.

Lemma read_grow_old st ds r d : read st r = Some d -> read (grow st ds) r = Some d.
Proof.
  destruct r as [i|i]; simpl; [done|]. intros Hd. by apply lookup_app_l_Some.
Qed.

Lemma read_grow_new st ds i :
  read (grow st ds) (Obj (length (objects st) + i)) = ds !! i.
Proof. simpl. by rewrite lookup_app_r, Nat.add_comm, Nat.add_sub by lia. Qed.

Lemma py_position_lt n i j : py_position n i = Ok j -> j < n.
Proof.
  unfold py_position. intros Hp.
  destruct ((_ <? 0)%Z || _)%bool eqn:E; [discriminate|].
  injection Hp as <-. apply orb_false_elim in E as [E1 E2]. lia.
Qed.

Lemma py_position_valid n i :
  (- Z.of_nat n <= i < Z.of_nat n)%Z -> exists j, py_position n i = Ok j /\ j < n.
Proof.
  intros Hi. unfold py_position.
  destruct ((_ <? 0)%Z || _)%bool eqn:E.
  - apply orb_prop in E. destruct (i <? 0)%Z eqn:Ei; lia.
  - eexists; split; [reflexivity|].
    apply orb_false_elim in E as [E1 E2]. lia.
Qed.

Lemma getitem_run r key st :
  getitem r key st =
  (match read st r with
   | Some d => match d !! key with
               | Some v => Ok v
               | None => Raise (KeyError key)
               end
   | None => Raise InvalidReference
   end, st).
Proof.
  unfold getitem, bind, deref.
  destruct (read st r) as [d|]; [|done]. by destruct (d !! key).
Qed.

(** A mutation through a reference to a created dict leaves the
    metadata table as it is. *)
Lemma mutate_obj_metadata f i st : metadata (mutate f (Obj i) st).2 = metadata st.
Proof. unfold mutate. by destruct (read st (Obj i)). Qed.
End StoreFacts.

(** ** Retrieval *)

Section RetrieveFacts.
Context `{Retrieval}.
Implicit Types (st : store) (pairs : list (float * Z)).

Lemma collect_length {A B} (f : A -> result B) (l : list A) :
  length (collect f l).1 <= length l.
Proof.
  induction l as [|a l IH]; simpl; [lia|].
  destruct (f a); simpl; [|lia].
  destruct (collect f l); simpl in *; lia.
Qed.

(** When nothing raises, the images are those of all elements, in
    order. *)
Lemma collect_ok {A B} (f : A -> result B) (l : list A) bs :
  collect f l = (bs, None) -> Forall2 (fun a b => f a = Ok b) l bs.
Proof.
  revert bs; induction l as [|a l IH]; simpl; intros bs Hc.
  - injection Hc as <-. constructor.
  - destruct (f a) as [b|e] eqn:Ea; [|discriminate].
    destruct (collect f l) as [bs' e'].
    injection Hc as <- ->. constructor; auto.
Qed.

Lemma collect_total {A B} (f : A -> result B) (l : list A) :
  Forall (fun a => exists b, f a = Ok b) l -> (collect f l).2 = None.
Proof.
  induction 1 as [|a l [b Hb] _ IH]; simpl; [done|].
  rewrite Hb. by destruct (collect f l).
Qed.

(** One run of the loop: a dict is created for each pair until a
    position is out of range; the metadata table is only read. *)
Lemma retrieve_loop_run pairs : forall results st,
  retrieve_loop pairs results st =
  (match (collect (fact_of (metadata st)) pairs).2 with
   | None =>
       Ok (results ++ fresh st (length (collect (fact_of (metadata st)) pairs).1))
   | Some e => Raise e
   end,
   grow st (collect (fact_of (metadata st)) pairs).1).
Proof.
  induction pairs as [|[dist idx] rest IH]; intros results st.
  - simpl. unfold ret, fresh. simpl. by rewrite app_nil_r, grow_nil.
  - cbn [retrieve_loop collect]. unfold bind at 1, metadata_getitem.
    destruct (py_position (length (metadata st)) idx) as [j|e] eqn:Hj.
    2:{ assert (Hf : fact_of (metadata st) (dist, idx) = Raise e)
          by (unfold fact_of, py_index; simpl; by rewrite Hj).
        rewrite Hf. simpl. by rewrite grow_nil. }
    pose proof (py_position_lt _ _ _ Hj) as Hlt.
    destruct (lookup_lt_is_Some_2 (metadata st) j Hlt) as [row Hrow].
    assert (Hf : fact_of (metadata st) (dist, idx)
                 = Ok (<["score"%str := VFloat dist]> row))
      by (unfold fact_of, py_index; simpl; by rewrite Hj, Hrow).
    rewrite Hf.
    unfold bind at 1, dict_copy, bind at 1, deref. simpl read. rewrite Hrow.
    unfold new_dict, bind at 1, setitem, mutate.
    assert (Hr : read (grow st [row]) (Obj (length (objects st))) = Some row)
      by (simpl; by rewrite lookup_app_r, Nat.sub_diag by lia).
    rewrite Hr. unfold write, grow at 1. simpl objects. simpl metadata.
    replace (<[length (objects st) := <["score"%str := VFloat (py_float dist)]> row]>
               (objects st ++ [row]))
      with (objects st ++ [<["score"%str := VFloat dist]> row]).
    2:{ rewrite insert_app_r_alt by lia. by rewrite Nat.sub_diag. }
    rewrite IH. simpl metadata.
    destruct (collect (fact_of (metadata st)) rest) as [facts e] eqn:Hc.
    cbn [fst snd]. f_equal.
    + destruct e; [done|]. f_equal. rewrite <- app_assoc. f_equal.
      unfold fresh. simpl. rewrite length_app. simpl.
      by rewrite Nat.add_1_r.
    + unfold grow. simpl. by rewrite <- app_assoc.
Qed.

Lemma retrieve_run query top_k st :
  let pairs := zip (index_search (encode query) top_k).1
                   (index_search (encode query) top_k).2 in
  retrieve query top_k st =
  (match (collect (fact_of (metadata st)) pairs).2 with
   | None => Ok (fresh st (length (collect (fact_of (metadata st)) pairs).1))
   | Some e => Raise e
   end,
   grow st (collect (fact_of (metadata st)) pairs).1).
Proof.
  unfold retrieve. destruct (index_search (encode query) top_k) as [ds ixs].
  simpl. apply retrieve_loop_run.
Qed.

(** [retrieve] never changes the metadata table, whether it returns or
    raises. *)
Lemma retrieve_metadata query top_k st :
  metadata (retrieve query top_k st).2 = metadata st.
Proof. by rewrite retrieve_run. Qed.

Lemma mapM_metadata {A B} (f : A -> M B) (l : list A) :
  (forall a st, metadata (f a st).2 = metadata st) ->
  forall st, metadata (mapM f l st).2 = metadata st.
Proof.
  intros Hf. induction l as [|a l IH]; intros st; [done|].
  simpl. unfold bind at 1. specialize (Hf a st).
  destruct (f a st) as [[b|e] st1]; [|done].
  unfold bind. specialize (IH st1).
  destruct (mapM f l st1) as [[bs|e] st2]; simpl in *; congruence.
Qed.

Lemma fact_of_valid table pair :
  valid_index table pair.2 ->
  exists row, py_index table pair.2 = Ok row /\
              fact_of table pair = Ok (<["score"%str := VFloat pair.1]> row).
Proof.
  intros Hv. unfold fact_of, py_index.
  destruct (py_position_valid _ _ Hv) as [j [-> Hj]].
  destruct (lookup_lt_is_Some_2 table j Hj) as [row ->]. eauto.
Qed.

(** The facts created by a call that returns, and where they are. *)
Lemma retrieve_ok_inv query top_k st results st' :
  retrieve query top_k st = (Ok results, st') ->
  exists facts,
    Forall2 (fun pair d => fact_of (metadata st) pair = Ok d)
      (zip (index_search (encode query) top_k).1
           (index_search (encode query) top_k).2) facts /\
    results = fresh st (length facts) /\ st' = grow st facts.
Proof.
  rewrite retrieve_run. cbv zeta.
  set (pairs := zip _ _).
  destruct (collect (fact_of (metadata st)) pairs) as [facts e] eqn:Hc.
  simpl. destruct e; [discriminate|]. intros [= <- <-].
  exists facts. split; [by apply collect_ok|done].
Qed.

Lemma read_fresh st facts i r :
  fresh st (length facts) !! i = Some r ->
  r = Obj (length (objects st) + i) /\ i < length facts /\
  read (grow st facts) r = facts !! i.
Proof.
  unfold fresh. rewrite list_lookup_fmap.
  destruct (seq _ _ !! i) as [n|] eqn:Hn; [|discriminate].
  apply lookup_seq in Hn as [-> Hi]. intros [= <-].
  split; [done|]. split; [done|]. apply read_grow_new.
Qed.

Lemma fact_of_ok_inv table pair d :
  fact_of table pair = Ok d ->
  exists row, py_index table pair.2 = Ok row /\
              d = <["score"%str := VFloat pair.1]> row.
Proof.
  unfold fact_of. destruct (py_index table pair.2) as [row|]; [|discriminate].
  intros [= <-]. eauto.
Qed.

(** The [i]-th returned dict is a new object that holds the items of the
    row at the [i]-th position returned by the index, and the [i]-th
    distance under ["score"]. *)
Lemma retrieve_ok_facts query top_k st results st' :
  retrieve query top_k st = (Ok results, st') ->
  let pairs := zip (index_search (encode query) top_k).1
                   (index_search (encode query) top_k).2 in
  length results = length pairs /\
  Forall2 (fun r pair =>
             exists row, py_index (metadata st) pair.2 = Ok row /\
               read st' r = Some (<["score"%str := VFloat pair.1]> row))
          results pairs.
Proof.
  intros Hr. cbv zeta.
  destruct (retrieve_ok_inv _ _ _ _ _ Hr) as (facts & Hf & -> & ->).
  pose proof (Forall2_length _ _ _ Hf) as Hlen.
  assert (Hl : length (fresh st (length facts)) = length facts)
    by (unfold fresh; by rewrite length_fmap, length_seq).
  split; [lia|].
  apply Forall2_same_length_lookup. split; [lia|].
  intros i r pair Hri Hpi.
  apply read_fresh in Hri as (-> & Hi & Hread).
  destruct (Forall2_lookup_l _ _ _ _ _ Hf Hpi) as (d & Hd & Hfd).
  apply fact_of_ok_inv in Hfd as (row & Hrow & ->).
  exists row. split; [done|]. by rewrite Hread.
Qed.

(** C2. When the index answers a query with at most [top_k] pairs, by
    non-decreasing distance and with equal distances in the order of
    their positions, all positions being rows of the metadata table,
    [retrieve] returns at most [top_k] facts; the [i]-th fact is the
    metadata row at the [i]-th returned position with the [i]-th raw
    distance as its score, so the scores are in non-decreasing order and
    ties are in the order of the positions. *)
Theorem retrieve_sorted (query : str) (top_k : nat) (st : store) :
  let pairs := zip (index_search (encode query) top_k).1
                   (index_search (encode query) top_k).2 in
  length pairs <= top_k ->
  Forall (fun pair => valid_index (metadata st) pair.2) pairs ->
  non_decreasing (map fst pairs) = true ->
  ties_by_position pairs = true ->
  exists results st' scores,
    retrieve query top_k st = (Ok results, st') /\
    length results <= top_k /\
    Forall2 (fun r pair =>
               exists row, py_index (metadata st) pair.2 = Ok row /\
                 read st' r = Some (<["score"%str := VFloat pair.1]> row))
            results pairs /\
    map (score_of st') results = map (fun x => Some (VFloat x)) scores /\
    non_decreasing scores = true /\
    ties_by_position (zip scores (map snd pairs)) = true.
Proof.
  intros pairs Hk Hvalid Hsorted Hties.
  pose proof (retrieve_run query top_k st) as Hrun. cbv zeta in Hrun.
  fold pairs in Hrun.
  assert (Hnone : (collect (fact_of (metadata st)) pairs).2 = None).
  { apply collect_total. eapply Forall_impl; [exact Hvalid|].
    intros pair Hv. destruct (fact_of_valid _ _ Hv) as (row & _ & Hf). eauto. }
  rewrite Hnone in Hrun.
  destruct (retrieve_ok_facts _ _ _ _ _ Hrun) as [Hlen Hfacts].
  fold pairs in Hlen, Hfacts.
  eexists _, _, (map fst pairs). split; [exact Hrun|].
  split; [lia|]. split; [exact Hfacts|]. split; [|split].
  - apply list_eq. intros i. rewrite !list_lookup_fmap.
    destruct (fresh st _ !! i) as [r|] eqn:Hr; simpl.
    + destruct (Forall2_lookup_l _ _ _ _ _ Hfacts Hr) as (pair & Hp & row & _ & Hread).
      rewrite Hp. simpl. unfold score_of. rewrite Hread.
      by rewrite lookup_insert_eq.
    + apply lookup_ge_None in Hr. rewrite Hlen in Hr.
      apply lookup_ge_None in Hr. by rewrite Hr.
  - exact Hsorted.
  - assert (Hz : zip (map fst pairs) (map snd pairs) = pairs).
    { clear. induction pairs as [|[x i] l IH]; simpl; [done|]. by rewrite IH. }
    by rewrite Hz.
Qed.

Lemma fresh_NoDup st n : NoDup (fresh st n).
Proof.
  unfold fresh. apply NoDup_fmap_2; [|apply NoDup_seq].
  intros i j [=]. done.
Qed.

Lemma fresh_elem st n r :
  r ∈ fresh st n -> exists i, r = Obj i /\ length (objects st) <= i < length (objects st) + n.
Proof.
  unfold fresh. intros Hr. apply list_elem_of_fmap in Hr as (i & -> & Hi).
  apply elem_of_seq in Hi. eauto.
Qed.

(** C8. A fact returned by [retrieve] is a new dict object, different from
    every metadata row and from every other returned fact, that holds the
    items of its row and the score: storing the score, and any later change
    made through a returned reference, leaves the metadata table as it was,
    and so does any sequence of [retrieve] calls, whether they return or
    raise. *)
Theorem retrieve_copies (calls : list (str * nat)) (query : str)
    (top_k : nat) (st st' : store) (results : list ref) (r : ref)
    (f : dict -> dict) :
  retrieve query top_k st = (Ok results, st') ->
  r ∈ results ->
  metadata st' = metadata st /\
  NoDup results /\
  (exists i, r = Obj i /\ length (objects st) <= i) /\
  (exists pair row,
     pair ∈ zip (index_search (encode query) top_k).1
                (index_search (encode query) top_k).2 /\
     py_index (metadata st) pair.2 = Ok row /\
     let fact := <["score"%str := VFloat pair.1]> row in
     read st' r = Some fact /\
     mutate f r st' = (Ok tt, write st' r (f fact)) /\
     read (write st' r (f fact)) r = Some (f fact) /\
     metadata (write st' r (f fact)) = metadata st) /\
  metadata (retrieve_all calls st).2 = metadata st.
Proof.
  intros Hr Hin.
  pose proof (retrieve_metadata query top_k st) as Hm. rewrite Hr in Hm.
  simpl in Hm.
  destruct (retrieve_ok_facts _ _ _ _ _ Hr) as [_ Hfacts].
  destruct (retrieve_ok_inv _ _ _ _ _ Hr) as (facts & Hf & -> & ->).
  split; [done|]. split; [apply fresh_NoDup|].
  destruct (fresh_elem _ _ _ Hin) as (i & -> & Hi).
  split; [exists i; split; [done|lia]|]. split.
  - apply list_elem_of_lookup in Hin as [n Hn].
    destruct (Forall2_lookup_l _ _ _ _ _ Hfacts Hn) as (pair & Hp & row & Hrow & Hread).
    exists pair, row. split; [by eapply list_elem_of_lookup_2|].
    split; [done|]. cbv zeta. split; [done|].
    unfold mutate. rewrite Hread. split; [done|]. split; [|done].
    simpl. apply list_lookup_insert_eq.
    simpl in Hread. by eapply lookup_lt_Some.
  - unfold retrieve_all. apply mapM_metadata.
    intros call st0. apply retrieve_metadata.
Qed.
End RetrieveFacts.

(** ** Verdicts *)

Section ClassifyFacts.
Context `{NLP} `{Retrieval} `{FloatRepr}.
Implicit Types (st : store) (r : ref).

(** The divisor of the relative difference is never zero: the division
    of [classify_claim] does not raise. *)
Lemma divisor_nonzero f :
  Float.is_zero (py_max (Float.abs f) float_1e_6) = false.
Proof.
  unfold py_max.
  destruct f as [s|s| |s m e]; cbn [Float.abs SFabs].
  - destruct s; vm_compute; reflexivity.
  - destruct (Float.ltb _ _); reflexivity.
  - destruct (Float.ltb _ _); reflexivity.
  - destruct (Float.ltb _ _); reflexivity.
Qed.

Lemma truediv_rel_diff c f :
  truediv (Float.abs (Float.sub c f)) (py_max (Float.abs f) float_1e_6)
  = Ok (rel_diff_of c f).
Proof. unfold truediv. by rewrite divisor_nonzero. Qed.

Lemma getitem_statement r st :
  getitem r "statement" st =
  (match read st r with
   | Some d => match d !! "statement"%str with
               | Some v => Ok v
               | None => Raise (KeyError "statement")
               end
   | None => Raise InvalidReference
   end, st).
Proof. apply getitem_run. Qed.

Lemma statements_store facts st : (statements facts st).2 = st.
Proof.
  unfold statements. revert st. induction facts as [|r facts IH]; intros st; [done|].
  simpl. unfold bind at 1. rewrite getitem_statement.
  destruct (read st r) as [d|]; [|done].
  destruct (d !! "statement"%str); [|done].
  unfold bind. specialize (IH st).
  by destruct (mapM _ facts st) as [[vs|e] st1]; simpl in *; subst.
Qed.

(** The comprehension over facts that all have a statement. *)
Lemma statements_ok facts st :
  Forall (fun r => is_Some (statement_of st r)) facts ->
  exists vs, statements facts st = (Ok vs, st) /\
             map Some vs = map (statement_of st) facts.
Proof.
  unfold statements. induction 1 as [|r facts [v Hv] _ (vs & IH & Hvs)].
  - by exists [].
  - exists (v :: vs). simpl. unfold bind at 1. rewrite getitem_statement.
    unfold statement_of in Hv |- *.
    destruct (read st r) as [d|]; [|done]. rewrite Hv.
    unfold bind. rewrite IH. simpl. unfold ret. by rewrite Hvs.
Qed.

Lemma statements_ok_inv facts st vs st' :
  statements facts st = (Ok vs, st') ->
  st' = st /\ map Some vs = map (statement_of st) facts.
Proof.
  unfold statements. revert vs.
  induction facts as [|r facts IH]; intros vs; simpl.
  - unfold ret. by intros [= <- <-].
  - unfold bind at 1. rewrite getitem_statement. unfold statement_of at 1.
    destruct (read st r) as [d|]; [|done].
    destruct (d !! "statement"%str) as [v|]; [|done].
    unfold bind.
    destruct (mapM _ facts st) as [[vs'|e] st1] eqn:Hm; [|done].
    unfold ret. intros [= <- <-].
    destruct (IH vs' eq_refl) as [-> Hvs]. split; [done|].
    simpl. by rewrite Hvs.
Qed.

(** C1. When retrieval returns a non-empty list whose first three facts
    have a statement, and both the claim and the top statement contain a
    numeric literal, then with [c] and [f] the first literals of the two
    texts [classify_claim] returns a record whose verdict is ["True"] when
    the relative difference [|c - f| / max(|f|, 1e-6)], computed in
    binary64, is at most 0.2 and ["False"] when it is greater; in both
    cases the evidence is the statements of the first three retrieved
    facts, so it has between one and three elements. *)
Theorem classify_claim_numeric (claim : str) (st st' : store)
    (top : ref) (rest : list ref) (top_fact : str)
    (c f : float) (cs fs : list float) :
  retrieve claim TOP_K st = (Ok (top :: rest), st') ->
  statement_of st' top = Some (VStr top_fact) ->
  Forall (fun r => is_Some (statement_of st' r)) (take 3 (top :: rest)) ->
  extract_numbers claim = c :: cs ->
  extract_numbers top_fact = f :: fs ->
  exists record,
    classify_claim claim st = (Ok record, st') /\
    (Float.leb (rel_diff_of c f) float_0_2 = true ->
     verdict record = "True"%str) /\
    (Float.ltb float_0_2 (rel_diff_of c f) = true ->
     verdict record = "False"%str) /\
    map Some (evidence record) = map (statement_of st') (take 3 (top :: rest)) /\
    0 < length (evidence record) <= 3.
Proof.
  intros Hret Htop Hall Hc Hf.
  destruct (statements_ok _ _ Hall) as (vs & Hvs & Hmap).
  assert (Hlen : 0 < length vs <= 3).
  { apply (f_equal length) in Hmap. rewrite !length_map in Hmap.
    rewrite Hmap, length_take. cbn [length]. lia. }
  unfold classify_claim, bind at 1. rewrite Hret.
  unfold bind at 1. rewrite getitem_statement.
  unfold statement_of in Htop.
  destruct (read st' top) as [d|]; [|done]. rewrite Htop.
  unfold bind at 1, lift, extract_numbers_of. rewrite Hc, Hf.
  unfold bind at 1. rewrite truediv_rel_diff.
  destruct (Float.leb (rel_diff_of c f) float_0_2) eqn:Hle.
  - unfold bind. rewrite Hvs. unfold ret. eexists. split; [reflexivity|].
    simpl. split; [done|]. split; [|done].
    intros Hgt. apply FloatFacts.ltb_not_leb in Hgt. congruence.
  - unfold bind. rewrite Hvs. unfold ret. eexists. split; [reflexivity|].
    simpl. split; [done|]. done.
Qed.

(** C4. A record returned by [classify_claim] has the verdict
    ["Unverifiable"] exactly when retrieval returned no fact, or the claim
    or the top statement has no numeric literal, and its evidence is then
    empty; in both situations [classify_claim] does return such a
    record. *)
Theorem classify_claim_unverifiable (claim : str) (st st' : store)
    (retrieved : list ref) :
  retrieve claim TOP_K st = (Ok retrieved, st') ->
  (forall record st1,
     classify_claim claim st = (Ok record, st1) ->
     retrieved_facts record = retrieved /\
     (verdict record = "Unverifiable"%str <->
      retrieved = [] \/
      exists top rest text,
        retrieved = top :: rest /\
        statement_of st' top = Some (VStr text) /\
        (extract_numbers claim = [] \/ extract_numbers text = [])) /\
     (verdict record = "Unverifiable"%str -> evidence record = [])) /\
  (retrieved = [] ->
   exists record,
     classify_claim claim st = (Ok record, st') /\
     verdict record = "Unverifiable"%str /\ evidence record = []) /\
  (forall top rest text,
     retrieved = top :: rest ->
     statement_of st' top = Some (VStr text) ->
     extract_numbers claim = [] \/ extract_numbers text = [] ->
     exists record,
       classify_claim claim st = (Ok record, st') /\
       verdict record = "Unverifiable"%str /\ evidence record = []).
Proof.
  intros Hret. split; [|split].
  - intros record st1. unfold classify_claim, bind at 1. rewrite Hret.
    destruct retrieved as [|top rest].
    { unfold ret. intros [= <- <-]. simpl. split; [done|]. split; [|done].
      split; [by left|done]. }
    unfold bind at 1. rewrite getitem_statement.
    destruct (read st' top) as [d|] eqn:Hd; [|done].
    destruct (d !! "statement"%str) as [v|] eqn:Hv; [|done].
    assert (Hs : statement_of st' top = Some v)
      by (unfold statement_of; by rewrite Hd).
    unfold bind at 1, lift, extract_numbers_of.
    destruct v as [text|x]; [|done].
    destruct (extract_numbers claim) as [|c cs] eqn:Hc.
    { unfold ret. intros [= <- <-]. simpl. split; [done|]. split; [|done].
      split; [|done]. intros _. right. exists top, rest, text. auto. }
    destruct (extract_numbers text) as [|f fs] eqn:Hf.
    { unfold ret. intros [= <- <-]. simpl. split; [done|]. split; [|done].
      split; [|done]. intros _. right. exists top, rest, text. auto. }
    unfold bind at 1. rewrite truediv_rel_diff.
    assert (Hno : ~ (top :: rest = [] \/
              exists top0 rest0 text0,
                top :: rest = top0 :: rest0 /\
                statement_of st' top0 = Some (VStr text0) /\
                (c :: cs = [] \/ extract_numbers text0 = []))).
    { intros [|(top0 & rest0 & text0 & [= <- <-] & Hs0 & [|Hf0])]; try done.
      rewrite Hs in Hs0. injection Hs0 as <-. by rewrite Hf in Hf0. }
    destruct (Float.leb (rel_diff_of c f) float_0_2);
      unfold bind;
      destruct (statements (take 3 (top :: rest)) st') as [[vs|e] st2];
      try done; unfold ret; intros [= <- <-]; cbn [verdict retrieved_facts evidence];
      (split; [done|]); (split; [split; [discriminate|tauto]|discriminate]).
  - intros ->. unfold classify_claim, bind. rewrite Hret.
    unfold ret. eexists. split; [reflexivity|]. done.
  - intros top rest text -> Hs Hnum.
    unfold classify_claim, bind at 1. rewrite Hret.
    unfold bind at 1. rewrite getitem_statement.
    unfold statement_of in Hs.
    destruct (read st' top) as [d|]; [|done]. rewrite Hs.
    unfold bind at 1, lift, extract_numbers_of.
    destruct Hnum as [Hc|Hf].
    + rewrite Hc. unfold ret. eexists. split; [reflexivity|]. done.
    + rewrite Hf. destruct (extract_numbers claim);
        unfold ret; eexists; (split; [reflexivity|]); done.
Qed.

(** The comprehension reads the dicts its references name, in order. *)
Lemma statements_read refs ds st :
  Forall2 (fun r d => read st r = Some d) refs ds ->
  statements refs st =
  (match (collect statement_item ds).2 with
   | None => Ok (collect statement_item ds).1
   | Some e => Raise e
   end, st).
Proof.
  unfold statements. induction 1 as [|r d refs ds Hr _ IH]; [done|].
  cbn [mapM collect]. unfold bind at 1. rewrite getitem_statement, Hr.
  destruct (d !! "statement"%str) as [v|] eqn:Hv.
  - assert (statement_item d = Ok v) as ->
      by (unfold statement_item; by rewrite Hv).
    unfold bind. rewrite IH.
    destruct (collect statement_item ds) as [vs [e|]]; done.
  - assert (statement_item d = Raise (KeyError "statement")) as ->
      by (unfold statement_item; by rewrite Hv).
    done.
Qed.

Lemma fresh_read st facts :
  Forall2 (fun r d => read (grow st facts) r = Some d)
    (fresh st (length facts)) facts.
Proof.
  apply Forall2_same_length_lookup. split.
  - unfold fresh. by rewrite length_fmap, length_seq.
  - intros i r d Hr Hd. apply read_fresh in Hr as (_ & _ & ->). done.
Qed.

(** What [classify_claim] returns is fixed by the claim and the metadata
    table; the store only decides where the new facts are put. *)
Lemma classify_claim_shape claim_text table :
  exists facts (out : result (str * str * list value)),
  forall st, metadata st = table ->
    classify_claim claim_text st =
    (match out with
     | Ok (v, why, ev) =>
         Ok {| claim := claim_text;
               retrieved_facts := fresh st (length facts);
               verdict := v; reasoning := why; evidence := ev |}
     | Raise e => Raise e
     end, grow st facts).
Proof.
  set (pairs := zip (index_search (encode claim_text) TOP_K).1
                    (index_search (encode claim_text) TOP_K).2).
  destruct (collect (fact_of table) pairs) as [facts e] eqn:Hc.
  exists facts.
  assert (Hstart : forall st, metadata st = table ->
            retrieve claim_text TOP_K st =
            (match e with
             | None => Ok (fresh st (length facts))
             | Some e => Raise e
             end, grow st facts)).
  { intros st <-. rewrite retrieve_run. cbv zeta. fold pairs. by rewrite Hc. }
  destruct e as [e|].
  { exists (Raise e). intros st Hst.
    unfold classify_claim, bind. by rewrite (Hstart st Hst). }
  destruct facts as [|d0 facts'].
  { eexists (Ok (_, _, _)). intros st Hst.
    unfold classify_claim, bind. rewrite (Hstart st Hst). reflexivity. }
  set (facts := d0 :: facts') in *.
  assert (Htop : forall st,
            fresh st (length facts) =
            Obj (length (objects st)) :: fresh (grow st [d0]) (length facts')).
  { intros st. unfold fresh. simpl. by rewrite length_app, Nat.add_1_r. }
  assert (Hread : forall st,
            read (grow st facts) (Obj (length (objects st))) = Some d0).
  { intros st. rewrite <- (Nat.add_0_r (length (objects st))).
    by rewrite read_grow_new. }
  assert (Hev : forall st,
            statements (take 3 (fresh st (length facts))) (grow st facts) =
            (match (collect statement_item (take 3 facts)).2 with
             | None => Ok (collect statement_item (take 3 facts)).1
             | Some e => Raise e
             end, grow st facts)).
  { intros st. apply statements_read, Forall2_take, fresh_read. }
  destruct (d0 !! "statement"%str) as [v|] eqn:Hv.
  2:{ exists (Raise (KeyError "statement")). intros st Hst.
      unfold classify_claim, bind at 1. rewrite (Hstart st Hst), Htop.
      unfold bind. by rewrite getitem_statement, Hread, Hv. }
  destruct v as [text|x].
  2:{ exists (Raise AttributeError). intros st Hst.
      unfold classify_claim, bind at 1. rewrite (Hstart st Hst), Htop.
      unfold bind at 1. rewrite getitem_statement, Hread, Hv. done. }
  destruct (extract_numbers claim_text) as [|c cs] eqn:Hcn.
  { eexists (Ok (_, _, _)). intros st Hst.
    unfold classify_claim, bind at 1. rewrite (Hstart st Hst), Htop.
    unfold bind at 1. rewrite getitem_statement, Hread, Hv.
    unfold bind, lift, extract_numbers_of, ret. rewrite Hcn.
    rewrite <- Htop. reflexivity. }
  destruct (extract_numbers text) as [|f fs] eqn:Hfn.
  { eexists (Ok (_, _, _)). intros st Hst.
    unfold classify_claim, bind at 1. rewrite (Hstart st Hst), Htop.
    unfold bind at 1. rewrite getitem_statement, Hread, Hv.
    unfold bind, lift, extract_numbers_of, ret. rewrite Hcn, Hfn.
    rewrite <- Htop. reflexivity. }
  destruct (collect statement_item (take 3 facts)) as [vs e] eqn:Hcs.
  cbn [fst snd] in Hev.
  destruct (Float.leb (rel_diff_of c f) float_0_2) eqn:Hle.
  - destruct e as [e|].
    + exists (Raise e). intros st Hst.
      unfold classify_claim, bind at 1. rewrite (Hstart st Hst), Htop.
      unfold bind at 1. rewrite getitem_statement, Hread, Hv.
      unfold bind at 1, lift, extract_numbers_of. rewrite Hcn, Hfn.
      unfold bind at 1. rewrite truediv_rel_diff, Hle, <- Htop.
      unfold bind. by rewrite Hev.
    + eexists (Ok (_, _, _)). intros st Hst.
      unfold classify_claim, bind at 1. rewrite (Hstart st Hst), Htop.
      unfold bind at 1. rewrite getitem_statement, Hread, Hv.
      unfold bind at 1, lift, extract_numbers_of. rewrite Hcn, Hfn.
      unfold bind at 1. rewrite truediv_rel_diff, Hle, <- Htop.
      unfold bind. rewrite Hev. unfold ret. reflexivity.
  - destruct e as [e|].
    + exists (Raise e). intros st Hst.
      unfold classify_claim, bind at 1. rewrite (Hstart st Hst), Htop.
      unfold bind at 1. rewrite getitem_statement, Hread, Hv.
      unfold bind at 1, lift, extract_numbers_of. rewrite Hcn, Hfn.
      unfold bind at 1. rewrite truediv_rel_diff, Hle, <- Htop.
      unfold bind. by rewrite Hev.
    + eexists (Ok (_, _, _)). intros st Hst.
      unfold classify_claim, bind at 1. rewrite (Hstart st Hst), Htop.
      unfold bind at 1. rewrite getitem_statement, Hread, Hv.
      unfold bind at 1, lift, extract_numbers_of. rewrite Hcn, Hfn.
      unfold bind at 1. rewrite truediv_rel_diff, Hle, <- Htop.
      unfold bind. rewrite Hev. unfold ret. reflexivity.
Qed.

Lemma read_map refs ds st :
  Forall2 (fun r d => read st r = Some d) refs ds ->
  map (read st) refs = map Some ds.
Proof. induction 1 as [|r d refs ds Hr _ IH]; simpl; congruence. Qed.

(** C7. Two calls of [classify_claim] on the same text, in stores with
    the same metadata table (in particular one call after the other),
    have the same outcome: both raise the same exception, or both return
    records with the same claim, verdict, reasoning and evidence, whose
    retrieved facts hold the same items. *)
Theorem classify_claim_deterministic (claim_text : str) (st1 st2 : store) :
  metadata st1 = metadata st2 ->
  let first := classify_claim claim_text st1 in
  let second := classify_claim claim_text st2 in
  match first.1, second.1 with
  | Ok r1, Ok r2 =>
      claim r1 = claim r2 /\ verdict r1 = verdict r2 /\
      reasoning r1 = reasoning r2 /\ evidence r1 = evidence r2 /\
      map (read first.2) (retrieved_facts r1)
      = map (read second.2) (retrieved_facts r2)
  | Raise e1, Raise e2 => e1 = e2
  | _, _ => False
  end.
Proof.
  intros Hm. cbv zeta.
  destruct (classify_claim_shape claim_text (metadata st1)) as (facts & out & Hrun).
  rewrite (Hrun st1 eq_refl), (Hrun st2 (eq_sym Hm)).
  destruct out as [[[v why] ev]|e]; cbn [fst snd]; [|done].
  cbn [claim verdict reasoning evidence retrieved_facts].
  repeat (split; [done|]).
  by rewrite !(read_map _ _ _ (fresh_read _ _)).
Qed.
End ClassifyFacts.

(** ** Claim extraction *)

Section ExtractFacts.
Context `{NLP} `{Retrieval} `{FloatRepr}.

Lemma has_verb_Exists doc :
  has_verb doc = true <->
  Exists (fun token => pos_ token = "VERB"%str) (tokens doc).
Proof.
  unfold has_verb. rewrite existsb_exists, Exists_exists.
  split; intros (token & Hin & Hv); exists token.
  - split; [by apply list_elem_of_In|by apply StrFacts.eqb_eq].
  - split; [by apply list_elem_of_In|by apply StrFacts.eqb_eq].
Qed.

Lemma selected_qualifies sent :
  negb (bool_decide (ents (nlp sent) = [])) && has_verb (nlp sent) = true
  <-> qualifies sent.
Proof.
  unfold qualifies.
  rewrite andb_true_iff, negb_true_iff, bool_decide_eq_false, has_verb_Exists.
  done.
Qed.

Lemma extract_claims_loop_filter sentences : forall claims,
  extract_claims_loop sentences claims =
  claims ++ map claim_of (filter qualifies sentences).
Proof.
  induction sentences as [|sent rest IH]; intros claims; simpl.
  - by rewrite app_nil_r.
  - rewrite filter_cons.
    destruct (negb _ && _) eqn:Hsel.
    + apply selected_qualifies in Hsel.
      rewrite decide_True by done. rewrite IH, <- app_assoc. done.
    + rewrite decide_False; [apply IH|].
      intros Hq. apply selected_qualifies in Hq. congruence.
Qed.

(** C5. [extract_claims] selects exactly the sentences that contain at
    least one recognized entity and at least one verb token, in their
    order, and drops the others; when no sentence qualifies it returns
    the empty list and [fact_check_text] returns the empty list, with no
    exception and no change of the store. *)
Theorem extract_claims_selects (text : str) (st : store) :
  extract_claims text = map claim_of (filter qualifies (sents (nlp text))) /\
  (forall c, c ∈ extract_claims text <->
     exists sent, sent ∈ sents (nlp text) /\ qualifies sent /\ c = claim_of sent) /\
  (Forall (fun sent => ~ qualifies sent) (sents (nlp text)) ->
   extract_claims text = [] /\ fact_check_text text st = (Ok [], st)).
Proof.
  assert (Hsel : extract_claims text
                 = map claim_of (filter qualifies (sents (nlp text))))
    by (unfold extract_claims; by rewrite extract_claims_loop_filter).
  split; [exact Hsel|]. split.
  - intros c. rewrite Hsel, (list_elem_of_fmap claim_of). split.
    + intros (sent & -> & Hin). apply list_elem_of_filter in Hin as [Hq Hin].
      by exists sent.
    + intros (sent & Hin & Hq & ->). exists sent. split; [done|].
      by apply list_elem_of_filter.
  - intros Hnone.
    assert (Hempty : extract_claims text = []).
    { rewrite Hsel. clear Hsel.
      induction Hnone as [|sent l Hs _ IH]; [done|].
      rewrite filter_cons, decide_False by done. exact IH. }
    split; [exact Hempty|]. unfold fact_check_text. by rewrite Hempty.
Qed.
End ExtractFacts.

(** ** The pipeline *)

Section PipelineFacts.
Context `{NLP} `{Retrieval} `{FloatRepr}.
Implicit Types (st : store) (c : Claim).

Lemma classify_claim_metadata claim_text st :
  metadata (classify_claim claim_text st).2 = metadata st.
Proof.
  destruct (classify_claim_shape claim_text (metadata st)) as (facts & out & Hrun).
  by rewrite (Hrun st eq_refl).
Qed.

Lemma classify_claim_field claim_text st record st' :
  classify_claim claim_text st = (Ok record, st') -> claim record = claim_text.
Proof.
  destruct (classify_claim_shape claim_text (metadata st)) as (facts & out & Hrun).
  rewrite (Hrun st eq_refl). destruct out as [[[v why] ev]|e]; [|done].
  by intros [= <- _].
Qed.

(** With an aligned index and rows that have a text statement, every
    retrieved fact has a text statement. *)
Lemma retrieve_total query top_k st :
  index_aligned (metadata st) -> rows_have_text (metadata st) ->
  exists results st',
    retrieve query top_k st = (Ok results, st') /\
    Forall (fun r => exists text, statement_of st' r = Some (VStr text)) results.
Proof.
  intros Hal Hrows.
  pose proof (retrieve_run query top_k st) as Hrun. cbv zeta in Hrun.
  set (pairs := zip _ _) in Hrun.
  assert (Hvalid : Forall (fun pair => valid_index (metadata st) pair.2) pairs).
  { specialize (Hal query top_k). subst pairs.
    destruct (index_search (encode query) top_k) as [ds ixs]. simpl in *.
    clear Hrun. revert ds. induction Hal as [|i ixs Hi _ IH]; intros ds.
    - rewrite zip_with_nil_r. constructor.
    - destruct ds as [|x ds]; simpl; constructor; auto. }
  assert (Hnone : (collect (fact_of (metadata st)) pairs).2 = None).
  { apply collect_total. eapply Forall_impl; [exact Hvalid|].
    intros pair Hv. destruct (fact_of_valid _ _ Hv) as (row & _ & Hf). eauto. }
  rewrite Hnone in Hrun. eexists _, _. split; [exact Hrun|].
  destruct (retrieve_ok_facts _ _ _ _ _ Hrun) as [_ Hfacts].
  apply Forall_forall. intros r Hr.
  apply list_elem_of_lookup in Hr as [i Hr].
  destruct (Forall2_lookup_l _ _ _ _ _ Hfacts Hr) as (pair & _ & row & Hrow & Hread).
  assert (Hin : row ∈ metadata st).
  { unfold py_index in Hrow.
    destruct (py_position _ _) as [j|]; [|done].
    destruct (metadata st !! j) as [row'|] eqn:Hj; [|done].
    injection Hrow as <-. by eapply list_elem_of_lookup_2. }
  unfold rows_have_text in Hrows. rewrite Forall_forall in Hrows.
  destruct (Hrows row Hin) as [text Htext]. exists text.
  unfold statement_of. rewrite Hread. by rewrite lookup_insert_ne.
Qed.

Lemma classify_claim_total claim_text st :
  index_aligned (metadata st) -> rows_have_text (metadata st) ->
  exists record st', classify_claim claim_text st = (Ok record, st').
Proof.
  intros Hal Hrows.
  destruct (retrieve_total claim_text TOP_K st Hal Hrows) as (results & st' & Hret & Hst).
  unfold classify_claim, bind at 1. rewrite Hret.
  destruct results as [|top rest]; [unfold ret; eauto|].
  assert (Hall : Forall (fun r => is_Some (statement_of st' r)) (take 3 (top :: rest))).
  { apply Forall_take. eapply Forall_impl; [exact Hst|].
    intros r [text ->]. eauto. }
  destruct (statements_ok _ _ Hall) as (vs & Hvs & _).
  apply Forall_cons in Hst as [[text Htop] _].
  unfold bind at 1. rewrite getitem_statement.
  unfold statement_of in Htop.
  destruct (read st' top) as [d|]; [|done]. rewrite Htop.
  unfold bind at 1, lift, extract_numbers_of.
  destruct (extract_numbers claim_text) as [|c cs]; [unfold ret; eauto|].
  destruct (extract_numbers text) as [|f fs]; [unfold ret; eauto|].
  unfold bind at 1. rewrite truediv_rel_diff.
  destruct (Float.leb (rel_diff_of c f) float_0_2);
    unfold bind; rewrite Hvs; unfold ret; eauto.
Qed.

Lemma mapM_ok_inv {A B} (f : A -> M B) (P : A -> B -> Prop) (l : list A) :
  (forall a st b st', f a st = (Ok b, st') -> P a b) ->
  forall st bs st', mapM f l st = (Ok bs, st') -> Forall2 P l bs.
Proof.
  intros Hf. induction l as [|a l IH]; intros st bs st'; simpl.
  - unfold ret. intros [= <- _]. constructor.
  - unfold bind at 1. destruct (f a st) as [[b|e] st1] eqn:Ha; [|done].
    unfold bind. destruct (mapM f l st1) as [[bs'|e] st2] eqn:Hl; [|done].
    unfold ret. intros [= <- _]. constructor; eauto.
Qed.

Lemma mapM_total {A B} (f : A -> M B) (Inv : store -> Prop) (l : list A) :
  (forall a st, Inv st -> exists b st', f a st = (Ok b, st') /\ Inv st') ->
  forall st, Inv st -> exists bs st', mapM f l st = (Ok bs, st').
Proof.
  intros Hf. induction l as [|a l IH]; intros st Hst; simpl.
  - unfold ret. eauto.
  - destruct (Hf a st Hst) as (b & st1 & Ha & Hst1).
    destruct (IH st1 Hst1) as (bs & st2 & Hl).
    unfold bind at 1. rewrite Ha. unfold bind. rewrite Hl. unfold ret. eauto.
Qed.

(** The loop stops at the first element on which the body raises. *)
Lemma mapM_raise {A B} (f : A -> M B) (before : list A) (a : A)
    (after : list A) st bs st1 e st2 :
  mapM f before st = (Ok bs, st1) ->
  f a st1 = (Raise e, st2) ->
  mapM f (before ++ a :: after) st = (Raise e, st2).
Proof.
  revert st bs. induction before as [|a0 before IH]; intros st bs; simpl.
  - unfold ret. intros [= _ <-] Ha. unfold bind. by rewrite Ha.
  - unfold bind at 1 3. destruct (f a0 st) as [[b|e0] st0]; [|done].
    unfold bind at 1 2.
    destruct (mapM f before st0) as [[bs'|e0] st0'] eqn:Hb; [|done].
    unfold ret. intros [= _ <-] Ha. by rewrite (IH st0 bs' Hb Ha).
Qed.

Lemma fact_check_text_mapM text st :
  fact_check_text text st =
  mapM (fun c => classify_claim (sentence c)) (extract_claims text) st.
Proof. unfold fact_check_text. by destruct (extract_claims text). Qed.

(** C6. Whenever [fact_check_text] returns, it returns one record per
    extracted claim, in the order of the claims, and the claim field of
    each record is the sentence of its claim; it does return when the
    index is aligned with the metadata table and every row has a text
    statement. *)
Theorem fact_check_text_order (text : str) (st : store) :
  index_aligned (metadata st) -> rows_have_text (metadata st) ->
  (exists records st',
     fact_check_text text st = (Ok records, st') /\
     length records = length (extract_claims text) /\
     map claim records = map sentence (extract_claims text)) /\
  (forall st0 records st',
     fact_check_text text st0 = (Ok records, st') ->
     length records = length (extract_claims text) /\
     map claim records = map sentence (extract_claims text)).
Proof.
  intros Hal Hrows.
  assert (Hinv : forall st0 records st',
            fact_check_text text st0 = (Ok records, st') ->
            length records = length (extract_claims text) /\
            map claim records = map sentence (extract_claims text)).
  { intros st0 records st'. rewrite fact_check_text_mapM. intros Hm.
    pose proof (mapM_ok_inv _ (fun c record => claim record = sentence c) _
                  (fun c s b s' => classify_claim_field (sentence c) s b s')
                  _ _ _ Hm) as Hall.
    split; [symmetry; by eapply Forall2_length|].
    clear Hm. induction Hall as [|c record cs rs Hc _ IH]; simpl; congruence. }
  split; [|exact Hinv].
  destruct (mapM_total (fun c => classify_claim (sentence c))
              (fun s => metadata s = metadata st) (extract_claims text))
    with (st := st) as (records & st' & Hm); [|done|].
  - intros c s Hs.
    destruct (classify_claim_total (sentence c) s) as (record & s' & Hc);
      [by rewrite Hs..|].
    exists record, s'. split; [done|].
    pose proof (classify_claim_metadata (sentence c) s) as Hmeta.
    rewrite Hc in Hmeta. simpl in Hmeta. congruence.
  - rewrite <- fact_check_text_mapM in Hm.
    exists records, st'. split; [done|]. exact (Hinv st records st' Hm).
Qed.

(** C3, as the code has it. An exception raised while a claim is
    classified, the claims before it having been classified, is raised by
    [fact_check_text]: no list is returned and the claims after it are
    not classified. *)
Theorem fact_check_text_propagates (text : str) (st st1 st2 : store)
    (before after : list Claim) (c : Claim)
    (records : list VerdictRecord) (e : exn) :
  extract_claims text = before ++ c :: after ->
  mapM (fun c => classify_claim (sentence c)) before st = (Ok records, st1) ->
  classify_claim (sentence c) st1 = (Raise e, st2) ->
  fact_check_text text st = (Raise e, st2).
Proof.
  intros Hclaims Hbefore Hc. rewrite fact_check_text_mapM, Hclaims.
  by apply (mapM_raise _ _ _ _ _ _ _ _ _ Hbefore).
Qed.
End PipelineFacts.

(** ** The corpus of [Sample] *)

Module SampleFacts.
Import Sample.
Local Open Scope str_scope.

(** The conversions agree with the binary64 values of the literals:
    39.84 is 0x1.3eb851eb851ecp+5 and 0.2 is 0x1.999999999999ap-3. *)
Example of_decimal_39_84 :
  Float.of_decimal 3984 2 = S754_finite false 5606981536076268 (-47).
Proof. vm_compute. reflexivity. Qed.

Example float_0_2_value :
  float_0_2 = S754_finite false 7205759403792794 (-55).
Proof. vm_compute. reflexivity. Qed.

Example float_1e_6_value :
  float_1e_6 = S754_finite false 4722366482869645 (-72).
Proof. vm_compute. reflexivity. Qed.

(** Scenarios 2 and 3 of the specification. *)
Example rel_diff_39_84_40 :
  Float.leb (rel_diff_of (Float.of_decimal 3984 2) (Float.of_decimal 400 1))
            float_0_2 = true.
Proof. vm_compute. reflexivity. Qed.

Example rel_diff_5_50 :
  Float.ltb float_0_2
            (rel_diff_of (Float.of_decimal 5 0) (Float.of_decimal 50 0)) = true.
Proof. vm_compute. reflexivity. Qed.

(** The comparison is the binary64 one: for 3.6 against 3 the quotient
    is the float above 0.2, and the verdict is ["False"]. *)
Example rel_diff_3_6_3 :
  rel_diff_of (Float.of_decimal 36 1) (Float.of_decimal 3 0)
  = S754_finite false 7205759403792795 (-55).
Proof. vm_compute. reflexivity. Qed.

Lemma loaded_aligned : index_aligned (metadata loaded).
Proof.
  intros query top_k. cbn [index_search retrieval snd].
  apply Forall_take. unfold ranking.
  unfold valid_index. change (length (metadata loaded)) with 6.
  repeat match goal with
         | |- context [Str.eqb ?a ?b] => destruct (Str.eqb a b)
         end;
    cbn [map snd]; repeat constructor; lia.
Qed.

Lemma loaded_rows : rows_have_text (metadata loaded).
Proof. repeat (constructor; [eexists; reflexivity|]). constructor. Qed.

Lemma classify_claim_numeric_witness :
  exists record,
    classify_claim claim_nba loaded
    = (Ok record, (retrieve claim_nba TOP_K loaded).2) /\
    (Float.leb (rel_diff_of (Float.of_decimal 3984 2) (Float.of_decimal 400 1))
               float_0_2 = true ->
     verdict record = "True") /\
    (Float.ltb float_0_2
               (rel_diff_of (Float.of_decimal 3984 2) (Float.of_decimal 400 1)) = true ->
     verdict record = "False") /\
    map Some (evidence record)
    = map (statement_of (retrieve claim_nba TOP_K loaded).2)
          (take 3 [Obj 0; Obj 1; Obj 2; Obj 3; Obj 4]) /\
    0 < length (evidence record) <= 3.
Proof.
  apply (classify_claim_numeric claim_nba loaded
           (retrieve claim_nba TOP_K loaded).2
           (Obj 0) [Obj 1; Obj 2; Obj 3; Obj 4]
           "NBA released Rs 40.0 crore to Andhra Pradesh for Red Sanders conservation."
           (Float.of_decimal 3984 2) (Float.of_decimal 400 1) [] []).
  - vm_compute. reflexivity.
  - vm_compute. reflexivity.
  - repeat (constructor; [eexists; vm_compute; reflexivity|]). constructor.
  - vm_compute. reflexivity.
  - vm_compute. reflexivity.
Defined.

Lemma retrieve_sorted_witness :
  exists results st' scores,
    retrieve claim_rice 5 loaded = (Ok results, st') /\
    length results <= 5 /\
    map (score_of st') results = map (fun x => Some (VFloat x)) scores /\
    non_decreasing scores = true /\
    ties_by_position (zip scores [1; 4; 5; 0; 2]%Z) = true.
Proof.
  destruct (retrieve_sorted claim_rice 5 loaded)
    as (results & st' & scores & Hret & Hlen & _ & Hscores & Hsorted & Hties).
  - vm_compute. lia.
  - unfold valid_index. change (length (metadata loaded)) with 6.
    repeat constructor; cbn [fst snd]; lia.
  - vm_compute. reflexivity.
  - vm_compute. reflexivity.
  - exists results, st', scores. auto.
Defined.

Lemma classify_claim_unverifiable_witness :
  exists record,
    classify_claim claim_power loaded
    = (Ok record, (retrieve claim_power TOP_K loaded).2) /\
    verdict record = "Unverifiable" /\ evidence record = [].
Proof.
  destruct (classify_claim_unverifiable claim_power loaded
              (retrieve claim_power TOP_K loaded).2
              [Obj 0; Obj 1; Obj 2; Obj 3; Obj 4]) as (_ & _ & Hnum).
  - vm_compute. reflexivity.
  - apply (Hnum (Obj 0) [Obj 1; Obj 2; Obj 3; Obj 4]
             "The cabinet discussed the free electricity policy for farmers.").
    + reflexivity.
    + vm_compute. reflexivity.
    + left. vm_compute. reflexivity.
Defined.

Lemma extract_claims_selects_witness :
  extract_claims " What a year!" = [] /\
  fact_check_text " What a year!" loaded = (Ok [], loaded).
Proof.
  apply (extract_claims_selects " What a year!" loaded).
  constructor; [|constructor].
  intros [_ Hverb]. vm_compute in Hverb.
  inversion Hverb as [token l Hpos|token l Hrest]; [discriminate|inversion Hrest].
Defined.

Lemma fact_check_text_order_witness :
  exists records st',
    fact_check_text text_two loaded = (Ok records, st') /\
    length records = length (extract_claims text_two) /\
    map claim records = map sentence (extract_claims text_two).
Proof.
  exact (proj1 (fact_check_text_order text_two loaded loaded_aligned loaded_rows)).
Defined.

Lemma fact_check_text_propagates_witness :
  (fact_check_text text_two stale).1 = Raise IndexError.
Proof.
  rewrite (fact_check_text_propagates text_two stale
             (classify_claim claim_nba stale).2
             (classify_claim claim_rice (classify_claim claim_nba stale).2).2
             [claim_of claim_nba] [] (claim_of (" " ++ claim_rice))
             [match (classify_claim claim_nba stale).1 with
              | Ok record => record
              | Raise _ => Build_VerdictRecord "" [] "" "" []
              end]
             IndexError).
  - reflexivity.
  - vm_compute. reflexivity.
  - vm_compute. reflexivity.
  - vm_compute. reflexivity.
Defined.

(** C3, as stated, fails: with a metadata file one row short of the
    index, the first claim of the text is classified, the second raises
    [IndexError], and [fact_check_text] raises it instead of returning a
    list with an Unverifiable record. *)
Lemma fact_check_text_not_isolated :
  map sentence (extract_claims text_two) = [claim_nba; claim_rice] /\
  (exists record,
     (classify_claim claim_nba stale).1 = Ok record /\ verdict record = "True") /\
  (classify_claim claim_rice (classify_claim claim_nba stale).2).1
    = Raise IndexError /\
  ~ (exists records st', fact_check_text text_two stale = (Ok records, st')).
Proof.
  split; [vm_compute; reflexivity|]. split.
  - eexists. split; vm_compute; reflexivity.
  - split; [vm_compute; reflexivity|].
    intros (records & st' & Hrun).
    apply (f_equal fst) in Hrun. vm_compute in Hrun. discriminate.
Qed.

Lemma classify_claim_deterministic_witness :
  match (classify_claim claim_nba loaded).1,
        (classify_claim claim_nba (classify_claim claim_nba loaded).2).1 with
  | Ok r1, Ok r2 =>
      claim r1 = claim r2 /\ verdict r1 = verdict r2 /\
      reasoning r1 = reasoning r2 /\ evidence r1 = evidence r2 /\
      map (read (classify_claim claim_nba loaded).2) (retrieved_facts r1)
      = map (read (classify_claim claim_nba (classify_claim claim_nba loaded).2).2)
            (retrieved_facts r2)
  | Raise e1, Raise e2 => e1 = e2
  | _, _ => False
  end.
Proof.
  apply (classify_claim_deterministic claim_nba loaded
           (classify_claim claim_nba loaded).2).
  exact eq_refl.
Defined.

Lemma retrieve_copies_witness :
  metadata (retrieve claim_nba 5 loaded).2 = metadata loaded /\
  NoDup [Obj 0; Obj 1; Obj 2; Obj 3; Obj 4] /\
  metadata (mutate (fun d => delete "statement" d) (Obj 0)
              (retrieve claim_nba 5 loaded).2).2 = metadata loaded /\
  metadata (retrieve_all [(claim_nba, 5); (claim_rice, 3)] loaded).2
  = metadata loaded.
Proof.
  destruct (retrieve_copies [(claim_nba, 5); (claim_rice, 3)] claim_nba 5
              loaded (retrieve claim_nba 5 loaded).2
              [Obj 0; Obj 1; Obj 2; Obj 3; Obj 4] (Obj 0)
              (fun d => delete "statement" d))
    as (Hmeta & Hdup & _ & (pair & row & _ & _ & _ & Hmut & _ & Hframe) & Hall).
  - vm_compute. reflexivity.
  - apply list_elem_of_here.
  - split; [exact Hmeta|]. split; [exact Hdup|]. split; [|exact Hall].
    rewrite Hmut. exact Hframe.
Defined.
End SampleFacts.

(** * Further properties *)

(** ** Numbers in a text *)

Module TextMore.
Import TextFacts.
Local Open Scope str_scope.

Lemma match_number_digit c rest :
  is_digit c = true ->
  exists lit tl, match_number (Char c rest) = Some (lit, tl).
Proof.
  intros Hc. unfold match_number. simpl. rewrite Hc.
  destruct (digits_run rest) as [ds tl].
  destruct (optional_fraction tl) as [fr tl']. eauto.
Qed.

Lemma findall_nil_iff text : findall text = [] <-> has_digit text = false.
Proof.
  split.
  - induction text as [|c rest IH]; [done|].
    simpl. destruct (is_digit c) eqn:Hc.
    + rewrite findall_cons.
      destruct (match_number_digit c rest Hc) as (lit & tl & ->). done.
    + rewrite findall_skip by done. exact IH.
  - intros Hd. rewrite <- (append_empty_r text). by rewrite findall_no_digit.
Qed.

Lemma has_digit_remove_comma text :
  has_digit (remove_char "," text) = has_digit text.
Proof.
  induction text as [|c rest IH]; [done|]. simpl.
  destruct (N.eqb_spec c ","%uchar) as [->|_]; simpl; [done|].
  by rewrite IH.
Qed.

Lemma extract_numbers_nil text :
  extract_numbers text = [] <-> has_digit text = false.
Proof.
  unfold extract_numbers. rewrite <- has_digit_remove_comma, <- findall_nil_iff.
  split; [|by intros ->].
  by destruct (findall (remove_char "," text)).
Qed.

(** X1. [extract_numbers] returns the empty list exactly for the texts
    without a decimal digit, of whatever script: every text with a digit
    yields at least one number. *)
Theorem extract_numbers_empty_iff (text : str) :
  extract_numbers text = [] <-> has_digit text = false.
Proof. apply extract_numbers_nil. Qed.

Lemma digits_run_app_sep a c b :
  is_digit c = false ->
  digits_run (a ++ Char c b) =
  ((digits_run a).1, (digits_run a).2 ++ Char c b).
Proof.
  intros Hc. induction a as [|x a IH].
  - rewrite append_nil_l. simpl. by rewrite Hc.
  - rewrite append_cons. simpl. destruct (is_digit x); [|done].
    rewrite IH. by destruct (digits_run a).
Qed.

Lemma optional_fraction_app_sep t c b :
  is_digit c = false -> c <> "."%uchar ->
  optional_fraction (t ++ Char c b) =
  ((optional_fraction t).1, (optional_fraction t).2 ++ Char c b).
Proof.
  intros Hc Hp. destruct t as [|y t].
  - rewrite append_nil_l. simpl. apply N.eqb_neq in Hp. by rewrite Hp.
  - rewrite append_cons. cbn [optional_fraction].
    destruct (N.eqb y "."%uchar); [|done].
    rewrite digits_run_app_sep by done.
    destruct (digits_run t) as [[|f fs] tl]; done.
Qed.

Lemma match_number_app_sep a c b :
  is_digit c = false -> c <> "."%uchar ->
  match_number (a ++ Char c b) =
  match match_number a with
  | Some (lit, tl) => Some (lit, tl ++ Char c b)
  | None => None
  end.
Proof.
  intros Hc Hp. unfold match_number.
  rewrite digits_run_app_sep by done.
  destruct (digits_run a) as [[|d ds] tl]; cbn [fst snd]; [done|].
  rewrite optional_fraction_app_sep by done.
  by destruct (optional_fraction tl).
Qed.

(** The search does not see across a character that is neither a digit nor
    a full stop. *)
Lemma findall_app_sep c b :
  is_digit c = false -> c <> "."%uchar ->
  forall a, findall (a ++ Char c b) = (findall a ++ findall b)%list.
Proof.
  intros Hc Hp a.
  remember (Str.length a) as n eqn:Hn.
  revert a Hn. induction n as [n IH] using lt_wf_ind. intros a ->.
  destruct a as [|x a].
  - rewrite append_nil_l, findall_skip by done. done.
  - rewrite append_cons, (findall_cons x a), findall_cons.
    rewrite <- append_cons, match_number_app_sep by done.
    destruct (match_number (Char x a)) as [[lit tl]|] eqn:Hm.
    + apply match_number_length in Hm.
      rewrite (IH (Str.length tl)) by done. done.
    + apply (IH (Str.length a)); [simpl; lia|done].
Qed.

(** X2. Two parts of a text joined by a character that is not a decimal
    digit of any script, a full stop or a comma (a space, a letter, a
    sign) are read independently:
    the numbers of the whole are those of the first part followed by those
    of the second. *)
Theorem extract_numbers_separated (a b : str) (c : char) :
  is_digit c = false -> c <> "."%uchar -> c <> ","%uchar ->
  extract_numbers (a ++ Char c b)
  = (extract_numbers a ++ extract_numbers b)%list.
Proof.
  intros Hc Hp Hcomma. unfold extract_numbers.
  rewrite remove_char_app. simpl.
  apply N.eqb_neq in Hcomma. rewrite Hcomma.
  rewrite findall_app_sep by done. by rewrite map_app.
Qed.

Lemma extract_numbers_separated_witness :
  extract_numbers ("Rs 39.84" ++ Char " " "crore for 1,200 villages")
  = (extract_numbers "Rs 39.84" ++ extract_numbers "crore for 1,200 villages")%list.
Proof.
  exact (extract_numbers_separated "Rs 39.84" "crore for 1,200 villages" " "
           eq_refl ltac:(discriminate) ltac:(discriminate)).
Defined.
End TextMore.

(** ** Retrieval: positions, growth of the store *)

Section RetrieveMore.
Context `{Retrieval}.
Implicit Types (st : store) (pairs : list (float * Z)).

Lemma py_position_ok_valid n i j :
  py_position n i = Ok j ->
  (- Z.of_nat n <= i < Z.of_nat n)%Z /\
  j = Z.to_nat (if (i <? 0)%Z then i + Z.of_nat n else i)%Z.
Proof.
  unfold py_position.
  destruct ((_ <? 0)%Z || _)%bool eqn:E; [discriminate|].
  intros [= <-]. apply orb_false_elim in E as [E1 E2].
  split; [|done]. destruct (i <? 0)%Z eqn:Ei; lia.
Qed.

Lemma py_position_raise n i e : py_position n i = Raise e -> e = IndexError.
Proof.
  unfold py_position. destruct ((_ <? 0)%Z || _)%bool; by intros [= <-].
Qed.

Lemma fact_of_raise table pair e : fact_of table pair = Raise e -> e = IndexError.
Proof.
  unfold fact_of, py_index.
  destruct (py_position (length table) pair.2) as [j|e'] eqn:Hj.
  - by destruct (table !! j); intros [= <-].
  - intros [= <-]. by eapply py_position_raise.
Qed.

Lemma fact_of_ok_valid table pair d :
  fact_of table pair = Ok d -> valid_index table pair.2.
Proof.
  unfold fact_of, py_index, valid_index.
  destruct (py_position (length table) pair.2) as [j|e'] eqn:Hj; [|done].
  intros _. by apply py_position_ok_valid in Hj as [Hj _].
Qed.

Lemma collect_raise {A B} (f : A -> result B) (l : list A) e :
  (collect f l).2 = Some e -> exists a, a ∈ l /\ f a = Raise e.
Proof.
  induction l as [|a l IH]; simpl; [done|].
  destruct (f a) as [b|e'] eqn:Ha.
  - destruct (collect f l) as [bs e'']. simpl in *. intros He.
    destruct (IH He) as (a' & Hin & Ha'). exists a'. split; [by right|done].
  - simpl. intros [= <-]. exists a. split; [by left|done].
Qed.

Lemma collect_none {A B} (f : A -> result B) (l : list A) :
  (collect f l).2 = None -> Forall (fun a => exists b, f a = Ok b) l.
Proof.
  intros Hn. destruct (collect f l) as [bs e] eqn:Hc. simpl in Hn. subst e.
  apply collect_ok in Hc. induction Hc; constructor; eauto.
Qed.

(** X3. Asked for at least one neighbour, [retrieve] returns exactly when
    every position the index gives is an index Python accepts for the
    metadata table (from minus its length to its length minus one), and
    the only exception it raises is [IndexError]. *)
Theorem retrieve_returns_iff (query : str) (top_k : nat) (st : store) :
  0 < top_k ->
  let pairs := zip (index_search (encode query) top_k).1
                   (index_search (encode query) top_k).2 in
  (Forall (fun pair => valid_index (metadata st) pair.2) pairs <->
   exists results st', retrieve query top_k st = (Ok results, st')) /\
  (forall e st', retrieve query top_k st = (Raise e, st') -> e = IndexError).
Proof.
  intros _ pairs. rewrite retrieve_run. cbv zeta. fold pairs.
  destruct (collect (fact_of (metadata st)) pairs) as [facts e] eqn:Hc.
  cbn [fst snd]. split; [split|].
  - intros Hvalid.
    assert (Hnone : (collect (fact_of (metadata st)) pairs).2 = None).
    { apply collect_total. eapply Forall_impl; [exact Hvalid|].
      intros pair Hv. destruct (fact_of_valid _ _ Hv) as (row & _ & Hf). eauto. }
    rewrite Hc in Hnone. simpl in Hnone. subst e. eauto.
  - intros (results & st' & Hr). destruct e as [e|]; [done|].
    assert (Hnone : (collect (fact_of (metadata st)) pairs).2 = None)
      by (by rewrite Hc).
    apply collect_none in Hnone. eapply Forall_impl; [exact Hnone|].
    intros pair [d Hd]. by eapply fact_of_ok_valid.
  - intros e' st' Hr. destruct e as [e|]; [|done]. injection Hr as <- _.
    assert (Hsome : (collect (fact_of (metadata st)) pairs).2 = Some e)
      by (by rewrite Hc).
    apply collect_raise in Hsome as (pair & _ & Hp). by eapply fact_of_raise.
Qed.

Lemma py_index_negative {A} (l : list A) (i : Z) x :
  (i < 0)%Z -> py_index l i = Ok x ->
  l !! Z.to_nat (Z.of_nat (length l) + i) = Some x /\
  (i = (-1)%Z -> last l = Some x).
Proof.
  intros Hi. unfold py_index.
  destruct (py_position (length l) i) as [j|] eqn:Hj; [|done].
  apply py_position_ok_valid in Hj as [Hv ->].
  replace (i <? 0)%Z with true by lia.
  destruct (l !! _) as [y|] eqn:Hy; [|done]. intros [= <-].
  rewrite Z.add_comm. split; [done|].
  intros ->. rewrite last_lookup. rewrite <- Hy. f_equal. lia.
Qed.

(** X4. A negative position counts from the end of the metadata table, as
    Python indexing does: for the position -1, with which FAISS fills the
    places it has no neighbour for, the returned fact is a copy of the last
    row of the table. *)
Theorem retrieve_negative_position (query : str) (top_k : nat)
    (st st' : store) (results : list ref) (i : nat) (dist : float) (idx : Z) :
  retrieve query top_k st = (Ok results, st') ->
  zip (index_search (encode query) top_k).1
      (index_search (encode query) top_k).2 !! i = Some (dist, idx) ->
  (idx < 0)%Z ->
  exists r row,
    results !! i = Some r /\
    metadata st !! Z.to_nat (Z.of_nat (length (metadata st)) + idx) = Some row /\
    (idx = (-1)%Z -> last (metadata st) = Some row) /\
    read st' r = Some (<["score"%str := VFloat dist]> row).
Proof.
  intros Hr Hp Hneg.
  destruct (retrieve_ok_facts _ _ _ _ _ Hr) as [Hlen Hfacts].
  destruct (Forall2_lookup_r _ _ _ _ _ Hfacts Hp) as (r & Hri & row & Hrow & Hread).
  simpl in Hrow, Hread.
  destruct (py_index_negative _ _ _ Hneg Hrow) as [Hpos Hlast].
  exists r, row. done.
Qed.

Lemma retrieve_grows query top_k st :
  exists facts, (retrieve query top_k st).2 = grow st facts /\
    forall results st', retrieve query top_k st = (Ok results, st') ->
      results = fresh st (length facts) /\
      length facts = length (zip (index_search (encode query) top_k).1
                                 (index_search (encode query) top_k).2).
Proof.
  rewrite retrieve_run. cbv zeta. set (pairs := zip _ _).
  destruct (collect (fact_of (metadata st)) pairs) as [facts e] eqn:Hc.
  exists facts. split; [done|]. cbn [fst snd].
  intros results st' Hr. destruct e; [done|]. injection Hr as <- <-.
  split; [done|]. apply collect_ok in Hc. symmetry. by eapply Forall2_length.
Qed.

Lemma fresh_length st n : length (fresh st n) = n.
Proof. unfold fresh. by rewrite length_fmap, length_seq. Qed.

(** X5. [retrieve] only adds dict objects to the store: every object that
    existed before the call, a metadata row or a fact returned by an
    earlier call, is still there with the same items afterwards, whether
    the call returns or raises; when it returns, it has created one object
    per returned fact and as many facts as the shorter of the two arrays
    of the index has entries. *)
Theorem retrieve_appends (query : str) (top_k : nat) (st : store) :
  (forall r d, read st r = Some d ->
     read (retrieve query top_k st).2 r = Some d) /\
  (forall results st', retrieve query top_k st = (Ok results, st') ->
     length results = min (length (index_search (encode query) top_k).1)
                          (length (index_search (encode query) top_k).2) /\
     length (objects st') = length (objects st) + length results /\
     results = fresh st (length results)).
Proof.
  destruct (retrieve_grows query top_k st) as (facts & Hst & Hok). split.
  - intros r d Hd. rewrite Hst. by apply read_grow_old.
  - intros results st' Hr. destruct (Hok results st' Hr) as [-> Hlen].
    rewrite Hr in Hst. simpl in Hst. subst st'.
    rewrite fresh_length. split; [|split].
    + by rewrite Hlen, length_zip.
    + simpl. by rewrite length_app.
    + done.
Qed.
End RetrieveMore.

Module RetrieveMoreFacts.
Import Sample.

Lemma retrieve_returns_iff_witness :
  (Forall (fun pair => valid_index (metadata stale) pair.2)
     (zip (index_search (encode claim_rice) 5).1
          (index_search (encode claim_rice) 5).2) <->
   exists results st', retrieve claim_rice 5 stale = (Ok results, st')) /\
  exists results st', retrieve claim_nba 5 stale = (Ok results, st').
Proof.
  split.
  - apply (retrieve_returns_iff claim_rice 5 stale). lia.
  - apply (retrieve_returns_iff claim_nba 5 stale); [lia|].
    unfold valid_index. change (length (metadata stale)) with 5.
    repeat constructor; cbn; lia.
Defined.

Lemma retrieve_negative_position_witness :
  exists r row,
    [Obj 0; Obj 1; Obj 2; Obj 3; Obj 4] !! 2 = Some r /\
    metadata Padded.loaded
      !! Z.to_nat (Z.of_nat (length (metadata Padded.loaded)) + -1) = Some row /\
    ((-1)%Z = (-1)%Z -> last (metadata Padded.loaded) = Some row) /\
    read (@retrieve Padded.index "rice exports" 5 Padded.loaded).2 r
    = Some (<["score"%str := VFloat Padded.flt_max]> row).
Proof.
  apply (@retrieve_negative_position Padded.index "rice exports" 5
           Padded.loaded _ _ 2 Padded.flt_max (-1)%Z).
  - exact eq_refl.
  - exact eq_refl.
  - lia.
Defined.

Lemma retrieve_appends_witness :
  read (retrieve claim_rice 5 (retrieve claim_nba 5 loaded).2).2 (Obj 0)
  = Some (<["score"%str := VFloat (tenths 2)]>
            (row "1" "2025-01-10"
               "NBA released Rs 40.0 crore to Andhra Pradesh for Red Sanders conservation.")) /\
  length (objects (retrieve claim_nba 5 loaded).2)
  = length (objects loaded) + length [Obj 0; Obj 1; Obj 2; Obj 3; Obj 4].
Proof.
  destruct (retrieve_appends claim_rice 5 (retrieve claim_nba 5 loaded).2)
    as [Hkeep _].
  destruct (retrieve_appends claim_nba 5 loaded) as [_ Hnew].
  split.
  - apply Hkeep. exact eq_refl.
  - destruct (Hnew [Obj 0; Obj 1; Obj 2; Obj 3; Obj 4]
                (retrieve claim_nba 5 loaded).2) as (_ & Hlen & _).
    + exact eq_refl.
    + exact Hlen.
Defined.
End RetrieveMoreFacts.

(** ** Verdicts: exceptions and the shape of a record *)

Section ClassifyMore.
Context `{NLP} `{Retrieval} `{FloatRepr}.
Implicit Types (st : store) (r : ref).

(** [classify_claim] computes [judge] on the facts it retrieves. *)
Lemma classify_claim_judge claim_text st :
  let pairs := zip (index_search (encode claim_text) TOP_K).1
                   (index_search (encode claim_text) TOP_K).2 in
  let facts := (collect (fact_of (metadata st)) pairs).1 in
  exists res,
    classify_claim claim_text st = (res, grow st facts) /\
    match (collect (fact_of (metadata st)) pairs).2 with
    | Some e => res = Raise e
    | None =>
        match judge claim_text facts with
        | Ok (v, ev) =>
            exists record,
              res = Ok record /\
              claim record = claim_text /\
              retrieved_facts record = fresh st (length facts) /\
              verdict record = v /\ evidence record = ev
        | Raise e => res = Raise e
        end
    end.
Proof.
  intros pairs facts.
  pose proof (retrieve_run claim_text TOP_K st) as Hret. cbv zeta in Hret.
  fold pairs in Hret. fold facts in Hret.
  destruct (collect (fact_of (metadata st)) pairs).2 as [e|].
  { exists (Raise e). split; [|done].
    unfold classify_claim, bind. by rewrite Hret. }
  destruct facts as [|d0 facts'] eqn:Hfacts.
  { eexists. split; [unfold classify_claim, bind; rewrite Hret; reflexivity|].
    cbn. eexists. split; [reflexivity|]. done. }
  rewrite <- Hfacts in *.
  assert (Htop : fresh st (length facts) =
                 Obj (length (objects st)) :: fresh (grow st [d0]) (length facts')).
  { rewrite Hfacts. unfold fresh. simpl. by rewrite length_app, Nat.add_1_r. }
  assert (Hread : read (grow st facts) (Obj (length (objects st))) = Some d0).
  { rewrite <- (Nat.add_0_r (length (objects st))).
    rewrite read_grow_new. by rewrite Hfacts. }
  assert (Hev : statements (take 3 (fresh st (length facts))) (grow st facts) =
                (match (collect statement_item (take 3 facts)).2 with
                 | None => Ok (collect statement_item (take 3 facts)).1
                 | Some e => Raise e
                 end, grow st facts)).
  { apply statements_read, Forall2_take, fresh_read. }
  assert (Hjudge : judge claim_text facts =
            match statement_item d0 with
            | Raise e => Raise e
            | Ok top_fact =>
                match extract_numbers_of top_fact with
                | Raise e => Raise e
                | Ok fact_nums =>
                    match extract_numbers claim_text, fact_nums with
                    | c :: _, f :: _ =>
                        match collect statement_item (take 3 facts) with
                        | (evidence, None) =>
                            Ok (if Float.leb (rel_diff_of c f) float_0_2
                                then "True"%str else "False"%str, evidence)
                        | (_, Some e) => Raise e
                        end
                    | _, _ => Ok ("Unverifiable"%str, [])
                    end
                end
            end).
  { unfold judge. by rewrite Hfacts. }
  rewrite Hjudge. clear Hjudge. unfold statement_item at 1.
  destruct (d0 !! "statement"%str) as [v|] eqn:Hv.
  2:{ eexists. split; [|reflexivity].
      unfold classify_claim, bind at 1. rewrite Hret, Htop.
      unfold bind. by rewrite getitem_statement, Hread, Hv. }
  destruct v as [text|x]; cbn [extract_numbers_of].
  2:{ eexists. split; [|reflexivity].
      unfold classify_claim, bind at 1. rewrite Hret, Htop.
      unfold bind at 1. rewrite getitem_statement, Hread, Hv. done. }
  destruct (extract_numbers claim_text) as [|c cs] eqn:Hcn.
  { eexists. split.
    - unfold classify_claim, bind at 1. rewrite Hret, Htop.
      unfold bind at 1. rewrite getitem_statement, Hread, Hv.
      unfold bind, lift, extract_numbers_of, ret. rewrite Hcn.
      rewrite <- Htop. reflexivity.
    - eexists. split; [reflexivity|]. done. }
  destruct (extract_numbers text) as [|f fs] eqn:Hfn.
  { eexists. split.
    - unfold classify_claim, bind at 1. rewrite Hret, Htop.
      unfold bind at 1. rewrite getitem_statement, Hread, Hv.
      unfold bind, lift, extract_numbers_of, ret. rewrite Hcn, Hfn.
      rewrite <- Htop. reflexivity.
    - eexists. split; [reflexivity|]. done. }
  destruct (collect statement_item (take 3 facts)) as [vs e] eqn:Hcs.
  cbn [fst snd] in Hev.
  destruct (Float.leb (rel_diff_of c f) float_0_2) eqn:Hle;
    (destruct e as [e|];
     [ exists (Raise e); split; [|done];
       unfold classify_claim, bind at 1; rewrite Hret, Htop;
       unfold bind at 1; rewrite getitem_statement, Hread, Hv;
       unfold bind at 1, lift, extract_numbers_of; rewrite Hcn, Hfn;
       unfold bind at 1; rewrite truediv_rel_diff, Hle, <- Htop;
       unfold bind; by rewrite Hev
     | eexists; split;
       [ unfold classify_claim, bind at 1; rewrite Hret, Htop;
         unfold bind at 1; rewrite getitem_statement, Hread, Hv;
         unfold bind at 1, lift, extract_numbers_of; rewrite Hcn, Hfn;
         unfold bind at 1; rewrite truediv_rel_diff, Hle, <- Htop;
         unfold bind; rewrite Hev; unfold ret; reflexivity
       | eexists; split; [reflexivity|]; done ] ]).
Qed.

Lemma py_index_elem {A} (l : list A) (i : Z) x : py_index l i = Ok x -> x ∈ l.
Proof.
  unfold py_index. destruct (py_position (length l) i) as [j|]; [|done].
  destruct (l !! j) as [y|] eqn:Hy; [|done]. intros [= <-].
  by eapply list_elem_of_lookup_2.
Qed.

(** A retrieved fact has the statement of a row of the table. *)
Lemma fact_of_statement table pair d :
  fact_of table pair = Ok d ->
  exists row, row ∈ table /\ d !! "statement"%str = row !! "statement"%str.
Proof.
  intros Hd. apply fact_of_ok_inv in Hd as (row & Hrow & ->).
  exists row. split; [by eapply py_index_elem|]. by rewrite lookup_insert_ne.
Qed.

Lemma judge_raise claim_text facts e :
  judge claim_text facts = Raise e ->
  (e = KeyError "statement" \/ e = AttributeError) /\
  exists d, d ∈ facts /\ forall text, d !! "statement"%str <> Some (VStr text).
Proof.
  unfold judge. destruct facts as [|d0 facts']; [done|].
  unfold statement_item at 1.
  destruct (d0 !! "statement"%str) as [v|] eqn:Hv.
  2:{ intros [= <-]. split; [by left|]. exists d0. split; [by left|].
      intros text. by rewrite Hv. }
  destruct v as [text|x]; cbn [extract_numbers_of].
  2:{ intros [= <-]. split; [by right|]. exists d0. split; [by left|].
      intros text. by rewrite Hv. }
  destruct (extract_numbers claim_text) as [|c cs]; [done|].
  destruct (extract_numbers text) as [|f fs]; [done|].
  destruct (collect statement_item (take 3 (d0 :: facts'))) as [vs e'] eqn:Hc.
  destruct e' as [e'|]; [|done]. intros [= <-].
  assert (Hsome : (collect statement_item (take 3 (d0 :: facts'))).2 = Some e')
    by (by rewrite Hc).
  apply collect_raise in Hsome as (d & Hin & Hd).
  unfold statement_item in Hd.
  destruct (d !! "statement"%str) eqn:Hds; [done|]. injection Hd as <-.
  split; [by left|]. exists d. split.
  - by apply (subseteq_take 3 (d0 :: facts')).
  - intros text'. by rewrite Hds.
Qed.

Lemma collect_statements_ok facts vs :
  collect statement_item facts = (vs, None) ->
  Forall2 (fun d v => d !! "statement"%str = Some v) facts vs.
Proof.
  intros Hc. apply collect_ok in Hc.
  eapply Forall2_impl; [exact Hc|]. intros d v. unfold statement_item.
  by destruct (d !! "statement"%str); intros [= <-].
Qed.

Lemma judge_ok claim_text facts v ev :
  judge claim_text facts = Ok (v, ev) ->
  (v = "True"%str \/ v = "False"%str \/ v = "Unverifiable"%str) /\
  length ev <= 3 /\ length ev <= length facts /\
  (ev = [] <-> v = "Unverifiable"%str) /\
  (v <> "Unverifiable"%str ->
   Forall2 (fun d x => d !! "statement"%str = Some x) (take 3 facts) ev).
Proof.
  unfold judge. destruct facts as [|d0 facts'].
  { intros [= <- <-]. simpl. repeat split; auto; done. }
  destruct (statement_item d0) as [top_fact|]; [|done].
  destruct (extract_numbers_of top_fact) as [fact_nums|]; [|done].
  assert (Hunv : Ok ("Unverifiable"%str, @nil value) = Ok (v, ev) ->
            (v = "True"%str \/ v = "False"%str \/ v = "Unverifiable"%str) /\
            length ev <= 3 /\ length ev <= length (d0 :: facts') /\
            (ev = [] <-> v = "Unverifiable"%str) /\
            (v <> "Unverifiable"%str ->
             Forall2 (fun d x => d !! "statement"%str = Some x)
               (take 3 (d0 :: facts')) ev)).
  { intros [= <- <-]. simpl. repeat split; auto; try lia; done. }
  destruct (extract_numbers claim_text) as [|c cs]; [exact Hunv|].
  destruct fact_nums as [|f fs]; [exact Hunv|]. clear Hunv.
  destruct (collect statement_item (take 3 (d0 :: facts'))) as [vs e] eqn:Hc.
  destruct e; [done|]. intros [= <- <-].
  apply collect_statements_ok in Hc.
  pose proof (Forall2_length _ _ _ Hc) as Hlen.
  rewrite length_take in Hlen. cbn [length] in Hlen.
  split; [destruct (Float.leb _ _); auto|].
  split; [lia|]. split; [cbn [length]; lia|]. split; [|done].
  split.
  - intros ->. simpl in Hlen. lia.
  - destruct (Float.leb _ _); discriminate.
Qed.

(** The verdict is fixed by the claim and the statement of the first
    fact. *)
Lemma judge_top claim_text d1 rest1 d2 rest2 v1 ev1 v2 ev2 :
  judge claim_text (d1 :: rest1) = Ok (v1, ev1) ->
  judge claim_text (d2 :: rest2) = Ok (v2, ev2) ->
  d1 !! "statement"%str = d2 !! "statement"%str ->
  v1 = v2.
Proof.
  unfold judge, statement_item. intros H1' H2' Heq. rewrite <- Heq in H2'.
  revert H1' H2'.
  destruct (d1 !! "statement"%str) as [top_fact|]; [|done].
  destruct (extract_numbers_of top_fact) as [fact_nums|]; [|done].
  destruct (extract_numbers claim_text) as [|c cs]; [congruence|].
  destruct fact_nums as [|f fs]; [congruence|].
  unfold statement_item.
  destruct (collect _ (take 3 (d1 :: rest1))) as [vs1 [e1|]]; [done|].
  destruct (collect _ (take 3 (d2 :: rest2))) as [vs2 [e2|]]; [done|].
  congruence.
Qed.

Lemma retrieve_raise_inv query top_k st e st' :
  retrieve query top_k st = (Raise e, st') ->
  e = IndexError /\
  ~ Forall (fun pair => valid_index (metadata st) pair.2)
      (zip (index_search (encode query) top_k).1
           (index_search (encode query) top_k).2).
Proof.
  rewrite retrieve_run. cbv zeta. set (pairs := zip _ _).
  destruct (collect (fact_of (metadata st)) pairs).2 as [e'|] eqn:Hc; [|done].
  intros [= <- _].
  apply collect_raise in Hc as (pair & Hin & Hp). split; [by eapply fact_of_raise|].
  intros Hall. rewrite Forall_forall in Hall.
  destruct (fact_of_valid _ _ (Hall pair Hin)) as (row & _ & Hok). congruence.
Qed.

Lemma classify_claim_raise_cases (claim_text : str) (st st' : store) (e : exn) :
  classify_claim claim_text st = (Raise e, st') ->
  (e = IndexError /\
   ~ Forall (fun pair => valid_index (metadata st) pair.2)
       (zip (index_search (encode claim_text) TOP_K).1
            (index_search (encode claim_text) TOP_K).2)) \/
  ((e = KeyError "statement" \/ e = AttributeError) /\
   ~ rows_have_text (metadata st)).
Proof.
  intros Hrun.
  destruct (classify_claim_judge claim_text st) as (res & Hres & Hcase).
  cbv zeta in Hres, Hcase. rewrite Hrun in Hres. injection Hres as <- _.
  set (pairs := zip _ _) in *.
  destruct (collect (fact_of (metadata st)) pairs) as [facts e0] eqn:Hc.
  cbn [fst snd] in Hcase. destruct e0 as [e0|].
  - injection Hcase as Heq. subst e0. left.
    assert (Hsome : (collect (fact_of (metadata st)) pairs).2 = Some e)
      by (by rewrite Hc).
    apply collect_raise in Hsome as (pair & Hin & Hp).
    split; [by eapply fact_of_raise|].
    intros Hall. rewrite Forall_forall in Hall.
    destruct (fact_of_valid _ _ (Hall pair Hin)) as (row & _ & Hok). congruence.
  - right. destruct (judge claim_text facts) as [[v ev]|e1] eqn:Hj.
    { destruct Hcase as (record & Hr & _). done. }
    injection Hcase as Heq. subst e1.
    apply judge_raise in Hj as [He (d & Hin & Hd)]. split; [exact He|].
    apply collect_ok in Hc.
    apply list_elem_of_lookup in Hin as [i Hi].
    destruct (Forall2_lookup_r _ _ _ _ _ Hc Hi) as (pair & _ & Hf).
    apply fact_of_statement in Hf as (row & Hrow & Heq).
    unfold rows_have_text. rewrite Forall_forall. intros Hall.
    destruct (Hall row Hrow) as [text Htext].
    apply (Hd text). by rewrite Heq.
Qed.


(** X6. [classify_claim] raises [IndexError] only when the index gave a
    position outside the metadata table, and [KeyError] or [AttributeError]
    only when some row of the table has no text under ["statement"]; it
    raises nothing else: the division never fails, since the divisor is at
    least 1e-6. *)
Theorem classify_claim_raises (claim_text : str) (st st' : store) (e : exn) :
  classify_claim claim_text st = (Raise e, st') ->
  (e = IndexError /\
   ~ Forall (fun pair => valid_index (metadata st) pair.2)
       (zip (index_search (encode claim_text) TOP_K).1
            (index_search (encode claim_text) TOP_K).2)) \/
  ((e = KeyError "statement" \/ e = AttributeError) /\
   ~ rows_have_text (metadata st)).
Proof. apply classify_claim_raise_cases. Qed.

Lemma map_statement_of st refs (ds : list dict) (ev : list value) :
  Forall2 (fun r d => statement_of st r = d !! "statement"%str) refs ds ->
  Forall2 (fun d x => d !! "statement"%str = Some x) ds ev ->
  map Some ev = map (statement_of st) refs.
Proof.
  intros Hr. revert ev. induction Hr as [|r d refs ds Hrd _ IH]; intros ev Hs.
  - by inversion Hs.
  - inversion Hs as [|d' x ds' ev' Hx Hrest]; subst. simpl.
    f_equal; [congruence|auto].
Qed.

(** X7. Every record returned by [classify_claim] carries the claim text,
    one of the three verdicts, the references of all retrieved facts, and at
    most three evidence items, never more than there are retrieved facts;
    the evidence is empty exactly when the verdict is Unverifiable, and is
    otherwise the list of the statements of the first three retrieved
    facts. *)
Theorem classify_claim_record (claim_text : str) (st st' : store)
    (record : VerdictRecord) :
  classify_claim claim_text st = (Ok record, st') ->
  claim record = claim_text /\
  (verdict record = "True"%str \/ verdict record = "False"%str \/
   verdict record = "Unverifiable"%str) /\
  length (retrieved_facts record)
  = min (length (index_search (encode claim_text) TOP_K).1)
        (length (index_search (encode claim_text) TOP_K).2) /\
  length (evidence record) <= 3 /\
  length (evidence record) <= length (retrieved_facts record) /\
  (evidence record = [] <-> verdict record = "Unverifiable"%str) /\
  (verdict record <> "Unverifiable"%str ->
   map Some (evidence record)
   = map (statement_of st') (take 3 (retrieved_facts record))).
Proof.
  intros Hrun.
  destruct (classify_claim_judge claim_text st) as (res & Hres & Hcase).
  cbv zeta in Hres, Hcase. rewrite Hrun in Hres. injection Hres as <- ->.
  set (pairs := zip _ _) in *.
  destruct (collect (fact_of (metadata st)) pairs) as [facts e0] eqn:Hc.
  cbn [fst snd] in *. destruct e0 as [e0|]; [done|].
  destruct (judge claim_text facts) as [[v ev]|e1] eqn:Hj; [|done].
  destruct Hcase as (record' & [= <-] & Hclaim & Hfacts & Hv & Hev).
  apply judge_ok in Hj as (H3 & Hle3 & Hlen & Hiff & Hstat).
  apply collect_ok in Hc. pose proof (Forall2_length _ _ _ Hc) as Hpl.
  rewrite Hfacts, Hv, Hev, fresh_length.
  split; [done|]. split; [done|].
  split; [by rewrite <- Hpl; unfold pairs; rewrite length_zip|].
  split; [done|]. split; [done|]. split; [done|].
  intros Hne. specialize (Hstat Hne).
  assert (Hread : Forall2 (fun r d => statement_of (grow st facts) r
                                      = d !! "statement"%str)
                    (take 3 (fresh st (length facts))) (take 3 facts)).
  { apply Forall2_take. eapply Forall2_impl; [apply fresh_read|].
    intros r d Hr. unfold statement_of. by rewrite Hr. }
  by eapply map_statement_of.
Qed.

Lemma sub_diag_finite m e :
  Float.sub (S754_finite false m e) (S754_finite false m e) = S754_zero false.
Proof.
  unfold Float.sub, SFsub. rewrite Z.min_id.
  unfold shl_align. rewrite Z.sub_diag. cbn [fst cond_Zopp].
  reflexivity.
Qed.

(** The relative difference of a number with itself is zero, unless the
    number is infinite. *)
Lemma rel_diff_same x :
  Float.nonneg x = true ->
  Float.leb (rel_diff_of x x) float_0_2 = negb (is_infinity x).
Proof.
  destruct x as [[]|[]| |[] m e]; try discriminate; intros _.
  - vm_compute. reflexivity.
  - vm_compute. reflexivity.
  - unfold rel_diff_of. rewrite sub_diag_finite.
    cbn [Float.abs SFabs]. unfold py_max.
    assert (E2 : float_0_2 = S754_finite false 7205759403792794 (-55))
      by (vm_compute; reflexivity).
    assert (E6 : float_1e_6 = S754_finite false 4722366482869645 (-72))
      by (vm_compute; reflexivity).
    rewrite E2, E6.
    destruct (Float.ltb _ _); reflexivity.
Qed.

Lemma classify_numeric_run (claim_text : str) (st st' : store)
    (top : ref) (rest : list ref) (top_fact : str)
    (c f : float) (cs fs : list float) :
  retrieve claim_text TOP_K st = (Ok (top :: rest), st') ->
  statement_of st' top = Some (VStr top_fact) ->
  Forall (fun r => is_Some (statement_of st' r)) (take 3 (top :: rest)) ->
  extract_numbers claim_text = c :: cs ->
  extract_numbers top_fact = f :: fs ->
  exists record,
    classify_claim claim_text st = (Ok record, st') /\
    verdict record = (if Float.leb (rel_diff_of c f) float_0_2
                      then "True" else "False")%str.
Proof.
  intros Hret Htop Hall Hc Hf.
  destruct (statements_ok _ _ Hall) as (vs & Hvs & Hmap).
  unfold classify_claim, bind at 1. rewrite Hret.
  unfold bind at 1. rewrite getitem_statement.
  unfold statement_of in Htop.
  destruct (read st' top) as [d|]; [|done]. rewrite Htop.
  unfold bind at 1, lift, extract_numbers_of. rewrite Hc, Hf.
  unfold bind at 1. rewrite truediv_rel_diff.
  destruct (Float.leb (rel_diff_of c f) float_0_2);
    unfold bind; rewrite Hvs; unfold ret; eexists; (split; [reflexivity|]);
    reflexivity.
Qed.

(** X8. When the first number of the claim and the first number of the top
    statement are the same float, the verdict is ["True"], except when that
    float is infinite (a literal of more than 308 digits): infinity minus
    infinity is not a number, the comparison fails and the verdict is
    ["False"]. *)
Theorem classify_claim_same_number (claim_text : str) (st st' : store)
    (top : ref) (rest : list ref) (top_fact : str)
    (x : float) (cs fs : list float) :
  retrieve claim_text TOP_K st = (Ok (top :: rest), st') ->
  statement_of st' top = Some (VStr top_fact) ->
  Forall (fun r => is_Some (statement_of st' r)) (take 3 (top :: rest)) ->
  extract_numbers claim_text = x :: cs ->
  extract_numbers top_fact = x :: fs ->
  exists record,
    classify_claim claim_text st = (Ok record, st') /\
    verdict record = (if is_infinity x then "False" else "True")%str.
Proof.
  intros Hret Htop Hall Hc Hf.
  destruct (classify_numeric_run _ _ _ _ _ _ _ _ _ _ Hret Htop Hall Hc Hf)
    as (record & Hrun & Hv).
  exists record. split; [done|]. rewrite Hv, rel_diff_same.
  - by destruct (is_infinity x).
  - pose proof (TextFacts.extract_numbers_nonneg claim_text) as Hn.
    rewrite Hc in Hn. by apply Forall_cons in Hn as [Hn _].
Qed.

(** X9. A claim without any decimal digit, of whatever script, is never
    judged: whenever
    [classify_claim] returns for it, the verdict is Unverifiable and the
    evidence is empty, whatever was retrieved. *)
Theorem classify_claim_no_digit (claim_text : str) (st st' : store)
    (record : VerdictRecord) :
  has_digit claim_text = false ->
  classify_claim claim_text st = (Ok record, st') ->
  verdict record = "Unverifiable"%str /\ evidence record = [].
Proof.
  intros Hd Hrun. apply TextMore.extract_numbers_nil in Hd.
  destruct (classify_claim_judge claim_text st) as (res & Hres & Hcase).
  cbv zeta in Hres, Hcase. rewrite Hrun in Hres. injection Hres as <- _.
  destruct (collect _ _) as [facts [e0|]]; cbn [fst snd] in Hcase; [done|].
  unfold judge in Hcase. rewrite Hd in Hcase.
  destruct facts as [|d0 facts'].
  { destruct Hcase as (r' & [= <-] & _ & _ & <- & <-). done. }
  destruct (statement_item d0) as [v|]; [|done].
  destruct (extract_numbers_of v) as [nums|]; [|done].
  destruct Hcase as (r' & [= <-] & _ & _ & <- & <-). done.
Qed.
End ClassifyMore.

(** ** Signs *)

Section UnsignedFacts.
Context `{Retrieval} `{FloatRepr}.
Local Open Scope str_scope.



End UnsignedFacts.

(** The verdict does not depend on the facts below the first. *)

(** X10. Two classifications of the same claim, even with different indexes
    or metadata tables, give the same verdict whenever their top-ranked
    facts have the same statement (or both retrievals are empty): the facts
    ranked second and lower never change the verdict. *)
Theorem verdict_from_top_fact (R1 R2 : Retrieval) (F : FloatRepr)
    (claim_text : str) (st1 st1' st2 st2' : store)
    (record1 record2 : VerdictRecord) :
  @classify_claim R1 F claim_text st1 = (Ok record1, st1') ->
  @classify_claim R2 F claim_text st2 = (Ok record2, st2') ->
  statement_of st1' <$> head (retrieved_facts record1)
  = statement_of st2' <$> head (retrieved_facts record2) ->
  verdict record1 = verdict record2.
Proof.
  intros Hrun1 Hrun2.
  destruct (@classify_claim_judge R1 F claim_text st1) as (res1 & Hres1 & Hcase1).
  destruct (@classify_claim_judge R2 F claim_text st2) as (res2 & Hres2 & Hcase2).
  cbv zeta in Hres1, Hcase1, Hres2, Hcase2.
  rewrite Hrun1 in Hres1. injection Hres1 as <- ->.
  rewrite Hrun2 in Hres2. injection Hres2 as <- ->.
  destruct (collect _ _) as [facts1 [e1|]]; cbn [fst snd] in *; [done|].
  destruct (collect _ _) as [facts2 [e2|]]; cbn [fst snd] in *; [done|].
  destruct (judge claim_text facts1) as [[v1 ev1]|] eqn:Hj1; [|done].
  destruct (judge claim_text facts2) as [[v2 ev2]|] eqn:Hj2; [|done].
  destruct Hcase1 as (r1 & [= <-] & _ & Hf1 & <- & _).
  destruct Hcase2 as (r2 & [= <-] & _ & Hf2 & <- & _).
  rewrite Hf1, Hf2.
  assert (Hhead : forall st (facts : list dict),
            statement_of (grow st facts) <$> head (fresh st (length facts))
            = (fun d : dict => d !! "statement"%str) <$> head facts).
  { intros st [|d0 facts']; [done|]. unfold fresh. simpl.
    unfold statement_of. simpl.
    by rewrite lookup_app_r, Nat.sub_diag by lia. }
  rewrite !Hhead. clear Hhead Hf1 Hf2.
  destruct facts1 as [|d1 rest1], facts2 as [|d2 rest2]; simpl; try done.
  - injection Hj1 as <- _. injection Hj2 as <- _. done.
  - intros [= Heq]. by eapply judge_top.
Qed.

(** ** The pipeline: what happens to the store *)

Section PipelineMore.
Context `{NLP} `{Retrieval} `{FloatRepr}.
Implicit Types (st : store) (c : Claim).

Lemma classify_claim_grows claim_text st :
  exists facts,
    (classify_claim claim_text st).2 = grow st facts /\
    forall record st', classify_claim claim_text st = (Ok record, st') ->
      retrieved_facts record = fresh st (length facts).
Proof.
  destruct (classify_claim_judge claim_text st) as (res & Hres & Hcase).
  cbv zeta in Hres, Hcase. eexists. split; [by rewrite Hres|].
  intros record st' Hrun. rewrite Hrun in Hres. injection Hres as <- _.
  destruct (collect _ _) as [facts [e0|]]; cbn [fst snd] in *; [done|].
  destruct (judge claim_text facts) as [[v ev]|]; [|done].
  by destruct Hcase as (r' & [= <-] & _ & Hf & _).
Qed.

Lemma fresh_app st n m (ds : list dict) :
  length ds = n -> (fresh st n ++ fresh (grow st ds) m = fresh st (n + m))%list.
Proof.
  intros <-. unfold fresh. simpl. rewrite length_app, seq_app, map_app. done.
Qed.

(** The records of a run share no fact: together they name the dicts
    created by the run, each once, in the order of their creation. *)
Lemma mapM_classify_grows (claims : list Claim) : forall st,
  exists created,
    (mapM (fun c => classify_claim (sentence c)) claims st).2 = grow st created /\
    forall records st',
      mapM (fun c => classify_claim (sentence c)) claims st = (Ok records, st') ->
      concat (map retrieved_facts records) = fresh st (length created).
Proof.
  induction claims as [|c claims IH]; intros st.
  - exists []. split; [by rewrite grow_nil|]. by intros records st' [= <- _].
  - destruct (classify_claim_grows (sentence c) st) as (facts & Hst & Hrec).
    cbn [mapM]. unfold bind at 1 3.
    destruct (classify_claim (sentence c) st) as [[record|e] st1] eqn:Hc;
      simpl in Hst; subst st1.
    2:{ exists facts. split; [done|]. done. }
    destruct (IH (grow st facts)) as (created & Hst2 & Hrec2).
    unfold bind.
    destruct (mapM _ claims (grow st facts)) as [[records|e] st2] eqn:Hm;
      simpl in Hst2; subst st2.
    2:{ exists (facts ++ created)%list. split; [by rewrite grow_grow|]. done. }
    exists (facts ++ created)%list. split; [by rewrite grow_grow|].
    unfold ret. intros records' st' [= <- _]. simpl.
    rewrite (Hrec record _ eq_refl), (Hrec2 records _ eq_refl).
    rewrite length_app. by apply fresh_app.
Qed.

(** X11. [fact_check_text] only adds dict objects to the store: the
    metadata table is the same after the call and every object that existed
    before it keeps its items, whether the call returns or raises. *)
Theorem fact_check_text_appends (text : str) (st : store) :
  metadata (fact_check_text text st).2 = metadata st /\
  (forall r d, read st r = Some d ->
     read (fact_check_text text st).2 r = Some d).
Proof.
  rewrite fact_check_text_mapM.
  destruct (mapM_classify_grows (extract_claims text) st) as (created & -> & _).
  split; [done|]. intros r d. apply read_grow_old.
Qed.

(** X12. The records returned by [fact_check_text] share no retrieved fact:
    all references in their [retrieved_facts] lists are distinct, each names
    a dict created during the call, and every dict created during the call
    is named by exactly one record. *)
Theorem fact_check_text_facts_distinct (text : str) (st st' : store)
    (records : list VerdictRecord) :
  fact_check_text text st = (Ok records, st') ->
  NoDup (concat (map retrieved_facts records)) /\
  length (objects st')
  = length (objects st) + length (concat (map retrieved_facts records)) /\
  (forall r, r ∈ concat (map retrieved_facts records) <->
     exists i, r = Obj i /\ length (objects st) <= i < length (objects st')).
Proof.
  rewrite fact_check_text_mapM. intros Hrun.
  destruct (mapM_classify_grows (extract_claims text) st) as (created & Hst & Hrec).
  rewrite (Hrec records st' Hrun). rewrite Hrun in Hst. simpl in Hst. subst st'.
  split; [apply fresh_NoDup|]. rewrite fresh_length.
  split; [simpl; by rewrite length_app|].
  intros r. unfold fresh. rewrite (list_elem_of_fmap Obj). simpl.
  rewrite length_app. split.
  - intros (i & -> & Hi). apply elem_of_seq in Hi. eauto.
  - intros (i & -> & Hi). exists i. split; [done|]. apply elem_of_seq. lia.
Qed.
End PipelineMore.

(** ** Extracted claims *)

Section ExtractMore.
Context `{NLP}.
Local Open Scope str_scope.

Lemma lstrip_start text : starts_with_space (lstrip text) = false.
Proof.
  induction text as [|c rest IH]; [done|]. simpl.
  destruct (is_space c) eqn:Hc; [exact IH|]. simpl. exact Hc.
Qed.

Lemma rstrip_end text : ends_with_space (rstrip text) = false.
Proof.
  induction text as [|c rest IH]; [done|]. simpl.
  destruct (rstrip rest) as [|k kept].
  - destruct (is_space c) eqn:Hc; [done|]. simpl. exact Hc.
  - exact IH.
Qed.

Lemma rstrip_start text :
  starts_with_space text = false -> starts_with_space (rstrip text) = false.
Proof.
  destruct text as [|c rest]; [done|]. simpl. intros Hc.
  destruct (rstrip rest); [by rewrite Hc|done].
Qed.

Lemma lstrip_fixed text : starts_with_space text = false -> lstrip text = text.
Proof. destruct text as [|c rest]; [done|]. simpl. by intros ->. Qed.

Lemma rstrip_cons c rest :
  rstrip (Char c rest) =
  match rstrip rest with
  | "" => if is_space c then "" else Char c ""
  | kept => Char c kept
  end.
Proof. reflexivity. Qed.

Lemma rstrip_fixed text : ends_with_space text = false -> rstrip text = text.
Proof.
  induction text as [|c rest IH]; [done|].
  destruct rest as [|k rest'].
  - simpl. by intros ->.
  - intros He. change (ends_with_space (Char k rest') = false) in He.
    rewrite rstrip_cons, (IH He). done.
Qed.

Lemma strip_clean text :
  starts_with_space (strip text) = false /\
  ends_with_space (strip text) = false /\
  strip (strip text) = strip text.
Proof.
  unfold strip.
  pose proof (rstrip_start _ (lstrip_start text)) as Hs.
  pose proof (rstrip_end (lstrip text)) as He.
  split; [done|]. split; [done|].
  by rewrite (lstrip_fixed _ Hs), (rstrip_fixed _ He).
Qed.

(** X13. Every claim returned by [extract_claims] has at least one entity
    and a sentence without white space at either end, the white space
    being that of Unicode, which [str.strip] removes (stripping it again
    changes nothing), and there are at most as many claims as the text has
    sentences. *)
Theorem extract_claims_wellformed (text : str) (c : Claim) :
  c ∈ extract_claims text ->
  entities c <> [] /\
  starts_with_space (sentence c) = false /\
  ends_with_space (sentence c) = false /\
  strip (sentence c) = sentence c /\
  length (extract_claims text) <= length (sents (nlp text)).
Proof.
  unfold extract_claims. rewrite extract_claims_loop_filter, app_nil_l.
  intros Hc. apply (list_elem_of_fmap claim_of) in Hc as (sent & -> & Hin).
  apply list_elem_of_filter in Hin as [[Hents _] _].
  destruct (strip_clean sent) as (Hs & He & Hi).
  split; [done|]. split; [done|]. split; [done|]. split; [done|].
  rewrite length_map. apply length_filter.
Qed.
End ExtractMore.

(** ** The sample corpus, again *)

Module MoreSampleFacts.
Import Sample MoreSample.
Local Open Scope str_scope.

Lemma classify_claim_raises_witness :
  (IndexError = IndexError /\
   ~ Forall (fun pair => valid_index (metadata stale) pair.2)
       (zip (index_search (encode claim_rice) TOP_K).1
            (index_search (encode claim_rice) TOP_K).2)) \/
  ((IndexError = KeyError "statement" \/ IndexError = AttributeError) /\
   ~ rows_have_text (metadata stale)).
Proof.
  apply (classify_claim_raises claim_rice stale
           (classify_claim claim_rice stale).2 IndexError).
  exact eq_refl.
Defined.

Lemma classify_claim_record_witness :
  claim record_nba = claim_nba /\
  (verdict record_nba = "True" \/ verdict record_nba = "False" \/
   verdict record_nba = "Unverifiable") /\
  length (retrieved_facts record_nba) = 5 /\
  length (evidence record_nba) <= 3.
Proof.
  destruct (classify_claim_record claim_nba loaded
              (classify_claim claim_nba loaded).2 record_nba)
    as (Hc & Hv & Hn & He & _).
  - exact eq_refl.
  - split; [exact Hc|]. split; [exact Hv|]. split; [exact Hn|exact He].
Defined.

Lemma classify_claim_same_number_witness :
  exists record,
    classify_claim claim_minus loaded
    = (Ok record, (retrieve claim_minus TOP_K loaded).2) /\
    verdict record
    = (if is_infinity (Float.of_decimal 40 0) then "False" else "True").
Proof.
  apply (classify_claim_same_number claim_minus loaded
           (retrieve claim_minus TOP_K loaded).2
           (Obj 0) [Obj 1; Obj 2; Obj 3; Obj 4]
           "The scheme now covers 40 districts."
           (Float.of_decimal 40 0) [] []).
  - exact eq_refl.
  - exact eq_refl.
  - repeat (constructor; [eexists; vm_compute; reflexivity|]). constructor.
  - exact eq_refl.
  - exact eq_refl.
Defined.

Lemma classify_claim_no_digit_witness :
  verdict record_power = "Unverifiable" /\ evidence record_power = [].
Proof.
  apply (classify_claim_no_digit claim_power loaded
           (classify_claim claim_power loaded).2 record_power).
  - exact eq_refl.
  - exact eq_refl.
Defined.

Lemma verdict_from_top_fact_witness :
  verdict record_rice = verdict record_rice_padded.
Proof.
  apply (verdict_from_top_fact retrieval Padded.index float_repr claim_rice
           loaded (classify_claim claim_rice loaded).2
           Padded.loaded
           (@classify_claim Padded.index float_repr claim_rice Padded.loaded).2).
  - exact eq_refl.
  - exact eq_refl.
  - exact eq_refl.
Defined.

Lemma fact_check_text_facts_distinct_witness :
  NoDup (concat (map retrieved_facts records_two)) /\
  length (objects (fact_check_text text_two loaded).2)
  = length (objects loaded) + length (concat (map retrieved_facts records_two)).
Proof.
  destruct (fact_check_text_facts_distinct text_two loaded
              (fact_check_text text_two loaded).2 records_two)
    as (Hdup & Hlen & _).
  - exact eq_refl.
  - split; [exact Hdup|exact Hlen].
Defined.

Lemma extract_claims_wellformed_witness :
  entities (claim_of (" " ++ claim_rice)) <> [] /\
  starts_with_space (sentence (claim_of (" " ++ claim_rice))) = false /\
  ends_with_space (sentence (claim_of (" " ++ claim_rice))) = false /\
  strip (sentence (claim_of (" " ++ claim_rice)))
  = sentence (claim_of (" " ++ claim_rice)) /\
  length (extract_claims text_two) <= length (sents (nlp text_two)).
Proof.
  apply (extract_claims_wellformed text_two (claim_of (" " ++ claim_rice))).
  assert (E : extract_claims text_two
              = [claim_of claim_nba; claim_of (" " ++ claim_rice)])
    by (vm_compute; reflexivity).
  rewrite E. apply list_elem_of_further, list_elem_of_here.
Defined.
End MoreSampleFacts.

(** ** Building the metadata table *)

Section BuildFacts.
Import BuildIndex.
Context `{NLP} `{Retrieval} `{FloatRepr}.
Implicit Types (cols : list str) (row : list cell) (key : str).
Local Open Scope str_scope.

Lemma column_position_elem key cols :
  key ∈ cols -> exists i, column_position key cols = Some i /\ i < length cols.
Proof.
  induction cols as [|c cols IH]; [by intros ?%elem_of_nil|].
  intros Hin. simpl. destruct (StrFacts.eqb_spec c key) as [->|Hne].
  - exists 0. split; [done|]. simpl. lia.
  - apply elem_of_cons in Hin as [->|Hin]; [done|].
    destruct (IH Hin) as (i & -> & Hi). exists (S i). split; [done|]. simpl. lia.
Qed.

Lemma column_position_None key cols :
  key ∉ cols -> column_position key cols = None.
Proof.
  induction cols as [|c cols IH]; [done|].
  intros Hnin. simpl. destruct (StrFacts.eqb_spec c key) as [->|Hne].
  - exfalso. apply Hnin. by left.
  - rewrite IH; [done|]. intros Hin. apply Hnin. by right.
Qed.

Lemma row_get_ok d cols row key :
  length row = length cols -> key ∈ cols ->
  exists c, row_get cols (map (cast d) row) key = Done (cast d c) /\
            cell_at cols row key = Some c.
Proof.
  intros Hlen Hin. unfold row_get, cell_at.
  destruct (column_position_elem key cols Hin) as (i & -> & Hi).
  destruct (lookup_lt_is_Some_2 row i) as [c Hc]; [lia|].
  rewrite list_lookup_fmap, Hc. simpl. eauto.
Qed.

Lemma row_get_missing cols row key :
  key ∉ cols -> row_get cols row key = Failed (ColumnError key).
Proof. intros Hnin. unfold row_get. by rewrite column_position_None. Qed.

Lemma required_elem cols :
  forallb (fun c => bool_decide (c ∈ cols)) required_cols = true <->
  "id" ∈ cols /\ "source" ∈ cols /\ "date" ∈ cols /\ "statement" ∈ cols.
Proof.
  unfold required_cols. simpl.
  rewrite !andb_true_iff, !bool_decide_eq_true. tauto.
Qed.

Lemma metadata_row_ok d cols row :
  forallb (fun c => bool_decide (c ∈ cols)) required_cols = true ->
  length row = length cols ->
  exists meta, metadata_row cols (map (cast d) row) = Done meta /\
               row_dict_ok d cols row meta.
Proof.
  intros Hreq Hlen. apply required_elem in Hreq as (Hi & Hs & Hd & Ht).
  unfold metadata_row.
  destruct (row_get_ok d cols row "id" Hlen Hi) as (ci & -> & Hci).
  destruct (row_get_ok d cols row "source" Hlen Hs) as (cs & -> & Hcs).
  destruct (row_get_ok d cols row "date" Hlen Hd) as (cd & -> & Hcd).
  destruct (row_get_ok d cols row "statement" Hlen Ht) as (ct & -> & Hct).
  eexists. split; [reflexivity|]. split.
  - rewrite !dom_insert_L, dom_empty_L. unfold required_cols. simpl.
    set_solver.
  - intros key Hkey. unfold required_cols in Hkey.
    repeat (apply elem_of_cons in Hkey as [->|Hkey]);
      [exists ci|exists cs|exists cd|exists ct|by apply elem_of_nil in Hkey];
      (split; [done|]); by simplify_map_eq.
Qed.

Lemma save_metadata_loop_ok d cols todo : forall acc,
  forallb (fun c => bool_decide (c ∈ cols)) required_cols = true ->
  Forall (fun row => length row = length cols) todo ->
  exists ds, save_metadata_loop cols (map (map (cast d)) todo) acc
             = Done (acc ++ ds)%list /\
             Forall2 (row_dict_ok d cols) todo ds.
Proof.
  induction todo as [|row rest IH]; intros acc Hreq Hall.
  - exists []. split; [by rewrite app_nil_r|constructor].
  - apply Forall_cons in Hall as [Hrow Hall].
    destruct (metadata_row_ok d cols row Hreq Hrow) as (meta & Hd & Hok).
    destruct (IH (acc ++ [meta])%list Hreq Hall) as (ds & Hds & Hall2).
    exists (meta :: ds). simpl. rewrite Hd, Hds, <- app_assoc.
    split; [done|]. by constructor.
Qed.

Lemma load_facts_done facts_csv df :
  load_facts facts_csv = Done df ->
  facts_csv = Some df /\
  forallb (fun c => bool_decide (c ∈ columns df)) required_cols = true.
Proof.
  unfold load_facts. destruct facts_csv as [df'|]; [|done].
  destruct (forallb _ _) eqn:Hreq; [|done]. by intros [= <-].
Qed.

Lemma row_dict_text d cols row meta :
  row_dict_ok d cols row meta ->
  exists text, meta !! "statement" = Some (VStr text).
Proof.
  intros [_ Hkeys]. destruct (Hkeys "statement") as (c & _ & Hc).
  - unfold required_cols. set_solver.
  - eauto.
Qed.

Lemma built_rows facts_csv df :
  load_facts facts_csv = Done df -> well_shaped df ->
  exists table,
    save_metadata df = Done table /\
    Forall2 (row_dict_ok (common_dtype (dtypes df)) (columns df)) (rows df) table /\
    rows_have_text table.
Proof.
  intros Hload [_ Hshape]. apply load_facts_done in Hload as [_ Hreq].
  destruct (save_metadata_loop_ok (common_dtype (dtypes df)) (columns df)
              (rows df) [] Hreq Hshape) as (table & Hsave & Hall).
  exists table. split; [done|]. split; [done|].
  unfold rows_have_text. clear -Hall.
  induction Hall as [|row meta rows ds Hd _ IH]; constructor; [|done].
  by eapply row_dict_text.
Qed.





(** X15. The check of [load_facts] is the one [save_metadata] needs: for a
    table with at least one row, [load_facts] accepts it exactly when
    [save_metadata] returns for it; on a table that lacks a required column
    [load_facts] raises [ValueError], and [save_metadata], called without
    the check, raises the [KeyError] of a missing column at the first
    row. *)
Theorem load_facts_guards_save (df : DataFrame) :
  well_shaped df -> rows df <> [] ->
  (load_facts (Some df) = Done df <->
   (exists table, save_metadata df = Done table)) /\
  (load_facts (Some df) <> Done df ->
   load_facts (Some df) = Failed ValueError /\
   exists key, key ∈ required_cols /\ (key ∉ columns df) /\
               save_metadata df = Failed (ColumnError key)).
Proof.
  intros Hshape Hrows.
  assert (Hmiss : forallb (fun c => bool_decide (c ∈ columns df)) required_cols
                  = false ->
                  exists key, key ∈ required_cols /\ (key ∉ columns df) /\
                    save_metadata df = Failed (ColumnError key)).
  { intros Hreq. destruct Hshape as [_ Hshape].
    destruct (rows df) as [|row rest] eqn:Hr; [done|].
    apply Forall_cons in Hshape as [Hlen _].
    unfold save_metadata, iterrows. rewrite Hr.
    set (d := common_dtype _). cbn [map save_metadata_loop].
    unfold metadata_row.
    destruct (decide ("id" ∈ columns df)) as [Hi|Hi].
    2:{ exists "id". rewrite (row_get_missing _ _ _ Hi).
        split; [unfold required_cols; set_solver|done]. }
    destruct (row_get_ok d _ row "id" Hlen Hi) as (ci & -> & _).
    destruct (decide ("source" ∈ columns df)) as [Hs|Hs].
    2:{ exists "source". rewrite (row_get_missing _ _ _ Hs).
        split; [unfold required_cols; set_solver|done]. }
    destruct (row_get_ok d _ row "source" Hlen Hs) as (cs & -> & _).
    destruct (decide ("date" ∈ columns df)) as [Hd|Hd].
    2:{ exists "date". rewrite (row_get_missing _ _ _ Hd).
        split; [unfold required_cols; set_solver|done]. }
    destruct (row_get_ok d _ row "date" Hlen Hd) as (cd & -> & _).
    destruct (decide ("statement" ∈ columns df)) as [Ht|Ht].
    2:{ exists "statement". rewrite (row_get_missing _ _ _ Ht).
        split; [unfold required_cols; set_solver|done]. }
    exfalso. assert (Htrue : forallb (fun c => bool_decide (c ∈ columns df))
                               required_cols = true)
      by (by apply required_elem).
    congruence. }
  unfold load_facts.
  destruct (forallb _ required_cols) eqn:Hreq.
  - split; [|done]. split; [|done]. intros _.
    destruct (built_rows (Some df) df) as (table & Hsave & _); [|done|by eauto].
    unfold load_facts. by rewrite Hreq.
  - destruct (Hmiss eq_refl) as (key & Hk & Hnk & Hfail).
    split.
    + split; [done|]. intros [table Ht]. congruence.
    + intros _. split; [done|]. eauto.
Qed.

Lemma classify_only_index_error table st claim_text e st' :
  rows_have_text table -> metadata st = table ->
  classify_claim claim_text st = (Raise e, st') -> e = IndexError.
Proof.
  intros Hrows <- Hrun.
  destruct (classify_claim_raise_cases _ _ _ _ Hrun) as [[-> _]|[_ Hno]]; done.
Qed.

Lemma fact_check_text_total text st :
  index_aligned (metadata st) -> rows_have_text (metadata st) ->
  exists records st', fact_check_text text st = (Ok records, st').
Proof.
  intros Hal Hrows.
  destruct (mapM_total (fun c => classify_claim (sentence c))
              (fun s => metadata s = metadata st) (extract_claims text))
    with (st := st) as (records & st' & Hm); [|done|].
  - intros c s Hs.
    destruct (classify_claim_total (sentence c) s) as (record & s' & Hc);
      [by rewrite Hs..|].
    exists record, s'. split; [done|].
    pose proof (classify_claim_metadata (sentence c) s) as Hmeta.
    rewrite Hc in Hmeta. simpl in Hmeta. congruence.
  - rewrite <- fact_check_text_mapM in Hm. eauto.
Qed.

(** X16. A fact checker started on the metadata that [save_metadata] built
    from a table accepted by [load_facts] never raises [KeyError] or
    [AttributeError]: the only exception of [classify_claim] is the
    [IndexError] of a position outside the table, and when the index only
    gives positions of the table [fact_check_text] returns for every
    text. *)
Theorem built_metadata_safe (facts_csv : option DataFrame) (df : DataFrame)
    (table : list dict) (st : store) :
  load_facts facts_csv = Done df ->
  well_shaped df ->
  save_metadata df = Done table ->
  metadata st = table ->
  (forall claim_text e st',
     classify_claim claim_text st = (Raise e, st') -> e = IndexError) /\
  (index_aligned table ->
   forall text, exists records st', fact_check_text text st = (Ok records, st')).
Proof.
  intros Hload Hshape Hsave Hst.
  destruct (built_rows facts_csv df Hload Hshape) as (table' & Hsave' & _ & Htext).
  rewrite Hsave in Hsave'. injection Hsave' as <-.
  split.
  - intros claim_text e st'. by eapply classify_only_index_error.
  - intros Hal text. apply fact_check_text_total; by rewrite Hst.
Qed.
End BuildFacts.

Module BuildSampleFacts.
Import BuildIndex Sample.
Local Open Scope str_scope.

Lemma scraped_shape : well_shaped scraped.
Proof.
  split.
  - unfold scraped. simpl. apply (bool_decide_unpack _). exact I.
  - repeat constructor.
Qed.



Lemma load_facts_guards_save_witness :
  load_facts (Some scraped) = Done scraped <->
  (exists table, save_metadata scraped = Done table).
Proof.
  exact (proj1 (load_facts_guards_save scraped scraped_shape ltac:(discriminate))).
Defined.

Lemma built_metadata_safe_witness :
  exists records st',
    @fact_check_text spacy Padded.index float_repr text_two Built.loaded
    = (Ok records, st').
Proof.
  refine (proj2 (@built_metadata_safe spacy Padded.index float_repr
                   (Some scraped) scraped Built.table Built.loaded
                   eq_refl scraped_shape eq_refl eq_refl) _ text_two).
  intros query top_k. cbn [index_search Padded.index snd].
  apply Forall_take. unfold valid_index, Padded.answer.
  change (length Built.table) with 2. cbn [map snd].
  repeat constructor; lia.
Defined.
End BuildSampleFacts.

(** ** The scraper *)

Section ScraperFacts.
Import Scraper.
Context `{Web}.
Local Open Scope str_scope.

Lemma omap_cons_eq {A B} (f : A -> option B) (x : A) (l : list A) :
  omap f (x :: l) = match f x with
                    | Some y => y :: omap f l
                    | None => omap f l
                    end.
Proof. reflexivity. Qed.

Lemma fetch_rss_loop_take (limit : Z) (elements : list ItemElement) :
  forall items,
    length items < Z.to_nat (Z.max 1 limit) ->
    fetch_rss_loop elements limit items
    = take (Z.to_nat (Z.max 1 limit)) (items ++ omap item_of elements)%list.
Proof.
  induction elements as [|element rest IH]; intros items Hlen.
  - simpl. rewrite app_nil_r. symmetry. apply take_ge. lia.
  - cbn [fetch_rss_loop]. rewrite omap_cons_eq.
    destruct (item_of element) as [item|].
    + assert (Hl : length (items ++ [item]) = S (length items))
        by (rewrite length_app; simpl; lia).
      destruct (limit <=? Z.of_nat (length (items ++ [item])))%Z eqn:Hstop.
      * rewrite Hl in Hstop. apply Z.leb_le in Hstop.
        assert (Hn : Z.to_nat (Z.max 1 limit) = length (items ++ [item]))
          by (rewrite Hl; lia).
        rewrite Hn.
        replace (items ++ item :: omap item_of rest)%list
          with ((items ++ [item]) ++ omap item_of rest)%list
          by (by rewrite <- app_assoc).
        by rewrite take_app_length.
      * rewrite Hl in Hstop. apply Z.leb_gt in Hstop.
        rewrite IH by (rewrite Hl; lia).
        by rewrite <- app_assoc.
    + by apply IH.
Qed.

(** X17. When the feed is fetched, [fetch_rss_items] returns the items
    made from the elements of the feed that have both a title and a link,
    in the order of the feed, and stops at [limit] items; elements without
    a title or a link are skipped and do not count. As the length is
    tested after an item is added, a limit of zero or less still returns
    the first item, when there is one. *)
Theorem fetch_rss_items_limit (limit : Z) (items : list PibItem) :
  fetch_rss_items limit = Some items ->
  exists elements,
    rss_feed = Some elements /\
    items = take (Z.to_nat (Z.max 1 limit)) (omap item_of elements) /\
    length items <= Z.to_nat (Z.max 1 limit) /\
    ((limit <= 0)%Z -> items = take 1 (omap item_of elements)).
Proof.
  unfold fetch_rss_items. destruct rss_feed as [elements|]; [|done].
  intros [= <-]. exists elements. split; [done|].
  rewrite fetch_rss_loop_take by (simpl; lia). rewrite app_nil_l.
  split; [done|]. split; [rewrite length_take; lia|].
  intros Hle. by replace (Z.to_nat (Z.max 1 limit)) with 1 by lia.
Qed.






Lemma build_facts_loop_omap (items : list PibItem) : forall idx facts,
  build_facts_loop items idx facts
  = (facts ++ omap (fun p => fact_of_item p.1 p.2)
               (zip (seq idx (length items)) items))%list.
Proof.
  induction items as [|item rest IH]; intros idx facts.
  - simpl. by rewrite app_nil_r.
  - cbn [build_facts_loop length seq zip zip_with]. rewrite omap_cons_eq.
    unfold extract_main_text_from_press_release, fact_of_item at 1. cbn [fst snd].
    destruct (press_release (link item)) as [page|].
    + rewrite IH, <- app_assoc. done.
    + by rewrite IH.
Qed.

Lemma fact_of_item_id idx item fact :
  fact_of_item idx item = Some fact ->
  fact_id fact = idx /\
  exists page, press_release (link item) = Some page /\
    fact_statement fact = main_text page /\
    fact_title fact = title item /\ fact_url fact = link item /\
    fact_source fact = "PIB" /\
    fact_date fact = parse_pub_date (pub_date item).
Proof.
  unfold fact_of_item. destruct (press_release (link item)) as [page|]; [|done].
  intros [= <-]. simpl. eauto 10.
Qed.

Lemma numbered_facts (items : list PibItem) : forall idx,
  let facts := omap (fun p => fact_of_item p.1 p.2)
                 (zip (seq idx (length items)) items) in
  StronglySorted lt (map fact_id facts) /\
  Forall (fun fact =>
            idx <= fact_id fact < idx + length items /\
            exists item, items !! (fact_id fact - idx) = Some item /\
                         fact_of_item (fact_id fact) item = Some fact) facts /\
  length facts
  = length (filter (fun item => is_Some (press_release (link item))) items).
Proof.
  induction items as [|item rest IH]; intros idx.
  - simpl. split; [constructor|]. split; [constructor|done].
  - cbv zeta. cbn [length seq zip zip_with]. rewrite omap_cons_eq. cbn [fst snd].
    destruct (IH (S idx)) as (Hsorted & Hall & Hlen). cbv zeta in Hsorted, Hall, Hlen.
    assert (Hall' : Forall (fun fact =>
              idx <= fact_id fact < idx + S (length rest) /\
              exists item0, (item :: rest) !! (fact_id fact - idx) = Some item0 /\
                            fact_of_item (fact_id fact) item0 = Some fact)
              (omap (fun p => fact_of_item p.1 p.2)
                 (zip (seq (S idx) (length rest)) rest))).
    { eapply Forall_impl; [exact Hall|]. intros fact (Hr & item0 & Hi & Hf).
      split; [lia|]. exists item0. split; [|done].
      replace (fact_id fact - idx) with (S (fact_id fact - S idx)) by lia. done. }
    rewrite filter_cons.
    destruct (fact_of_item idx item) as [fact|] eqn:Hfact.
    + destruct (fact_of_item_id _ _ _ Hfact) as (Hid & page & Hpage & _).
      rewrite decide_True by (by rewrite Hpage). cbn [map length].
      split; [|split].
      * constructor; [done|]. rewrite Forall_fmap.
        eapply Forall_impl; [exact Hall|]. intros f [Hr _]. simpl. lia.
      * constructor; [|done]. split; [lia|]. exists item.
        rewrite Hid, Nat.sub_diag. done.
      * by rewrite Hlen.
    + rewrite decide_False.
      * done.
      * unfold fact_of_item in Hfact.
        destruct (press_release (link item)); [done|]. by intros [? ?].
Qed.

(** X19. Once the feed is fetched, [build_facts_from_pib] returns: an item
    whose page cannot be fetched is skipped and the others are kept. The
    facts are those of the items whose page was fetched, in the order of
    the feed; each is numbered by the place of its item in the feed, from
    1, so the ids are strictly increasing and a skipped item leaves a gap;
    each carries the title and link of its item, the source PIB and the
    statement kept from its page. *)
Theorem build_facts_from_pib_ids (limit : Z) (items : list PibItem) :
  fetch_rss_items limit = Some items ->
  exists facts,
    build_facts_from_pib limit = Some facts /\
    StronglySorted lt (map fact_id facts) /\
    length facts
    = length (filter (fun item => is_Some (press_release (link item))) items) /\
    Forall (fun fact =>
              1 <= fact_id fact <= length items /\
              exists item page,
                items !! (fact_id fact - 1) = Some item /\
                press_release (link item) = Some page /\
                fact_statement fact = main_text page /\
                fact_title fact = title item /\ fact_url fact = link item /\
                fact_source fact = "PIB") facts.
Proof.
  intros Hitems. unfold build_facts_from_pib. rewrite Hitems.
  eexists. split; [reflexivity|].
  rewrite build_facts_loop_omap, app_nil_l.
  destruct (numbered_facts items 1) as (Hsorted & Hall & Hlen).
  cbv zeta in Hsorted, Hall, Hlen.
  split; [done|]. split; [done|].
  eapply Forall_impl; [exact Hall|]. intros fact (Hr & item & Hi & Hf).
  split; [lia|].
  destruct (fact_of_item_id _ _ _ Hf) as (_ & page & Hpage & Hs & Ht & Hu & Hsrc & _).
  exists item, page. done.
Qed.
End ScraperFacts.

Module ScraperSampleFacts.
Import Scraper.
Local Open Scope str_scope.

Lemma fetch_rss_items_limit_witness :
  exists elements,
    @rss_feed sample_web = Some elements /\
    [ {| title := "Rice exports"; link := "https://pib.gov.in/1";
         pub_date := Some "Mon, 03 Feb 2025 10:00:00 +0530" |} ]
    = take (Z.to_nat (Z.max 1 0)) (omap item_of elements).
Proof.
  destruct (@fetch_rss_items_limit sample_web 0
              [ {| title := "Rice exports"; link := "https://pib.gov.in/1";
                   pub_date := Some "Mon, 03 Feb 2025 10:00:00 +0530" |} ]
              eq_refl) as (elements & Hfeed & Hitems & _).
  exists elements. split; [exact Hfeed|exact Hitems].
Defined.


Lemma build_facts_from_pib_ids_witness :
  exists facts,
    @build_facts_from_pib sample_web 50 = Some facts /\
    StronglySorted lt (map fact_id facts) /\
    length facts = 2.
Proof.
  destruct (@build_facts_from_pib_ids sample_web 50
              (match @fetch_rss_items sample_web 50 with
               | Some items => items
               | None => []
               end) eq_refl) as (facts & Hrun & Hsorted & Hlen & _).
  exists facts. split; [exact Hrun|]. split; [exact Hsorted|exact Hlen].
Defined.
End ScraperSampleFacts.

(** ** The page *)

Section PageFacts.
Import App.
Context `{NLP} `{Retrieval} `{FloatRepr}.
Local Open Scope str_scope.

Lemma classify_claim_verdicts claim_text st record st' :
  classify_claim claim_text st = (Ok record, st') ->
  (verdict record = "True" \/ verdict record = "False" \/
   verdict record = "Unverifiable") /\
  length (evidence record) <= 3 /\
  (evidence record = [] <-> verdict record = "Unverifiable").
Proof.
  intros Hrun.
  destruct (classify_claim_judge claim_text st) as (res & Hres & Hcase).
  cbv zeta in Hres, Hcase. rewrite Hrun in Hres. injection Hres as <- _.
  destruct (collect (fact_of (metadata st)) _) as [facts e0].
  cbn [fst snd] in *. destruct e0 as [e0|]; [done|].
  destruct (judge claim_text facts) as [[v ev]|e1] eqn:Hj; [|done].
  destruct Hcase as (record' & [= <-] & _ & _ & Hv & Hev).
  apply judge_ok in Hj as (H3 & Hle3 & _ & Hiff & _).
  by rewrite Hv, Hev.
Qed.

Lemma show_result_classified claim_text st record st' :
  classify_claim claim_text st = (Ok record, st') ->
  exists icon,
    show_result record
    = ([ st_write ("### Claim: " ++ claim_text);
         st_markdown ("**Verdict:** " ++ icon ++ " **" ++ verdict record ++ "**");
         st_write ("**📝 Reasoning:** " ++ reasoning record) ]
       ++ (if bool_decide (verdict record = "Unverifiable") then []
           else st_write "**📚 Evidence from PIB:**"
                :: map (fun ev => st_write ("🔹 " ++ format ev)) (evidence record))
       ++ [ st_write "---" ])%list.
Proof.
  intros Hrun.
  pose proof (classify_claim_field _ _ _ _ Hrun) as Hclaim.
  destruct (classify_claim_verdicts _ _ _ _ Hrun) as (Hv & _ & Hiff).
  unfold show_result. rewrite Hclaim. cbv zeta.
  destruct Hv as [Hv|[Hv|Hv]]; rewrite Hv in *.
  - exists "🟢".
    rewrite (bool_decide_false (evidence record = []))
      by (intros He; by apply Hiff in He).
    rewrite (bool_decide_false ("True" = "Unverifiable")) by done.
    reflexivity.
  - exists "🔴".
    rewrite (bool_decide_false (evidence record = []))
      by (intros He; by apply Hiff in He).
    rewrite (bool_decide_false ("False" = "Unverifiable")) by done.
    reflexivity.
  - exists "⚪".
    rewrite (bool_decide_true ("Unverifiable" = "Unverifiable")) by done.
    reflexivity.
Qed.

(** X20. The block the page shows for a record of [classify_claim] is: the
    claim, the verdict of the record behind an icon, the reasoning, then,
    unless the verdict is Unverifiable, the evidence heading and one line
    per evidence item of the record, in order, and a rule. The page thus
    hides no evidence of a True or False record, shows no empty evidence
    heading, and a block has four calls for an Unverifiable record and
    between six and eight otherwise. *)
Theorem show_result_evidence (claim_text : str) (st st' : store)
    (record : VerdictRecord) :
  classify_claim claim_text st = (Ok record, st') ->
  (exists icon,
     show_result record
     = ([ st_write ("### Claim: " ++ claim_text);
          st_markdown ("**Verdict:** " ++ icon ++ " **" ++ verdict record ++ "**");
          st_write ("**📝 Reasoning:** " ++ reasoning record) ]
        ++ (if bool_decide (verdict record = "Unverifiable") then []
            else st_write "**📚 Evidence from PIB:**"
                 :: map (fun ev => st_write ("🔹 " ++ format ev)) (evidence record))
        ++ [ st_write "---" ])%list) /\
  (verdict record = "Unverifiable" -> length (show_result record) = 4) /\
  (verdict record <> "Unverifiable" ->
   length (show_result record) = 5 + length (evidence record) /\
   6 <= length (show_result record) <= 8).
Proof.
  intros Hrun.
  destruct (show_result_classified _ _ _ _ Hrun) as (icon & Hshow).
  destruct (classify_claim_verdicts _ _ _ _ Hrun) as (_ & Hle & Hiff).
  split; [by exists icon|]. rewrite Hshow. split.
  - intros Hv. by rewrite bool_decide_true by done.
  - intros Hv. rewrite bool_decide_false by done.
    cbn [app length]. rewrite length_app, length_map. cbn [length].
    assert (length (evidence record) <> 0).
    { intros Hz. apply Hv, Hiff. by destruct (evidence record). }
    lia.
Qed.

Lemma show_result_length claim_text st record st' :
  classify_claim claim_text st = (Ok record, st') ->
  length (show_result record) <= 8.
Proof.
  intros Hrun.
  destruct (show_result_classified _ _ _ _ Hrun) as (icon & ->).
  destruct (classify_claim_verdicts _ _ _ _ Hrun) as (_ & Hle & _).
  destruct (bool_decide _); cbn [app length];
    rewrite ?length_app, ?length_map; cbn [length]; lia.
Qed.

Lemma blocks_length (claims : list Claim) (records : list VerdictRecord) :
  Forall2 (fun (c : Claim) record =>
             claim record = sentence c /\ length (show_result record) <= 8)
    claims records ->
  length (concat (map show_result records)) <= 8 * length claims.
Proof.
  induction 1 as [|c record claims records [_ Hle] _ IH]; [done|].
  cbn [map concat length]. rewrite length_app. lia.
Qed.

(** X21. Pressing the button on a blank input, one that [str.strip]
    empties, draws nothing and leaves the store as it is. On any other
    input the page follows [fact_check_text]:
    when it raises, so does the script, and no result is drawn; when it
    returns, the page is the warning alone if no sentence of the input
    qualifies as a claim, and otherwise the heading followed by one block
    per qualifying sentence, in the order of the sentences, each block
    opening with the stripped sentence; such a page has at most eight
    calls per claim after the heading. *)
Theorem check_facts_page (input_text : str) (st : store) :
  (strip input_text = "" -> check_facts input_text st = (Ok [], st)) /\
  (strip input_text <> "" ->
   (forall e st', fact_check_text input_text st = (Raise e, st') ->
      check_facts input_text st = (Raise e, st')) /\
   (forall records st', fact_check_text input_text st = (Ok records, st') ->
      let selected := filter qualifies (sents (nlp input_text)) in
      exists page,
        check_facts input_text st = (Ok page, st') /\
        (selected = [] -> exists text, page = [st_warning text]) /\
        (selected <> [] ->
         page = st_subheader "📜 Results:" :: concat (map show_result records)) /\
        Forall2 (fun sent record =>
                   head (show_result record)
                   = Some (st_write ("### Claim: " ++ strip sent)))
          selected records /\
        length page <= 1 + 8 * length selected)).
Proof.
  unfold check_facts. split.
  { intros Hblank. by rewrite bool_decide_true by done. }
  intros Hfull. rewrite bool_decide_false by done. split.
  { intros e st' Hrun. unfold bind. by rewrite Hrun. }
  intros records st' Hrun. cbv zeta.
  set (selected := filter qualifies (sents (nlp input_text))).
  unfold bind. rewrite Hrun.
  pose proof Hrun as Hmap. rewrite fact_check_text_mapM in Hmap.
  apply (mapM_ok_inv _ (fun (c : Claim) record =>
           claim record = sentence c /\ length (show_result record) <= 8))
    in Hmap.
  2:{ intros c st1 record st2 Hc. split.
      - by eapply classify_claim_field.
      - by eapply show_result_length. }
  assert (Hclaims : extract_claims input_text = map claim_of selected).
  { unfold extract_claims. by rewrite extract_claims_loop_filter. }
  rewrite Hclaims in Hmap.
  pose proof (blocks_length _ _ Hmap) as Hlen. rewrite length_map in Hlen.
  assert (Hheads : Forall2 (fun sent record =>
                     head (show_result record)
                     = Some (st_write ("### Claim: " ++ strip sent)))
                     selected records).
  { apply Forall2_fmap_l in Hmap. eapply Forall2_impl; [exact Hmap|].
    intros sent record [Hc _]. unfold show_result. cbv zeta. cbn [app head].
    by rewrite Hc. }
  pose proof (Forall2_length _ _ _ Hheads) as Hsame.
  destruct records as [|record records].
  - exists [st_warning
             ("⚠ I couldn't detect any clear factual claim. " ++
              "Please enter a full sentence like: " ++
              "'The government has announced free electricity to all farmers from July 2025.'")].
    split; [done|]. split; [eauto|]. split.
    + intros Hne. by destruct selected.
    + split; [done|]. cbn [length]. lia.
  - eexists. split; [reflexivity|]. split.
    + intros He. rewrite He in Hsame. done.
    + split; [done|]. split; [done|]. cbn [length] in *. lia.
Qed.
End PageFacts.

Module AppSampleFacts.
Import Sample MoreSample App AppSample.
Local Open Scope str_scope.

Lemma show_result_evidence_witness :
  length (show_result record_nba) = 5 + length (evidence record_nba) /\
  6 <= length (show_result record_nba) <= 8.
Proof.
  destruct (show_result_evidence claim_nba loaded
              (classify_claim claim_nba loaded).2 record_nba)
    as (_ & _ & Hshown).
  - exact eq_refl.
  - apply Hshown. intros Hv. vm_compute in Hv. discriminate Hv.
Defined.

Lemma check_facts_page_witness :
  exists page,
    check_facts text_two loaded = (Ok page, (fact_check_text text_two loaded).2) /\
    length page <= 1 + 8 * length (filter qualifies (sents (nlp text_two))).
Proof.
  destruct (check_facts_page text_two loaded) as (_ & Hfull).
  destruct Hfull as (_ & Hpage).
  { intros Hs. vm_compute in Hs. discriminate Hs. }
  destruct (Hpage records_two (fact_check_text text_two loaded).2)
    as (page & Hrun & _ & _ & _ & Hlen).
  - exact eq_refl.
  - exists page. split; [exact Hrun|exact Hlen].
Defined.
End AppSampleFacts.

(** ** Texts outside ASCII *)

Module UnicodeFacts.
Import Scraper.
Local Open Scope str_scope.

(** A literal is the sequence of its code points. *)
Example literal_code_points :
  Str.to_list "é₹📜" = [233; 8377; 128220]%N /\ Str.length "é₹📜" = 3.
Proof. split; reflexivity. Qed.

(** [\d] matches the decimal digits of every script, and [float] reads
    them. *)
Example arabic_indic_digit :
  extract_numbers "٣ crore" = [Float.of_decimal 3 0].
Proof. vm_compute. reflexivity. Qed.

Example mixed_scripts :
  extract_numbers "1٣2" = [Float.of_decimal 132 0].
Proof. vm_compute. reflexivity. Qed.

Example devanagari_digits :
  has_digit "४० जिले" = true /\
  extract_numbers "४० जिले" = [Float.of_decimal 40 0].
Proof. split; vm_compute; reflexivity. Qed.

(** Superscripts and fractions are not decimal digits. *)
Example superscript_two : is_digit "²" = false /\ is_digit "½" = false.
Proof. split; reflexivity. Qed.

(** [str.strip] removes the no-break space and the other white space of
    Unicode. *)
Example no_break_space :
  strip (Char 160%N ("India exported rice." ++ Char 160%N "")) = "India exported rice."
  /\ strip (Char 160%N (Char 8195%N (Char 12288%N ""))) = "".
Proof. split; vm_compute; reflexivity. Qed.

(** Slices count code points: of 1001 letters é, 1000 are kept. *)
Example body_of_accents :
  main_text {| paragraphs := []; body_text := Str.of_list (repeat 233%N (10 * 100 + 1)) |}
  = Str.of_list (repeat 233%N (10 * 100)).
Proof. vm_compute. reflexivity. Qed.
End UnicodeFacts.
